(** * survey-app: the survey-taking flow, the answer codec, the validation
      schemas, the analytics tally and the CSV export, embedded from the
      TypeScript sources and checked against the specification.

    Conventions of the embedding.

    - A JavaScript string is a [string] of the Standard Library: a sequence of
      code units, each below 256 (the Latin-1 range).  On that range
      [String.length] is the JavaScript [length], and the character classes
      and case mapping below are the JavaScript ones.
    - A JavaScript number that is used as an index is a [Z].
    - A value of type [any] is a [Js.value].
    - An object literal used as a map is the list of its own properties in
      the order of their creation; a lookup that finds no own property falls
      through to [Object.prototype].
    - An exception thrown by the source is [None] in an [option] result.
    - The hosted store and the date formatter are parameters. *)

From Stdlib Require Import String Ascii List ZArith NArith Lia Bool Arith.
From Stdlib Require Import Sorted Permutation.
Import ListNotations.

Open Scope string_scope.

(* ================================================================== *)
(** * JavaScript built-ins used by the sources *)
(* ================================================================== *)

Module Js.

(** ** Characters *)

Definition code (c : ascii) : N := N_of_ascii c.

Definition between (lo hi : N) (c : ascii) : bool :=
  ((lo <=? code c) && (code c <=? hi))%N.

Definition isLowerAZ (c : ascii) : bool := between 97 122 c.
Definition isDigit (c : ascii) : bool := between 48 57 c.
Definition isHyphen (c : ascii) : bool := (code c =? 45)%N.

(** The regular-expression class [\s], which is also the set that [trim]
    strips: TAB, LF, VT, FF, CR, SPACE and NBSP are its members below 256. *)
Definition isSpace (c : ascii) : bool :=
  between 9 13 c || (code c =? 32)%N || (code c =? 160)%N.

(** [String.prototype.toLowerCase], one code unit at a time: A-Z and the
    Latin-1 capitals (all of U+00C0..U+00DE but the multiplication sign). *)
Definition lowerChar (c : ascii) : ascii :=
  if between 65 90 c || (between 192 222 c && negb (code c =? 215)%N)
  then ascii_of_N (code c + 32)
  else c.

(** ** Strings *)

Fixpoint mapChars (f : ascii -> ascii) (s : string) : string :=
  match s with
  | EmptyString => EmptyString
  | String c t => String (f c) (mapChars f t)
  end.

Definition toLowerCase (s : string) : string := mapChars lowerChar s.

Fixpoint allChars (p : ascii -> bool) (s : string) : bool :=
  match s with
  | EmptyString => true
  | String c t => p c && allChars p t
  end.

(** [s.replace(/[^...]/g, '')]: the characters of the class are dropped. *)
Fixpoint removeChars (drop : ascii -> bool) (s : string) : string :=
  match s with
  | EmptyString => EmptyString
  | String c t =>
      if drop c then removeChars drop t else String c (removeChars drop t)
  end.

(** [s.replace(/X+/g, r)] for a one-character class [X] and a replacement of
    one character: every maximal run of [X] becomes one [r].  [inrun] says
    that the previous character belonged to the run being replaced. *)
Fixpoint replaceRuns (p : ascii -> bool) (r : ascii) (inrun : bool)
         (s : string) : string :=
  match s with
  | EmptyString => EmptyString
  | String c t =>
      if p c
      then if inrun then replaceRuns p r true t
           else String r (replaceRuns p r true t)
      else String c (replaceRuns p r false t)
  end.

(** [s.replace(/c/g, r)] for one character [c] and a replacement string. *)
Fixpoint replaceChar (p : ascii -> bool) (r : string) (s : string) : string :=
  match s with
  | EmptyString => EmptyString
  | String c t =>
      if p c then r ++ replaceChar p r t else String c (replaceChar p r t)
  end.

Fixpoint trimStart (s : string) : string :=
  match s with
  | EmptyString => EmptyString
  | String c t => if isSpace c then trimStart t else s
  end.

Fixpoint trimEnd (s : string) : string :=
  match s with
  | EmptyString => EmptyString
  | String c t =>
      match trimEnd t with
      | EmptyString => if isSpace c then EmptyString else String c EmptyString
      | t' => String c t'
      end
  end.

Definition trim (s : string) : string := trimEnd (trimStart s).

(** [Array.prototype.join] on an array of strings. *)
Fixpoint join (sep : string) (l : list string) : string :=
  match l with
  | [] => EmptyString
  | [x] => x
  | x :: t => x ++ sep ++ join sep t
  end.

Definition isEmpty (s : string) : bool :=
  match s with EmptyString => true | _ => false end.

(** ** Values of type [any]

    The values the survey pages handle: [undefined], [null], booleans,
    strings and arrays of strings. *)

Inductive value : Type :=
| Undefined
| Null
| Bool (b : bool)
| Str (s : string)
| Arr (l : list string).

(** The [typeof] operator. *)
Definition typeof (v : value) : string :=
  match v with
  | Undefined => "undefined"
  | Null => "object"
  | Bool _ => "boolean"
  | Str _ => "string"
  | Arr _ => "object"
  end.

(** A nullable string column read as a value. *)
Definition ofNullable (o : option string) : value :=
  match o with
  | Some s => Str s
  | None => Null
  end.

(** [v[0]] for an array, [undefined] when it is empty. *)
Definition first (l : list string) : value :=
  match l with
  | [] => Undefined
  | x :: _ => Str x
  end.

(** [ToString], as applied to a property key and by [toString()]. *)
Definition toString (v : value) : string :=
  match v with
  | Undefined => "undefined"
  | Null => "null"
  | Bool true => "true"
  | Bool false => "false"
  | Str s => s
  | Arr l => join "," l
  end.

(** ** JSON *)

Definition dquote : ascii := "034".
Definition backslash : ascii := "\".

Definition isDquote (c : ascii) : bool := (code c =? 34)%N.
Definition isBackslash (c : ascii) : bool := (code c =? 92)%N.
Definition isControl (c : ascii) : bool := (code c <? 32)%N.

(** JSON white space: SPACE, TAB, LF, CR. *)
Definition isJsonSpace (c : ascii) : bool :=
  (code c =? 32)%N || (code c =? 9)%N || (code c =? 10)%N || (code c =? 13)%N.

Definition hexDigit (n : N) : ascii :=
  if (n <? 10)%N then ascii_of_N (48 + n) else ascii_of_N (87 + n).

(** One code unit inside the quotes of [JSON.stringify]. *)
Definition quoteChar (c : ascii) : string :=
  let n := code c in
  if (n =? 8)%N then "\b"
  else if (n =? 9)%N then "\t"
  else if (n =? 10)%N then "\n"
  else if (n =? 12)%N then "\f"
  else if (n =? 13)%N then "\r"
  else if (n =? 34)%N then String backslash (String dquote EmptyString)
  else if (n =? 92)%N then "\\"
  else if (n <? 32)%N
       then "\u00" ++ String (hexDigit (n / 16))
                          (String (hexDigit (n mod 16)) EmptyString)
  else String c EmptyString.

Fixpoint quoteBody (s : string) : string :=
  match s with
  | EmptyString => EmptyString
  | String c t => quoteChar c ++ quoteBody t
  end.

Definition quote (s : string) : string :=
  String dquote (quoteBody s ++ String dquote EmptyString).

(** [JSON.stringify]; [None] is the [undefined] it returns for [undefined]. *)
Definition JSON_stringify (v : value) : option string :=
  match v with
  | Undefined => None
  | Null => Some "null"
  | Bool true => Some "true"
  | Bool false => Some "false"
  | Str s => Some (quote s)
  | Arr l => Some ("[" ++ join "," (map quote l) ++ "]")
  end.

(** The value of a hexadecimal digit. *)
Definition hexValue (c : ascii) : option N :=
  if between 48 57 c then Some (code c - 48)%N
  else if between 97 102 c then Some (code c - 87)%N
  else if between 65 70 c then Some (code c - 55)%N
  else None.

(** The code unit written [\uh1h2h3h4], when it is below 256. *)
Definition unicodeEscape (h1 h2 h3 h4 : ascii) : option ascii :=
  match hexValue h1, hexValue h2, hexValue h3, hexValue h4 with
  | Some a, Some b, Some c, Some d =>
      let n := (4096 * a + 256 * b + 16 * c + d)%N in
      if (n <? 256)%N then Some (ascii_of_N n) else None
  | _, _, _, _ => None
  end.

(** The code unit written by a one-letter escape. *)
Definition simpleEscape (e : ascii) : option ascii :=
  let n := code e in
  if (n =? 34)%N then Some dquote
  else if (n =? 92)%N then Some backslash
  else if (n =? 47)%N then Some "/"%char
  else if (n =? 98)%N then Some (ascii_of_N 8)
  else if (n =? 102)%N then Some (ascii_of_N 12)
  else if (n =? 110)%N then Some (ascii_of_N 10)
  else if (n =? 114)%N then Some (ascii_of_N 13)
  else if (n =? 116)%N then Some (ascii_of_N 9)
  else None.

(** The text is [lit] followed by white space only. *)
Fixpoint literalThenSpace (lit s : string) : bool :=
  match lit, s with
  | EmptyString, _ => allChars isJsonSpace s
  | String a lit', String b s' =>
      (code a =? code b)%N && literalThenSpace lit' s'
  | String _ _, EmptyString => false
  end.

Definition ofRev (acc : list ascii) : string :=
  string_of_list_ascii (rev acc).

(** Where the reader of [JSON.parse] stands. *)
Inductive mode : Type :=
| Start        (* before the value *)
| TopStr       (* inside a string that is the whole value *)
| ElemOrClose  (* after the opening bracket *)
| Elem         (* after a comma *)
| ElemStr      (* inside a string that is an array element *)
| AfterElem.   (* after an array element *)

(** [JSON.parse] on the texts of the values above: [null], [true], [false],
    a string, an array of strings.  [acc] holds the code units of the string
    being read and [done] the elements read so far, both latest first.
    [None] is the [SyntaxError] of a malformed text; a well-formed text of
    another shape (a number, an object, an array of other values, an escape
    of a code unit above 255) is outside this model and is [None] as well. *)
Fixpoint parseFrom (m : mode) (acc : list ascii) (done : list string)
         (s : string) : option value :=
  match s with
  | EmptyString => None
  | String c t =>
      match m with
      | Start =>
          if isJsonSpace c then parseFrom Start acc done t
          else if isDquote c then parseFrom TopStr [] done t
          else if (code c =? 91)%N then parseFrom ElemOrClose acc done t
          else if literalThenSpace "null" s then Some Null
          else if literalThenSpace "true" s then Some (Bool true)
          else if literalThenSpace "false" s then Some (Bool false)
          else None
      | ElemOrClose =>
          if isJsonSpace c then parseFrom ElemOrClose acc done t
          else if isDquote c then parseFrom ElemStr [] done t
          else if (code c =? 93)%N
               then if allChars isJsonSpace t then Some (Arr (rev done))
                    else None
          else None
      | Elem =>
          if isJsonSpace c then parseFrom Elem acc done t
          else if isDquote c then parseFrom ElemStr [] done t
          else None
      | AfterElem =>
          if isJsonSpace c then parseFrom AfterElem acc done t
          else if (code c =? 44)%N then parseFrom Elem acc done t
          else if (code c =? 93)%N
               then if allChars isJsonSpace t then Some (Arr (rev done))
                    else None
          else None
      | TopStr | ElemStr =>
          if isDquote c then
            match m with
            | TopStr =>
                if allChars isJsonSpace t then Some (Str (ofRev acc))
                else None
            | _ => parseFrom AfterElem [] (ofRev acc :: done) t
            end
          else if isBackslash c then
            match t with
            | EmptyString => None
            | String e t1 =>
                if (code e =? 117)%N then
                  match t1 with
                  | String h1 (String h2 (String h3 (String h4 t5))) =>
                      match unicodeEscape h1 h2 h3 h4 with
                      | Some d => parseFrom m (d :: acc) done t5
                      | None => None
                      end
                  | _ => None
                  end
                else
                  match simpleEscape e with
                  | Some d => parseFrom m (d :: acc) done t1
                  | None => None
                  end
            end
          else if isControl c then None
          else parseFrom m (c :: acc) done t
      end
  end.

Definition JSON_parse (s : string) : option value := parseFrom Start [] [] s.

(** ** Objects used as maps

    An object with string keys is the list of its properties in the order of
    their creation, every key once. *)

Definition object (A : Type) : Type := list (string * A).

Fixpoint get {A : Type} (o : object A) (k : string) : option A :=
  match o with
  | [] => None
  | (k', v) :: t => if String.eqb k' k then Some v else get t k
  end.

(** [o[k] = v]: an existing property keeps its place, a new one goes last. *)
Fixpoint set {A : Type} (o : object A) (k : string) (v : A) : object A :=
  match o with
  | [] => [(k, v)]
  | (k', v') :: t =>
      if String.eqb k' k then (k, v) :: t else (k', v') :: set t k v
  end.

(** [delete o[k]]. *)
Fixpoint delete {A : Type} (o : object A) (k : string) : object A :=
  match o with
  | [] => []
  | (k', v') :: t =>
      if String.eqb k' k then delete t k else (k', v') :: delete t k
  end.

(** The number written by a string of decimal digits. *)
Fixpoint digitsValue (acc : N) (s : string) : N :=
  match s with
  | EmptyString => acc
  | String c t => digitsValue (10 * acc + (code c - 48))%N t
  end.

(** An array index: the canonical decimal text of an integer below
    [2^32 - 1]. *)
Definition arrayIndex (k : string) : option N :=
  match k with
  | EmptyString => None
  | String c t =>
      if allChars isDigit k
         && (isEmpty t || negb (code c =? 48)%N)
         && (String.length k <=? 10)%nat
         && (digitsValue 0 k <? 4294967295)%N
      then Some (digitsValue 0 k)
      else None
  end.

Fixpoint insertByIndex {A : Type} (n : N) (e : string * A)
         (l : list (N * (string * A))) : list (N * (string * A)) :=
  match l with
  | [] => [(n, e)]
  | (n', e') :: t =>
      if (n <? n')%N then (n, e) :: l else (n', e') :: insertByIndex n e t
  end.

Fixpoint indexProps {A : Type} (o : object A) : list (N * (string * A)) :=
  match o with
  | [] => []
  | (k, v) :: t =>
      match arrayIndex k with
      | Some n => insertByIndex n (k, v) (indexProps t)
      | None => indexProps t
      end
  end.

Fixpoint nameProps {A : Type} (o : object A) : list (string * A) :=
  match o with
  | [] => []
  | (k, v) :: t =>
      match arrayIndex k with
      | Some _ => nameProps t
      | None => (k, v) :: nameProps t
      end
  end.

(** [Object.entries]: the array-index keys in ascending order, then the other
    keys in the order of their creation. *)
Definition entries {A : Type} (o : object A) : list (string * A) :=
  map snd (indexProps o) ++ nameProps o.

(** [l[i]] for a number [i]: [undefined] outside of the array. *)
Definition index {A : Type} (l : list A) (i : Z) : option A :=
  if (i <? 0)%Z then None else nth_error l (Z.to_nat i).

(** The names every object inherits from [Object.prototype]. *)
Definition inheritedNames : list string :=
  ["constructor"; "__defineGetter__"; "__defineSetter__"; "hasOwnProperty";
   "__lookupGetter__"; "__lookupSetter__"; "isPrototypeOf";
   "propertyIsEnumerable"; "toString"; "valueOf"; "__proto__";
   "toLocaleString"].

Definition inherited (k : string) : bool :=
  existsb (String.eqb k) inheritedNames.

(** What [o[k]] evaluates to on an object literal used as a map: the own
    property, or else the member of [Object.prototype] of that name (a
    function, or the prototype itself), or else [undefined]. *)
Inductive property : Type :=
| Own (v : value)
| Inherited
| Missing.

Definition prop (o : object value) (k : string) : property :=
  match get o k with
  | Some v => Own v
  | None => if inherited k then Inherited else Missing
  end.

(** [p === undefined], [p === null] and [p === '']. *)
Definition isUndefined (p : property) : bool :=
  match p with
  | Missing | Own Undefined => true
  | _ => false
  end.
Definition isNull (p : property) : bool :=
  match p with Own Null => true | _ => false end.
Definition isEmptyStr (p : property) : bool :=
  match p with Own (Str s) => isEmpty s | _ => false end.

End Js.

(* ================================================================== *)
(** * lib/validations: the zod schemas *)
(* ================================================================== *)

Module Validations.

Inductive QuestionType : Type :=
| multiple_choice | short_answer | long_answer | likert_scale | file_upload.

Inductive Status : Type := draft | active | closed.

(** The input of [questionSchema]; [None] is an absent optional field. *)
Record QuestionFormData : Type := mkQuestionFormData {
  question_text : string;
  question_type : QuestionType;
  options : option (list string);
  required : bool;
  order_index : Z
}.

Record SurveyWithQuestionsData : Type := mkSurveyWithQuestionsData {
  title : string;
  description : option string;
  slug : string;
  status : Status;
  start_date : option string;
  end_date : option string;
  questions : list QuestionFormData
}.

(** [z.string().min(n)] and [.max(n)]. *)
Definition minLen (n : nat) (s : string) : bool :=
  (n <=? String.length s)%nat.
Definition maxLen (n : nat) (s : string) : bool :=
  (String.length s <=? n)%nat.

(** The class [[a-z0-9-]] of the slug rule. *)
Definition slugChar (c : ascii) : bool :=
  Js.isLowerAZ c || Js.isDigit c || Js.isHyphen c.

(** [/^[a-z0-9-]+$/.test(s)]. *)
Definition slugRegex (s : string) : bool :=
  negb (Js.isEmpty s) && Js.allChars slugChar s.

(** The [slug] field of [surveySchema]. *)
Definition slugRule (s : string) : bool := minLen 1 s && slugRegex s.

(** The refinement of [questionSchema]:
    [data.options && data.options.length >= 2] for a multiple choice
    question, [true] for every other type. *)
Definition questionRefine (d : QuestionFormData) : bool :=
  match question_type d with
  | multiple_choice =>
      match options d with
      | Some l => (2 <=? List.length l)%nat
      | None => false
      end
  | _ => true
  end.

Definition questionSchema (d : QuestionFormData) : bool :=
  minLen 1 (question_text d) && (0 <=? order_index d)%Z && questionRefine d.

Definition surveySchema (d : SurveyWithQuestionsData) : bool :=
  minLen 1 (title d) && maxLen 200 (title d) && slugRule (slug d).

Definition surveyWithQuestionsSchema (d : SurveyWithQuestionsData) : bool :=
  surveySchema d
  && forallb questionSchema (questions d)
  && (1 <=? List.length (questions d))%nat.

End Validations.

(* ================================================================== *)
(** * app/admin/dashboard/create/page.tsx *)
(* ================================================================== *)

Module CreatePage.

(** The class [[^a-z0-9\s-]] of the first replacement. *)
Definition notSlugSource (c : ascii) : bool :=
  negb (Js.isLowerAZ c || Js.isDigit c || Js.isSpace c || Js.isHyphen c).

Definition generateSlug (title : string) : string :=
  Js.trim
    (Js.replaceRuns Js.isHyphen "-" false
       (Js.replaceRuns Js.isSpace "-" false
          (Js.removeChars notSlugSource
             (Js.toLowerCase title)))).

End CreatePage.


(* ================================================================== *)
(** * lib/database.types.ts: the rows of the four tables *)
(* ================================================================== *)

Module Database.

Module Survey.
Record Row : Type := mkRow {
  id : string;
  title : string;
  description : option string;
  slug : string;
  status : Validations.Status;
  start_date : option string;
  end_date : option string;
  created_at : string;
  updated_at : string;
  created_by : option string
}.
End Survey.

Module Question.
Record Row : Type := mkRow {
  id : string;
  survey_id : string;
  question_text : string;
  question_type : Validations.QuestionType;
  options : option string;
  order_index : Z;
  required : bool;
  created_at : string
}.
End Question.

Module Response.
Record Row : Type := mkRow {
  id : string;
  survey_id : string;
  participant_id : option string;
  submitted_at : string
}.
End Response.

(** The payload of an insert into [responses]. *)
Module NewResponse.
Record Row : Type := mkRow {
  survey_id : string;
  participant_id : option string
}.
End NewResponse.

Module Answer.
Record Row : Type := mkRow {
  id : string;
  response_id : string;
  question_id : string;
  answer_text : option string;
  answer_choice : option string;
  file_url : option string
}.
End Answer.

(** The payload of an insert into [answers]. *)
Module NewAnswer.
Record Row : Type := mkRow {
  response_id : string;
  question_id : string;
  answer_text : option string;
  answer_choice : option string
}.
End NewAnswer.

(** The row the table holds for an inserted answer: the store adds the id,
    [file_url] is not sent and stays null. *)
Definition storedAnswer (id : string) (a : NewAnswer.Row) : Answer.Row :=
  {| Answer.id := id;
     Answer.response_id := NewAnswer.response_id a;
     Answer.question_id := NewAnswer.question_id a;
     Answer.answer_text := NewAnswer.answer_text a;
     Answer.answer_choice := NewAnswer.answer_choice a;
     Answer.file_url := None |}.

End Database.

(* ================================================================== *)
(** * The data-access collaborator *)
(* ================================================================== *)

Module Supabase.
Import Database.

(** Modelled from the spec: the data-access collaborator of section 6, the
    hosted store behind the client of [lib/supabase], which is not among the
    sources.  Of its interface the survey page uses [insert(rows)] on two
    tables.  The store owns the tables; an insert either appends the rows,
    with the ids and the time the store generates, or fails with a message
    and changes nothing. *)
Record Store : Type := mkStore {
  responses : list Response.Row;
  answers : list Answer.Row
}.

Inductive Reply : Type :=
| Accepted
| Rejected (message : string).

(** What the hosted store does with the requests of one submission: whether
    it accepts each insert, and the values it generates for the new rows. *)
Record Backend : Type := mkBackend {
  onInsertResponse : Reply;
  onInsertAnswers : Reply;
  newResponseId : string;
  now : string;
  newAnswerId : nat -> string
}.

Inductive Result (A : Type) : Type :=
| Data (a : A)
| Error (message : string).
Arguments Data {A} a.
Arguments Error {A} message.

(** Modelled from the spec: [from('responses').insert(r).select().single()],
    the insert of one row, answered with the row created or with an error. *)
Definition insertResponse (b : Backend) (db : Store) (r : NewResponse.Row)
  : Store * Result Response.Row :=
  match onInsertResponse b with
  | Rejected msg => (db, Error msg)
  | Accepted =>
      let row := {| Response.id := newResponseId b;
                    Response.survey_id := NewResponse.survey_id r;
                    Response.participant_id := NewResponse.participant_id r;
                    Response.submitted_at := now b |} in
      ({| responses := responses db ++ [row]; answers := answers db |},
       Data row)
  end.

Fixpoint storeAll (b : Backend) (n : nat) (rows : list NewAnswer.Row)
  : list Answer.Row :=
  match rows with
  | [] => []
  | r :: t => storedAnswer (newAnswerId b n) r :: storeAll b (S n) t
  end.

(** Modelled from the spec: [from('answers').insert(rows)], the insert of
    several rows; the result is the error, if any. *)
Definition insertAnswers (b : Backend) (db : Store) (rows : list NewAnswer.Row)
  : Store * option string :=
  match onInsertAnswers b with
  | Rejected msg => (db, Some msg)
  | Accepted =>
      ({| responses := responses db;
          answers := answers db ++ storeAll b (List.length (answers db)) rows |},
       None)
  end.

End Supabase.

(* ================================================================== *)
(** * app/survey/[slug]/page.tsx *)
(* ================================================================== *)

Module SurveyPage.
Import Database.

Record SurveyWithQuestions : Type := mkSurveyWithQuestions {
  row : Survey.Row;
  questions : list Question.Row
}.

(** The state of the component. *)
Record State : Type := mkState {
  survey : option SurveyWithQuestions;
  currentQuestionIndex : Z;
  answers : Js.object Js.value;
  isLoading : bool;
  isSubmitting : bool;
  error : option string
}.

Definition setCurrentQuestionIndex (f : Z -> Z) (st : State) : State :=
  {| survey := survey st;
     currentQuestionIndex := f (currentQuestionIndex st);
     answers := answers st;
     isLoading := isLoading st;
     isSubmitting := isSubmitting st;
     error := error st |}.

Definition setAnswers (f : Js.object Js.value -> Js.object Js.value)
           (st : State) : State :=
  {| survey := survey st;
     currentQuestionIndex := currentQuestionIndex st;
     answers := f (answers st);
     isLoading := isLoading st;
     isSubmitting := isSubmitting st;
     error := error st |}.

Definition setError (e : option string) (st : State) : State :=
  {| survey := survey st;
     currentQuestionIndex := currentQuestionIndex st;
     answers := answers st;
     isLoading := isLoading st;
     isSubmitting := isSubmitting st;
     error := e |}.

Definition setIsSubmitting (b : bool) (st : State) : State :=
  {| survey := survey st;
     currentQuestionIndex := currentQuestionIndex st;
     answers := answers st;
     isLoading := isLoading st;
     isSubmitting := b;
     error := error st |}.

(** The state once [fetchSurvey] has stored the survey and its questions. *)
Definition loaded (sv : SurveyWithQuestions) : State :=
  {| survey := Some sv;
     currentQuestionIndex := 0;
     answers := [];
     isLoading := false;
     isSubmitting := false;
     error := None |}.

Definition handleAnswerChange (questionId : string) (v : Js.value)
           (st : State) : State :=
  setAnswers (fun prev => Js.set prev questionId v) st.

(** [None] is the TypeError of reading [required] of [undefined], when the
    index is outside of the question list. *)
Definition validateCurrentQuestion (st : State) : option bool :=
  match survey st with
  | None => Some false
  | Some sv =>
      match Js.index (questions sv) (currentQuestionIndex st) with
      | None => None
      | Some currentQuestion =>
          if negb (Question.required currentQuestion) then Some true
          else
            let answer := Js.prop (answers st) (Question.id currentQuestion) in
            Some (negb (Js.isUndefined answer)
                  && negb (Js.isEmptyStr answer)
                  && negb (Js.isNull answer))
      end
  end.

Definition requiredMessage : string :=
  "Please answer this required question before continuing".

Definition nextQuestion (st : State) : option State :=
  match validateCurrentQuestion st with
  | None => None
  | Some false => Some (setError (Some requiredMessage) st)
  | Some true =>
      Some (setCurrentQuestionIndex (fun prev => prev + 1)%Z
              (setError None st))
  end.

Definition previousQuestion (st : State) : State :=
  setCurrentQuestionIndex (fun prev => prev - 1)%Z (setError None st).

(** The filter of [submitSurvey]. *)
Definition isMissing (a : Js.object Js.value) (q : Question.Row) : bool :=
  Question.required q
  && (Js.isUndefined (Js.prop a (Question.id q))
      || Js.isEmptyStr (Js.prop a (Question.id q))
      || Js.isNull (Js.prop a (Question.id q))).

Definition missingRequired (sv : SurveyWithQuestions)
           (a : Js.object Js.value) : list Question.Row :=
  filter (isMissing a) (questions sv).

Definition missingMessage (missing : list Question.Row) : string :=
  "Please answer all required questions: "
  ++ Js.join ", " (map Question.question_text missing).

(** One element of [answersToInsert]. *)
Definition encode (response_id : string) (entry : string * Js.value)
  : NewAnswer.Row :=
  let (questionId, answer) := entry in
  {| NewAnswer.response_id := response_id;
     NewAnswer.question_id := questionId;
     NewAnswer.answer_text :=
       if String.eqb (Js.typeof answer) "string"
       then match answer with Js.Str s => Some s | _ => None end
       else None;
     NewAnswer.answer_choice :=
       if String.eqb (Js.typeof answer) "object"
       then Js.JSON_stringify answer
       else None |}.

Definition answersToInsert (response_id : string) (a : Js.object Js.value)
  : list NewAnswer.Row :=
  map (encode response_id) (Js.entries a).

Definition orDefault (message fallback : string) : string :=
  if Js.isEmpty message then fallback else message.

(** The outcome of [submitSurvey]: the store, the state, and the route pushed
    to the router, if any. *)
Definition submitSurvey (b : Supabase.Backend) (db : Supabase.Store)
           (st : State) : Supabase.Store * State * option string :=
  match survey st with
  | None => (db, st, None)
  | Some sv =>
      let missing := missingRequired sv (answers st) in
      if (0 <? List.length missing)%nat
      then (db, setError (Some (missingMessage missing)) st, None)
      else
        let st1 := setError None (setIsSubmitting true st) in
        let failed db' msg :=
          (db',
           setIsSubmitting false
             (setError (Some (orDefault msg "Failed to submit survey")) st1),
           None) in
        match Supabase.insertResponse b db
                {| NewResponse.survey_id := Survey.id (row sv);
                   NewResponse.participant_id := None |} with
        | (db1, Supabase.Error msg) => failed db1 msg
        | (db1, Supabase.Data response) =>
            match Supabase.insertAnswers b db1
                    (answersToInsert (Response.id response) (answers st)) with
            | (db2, Some msg) => failed db2 msg
            | (db2, None) =>
                (db2, setIsSubmitting false st1, Some "/survey/thank-you")
            end
        end
  end.

(** ** What the rendered form lets the taker do *)

Definition isLastQuestion (sv : SurveyWithQuestions) (st : State) : bool :=
  (currentQuestionIndex st =? Z.of_nat (List.length (questions sv)) - 1)%Z.

(** The question the form shows; there is no form while loading, without a
    survey, or when the index is outside of the list (rendering then fails on
    [currentQuestion.question_text]). *)
Definition shown (st : State) : option (SurveyWithQuestions * Question.Row) :=
  if isLoading st then None
  else match survey st with
       | None => None
       | Some sv =>
           match Js.index (questions sv) (currentQuestionIndex st) with
           | None => None
           | Some q => Some (sv, q)
           end
       end.

Inductive Event : Type :=
| ClickPrevious
| ClickNext
| Change (text : string).

(** One event of the form.  Previous is disabled at index 0; Next is rendered
    on every question but the last, where Submit takes its place; the widget
    of every question type reports a string (the text typed, the label of the
    radio item chosen, the name of the file picked) for the question shown. *)
Definition handle (e : Event) (st : State) : option State :=
  match shown st with
  | None => Some st
  | Some (sv, q) =>
      match e with
      | ClickPrevious =>
          if (currentQuestionIndex st =? 0)%Z then Some st
          else Some (previousQuestion st)
      | ClickNext =>
          if isLastQuestion sv st then Some st else nextQuestion st
      | Change text =>
          Some (handleAnswerChange (Question.id q) (Js.Str text) st)
      end
  end.

Fixpoint run (events : list Event) (st : State) : option State :=
  match events with
  | [] => Some st
  | e :: rest =>
      match handle e st with
      | None => None
      | Some st' => run rest st'
      end
  end.

(** The two navigation handlers called directly, as operations. *)
Inductive Op : Type := Advance | Retreat.

Definition apply (o : Op) (st : State) : option State :=
  match o with
  | Advance => nextQuestion st
  | Retreat => Some (previousQuestion st)
  end.

Fixpoint applyAll (ops : list Op) (st : State) : option State :=
  match ops with
  | [] => Some st
  | o :: rest =>
      match apply o st with
      | None => None
      | Some st' => applyAll rest st'
      end
  end.

End SurveyPage.

(* ================================================================== *)
(** * The survey results page (analytics and CSV export) *)
(* ================================================================== *)

Module ResultsPage.
Import Database.

Record SurveyWithQuestions : Type := mkSurveyWithQuestions {
  row : Survey.Row;
  questions : list Question.Row
}.

Record ResponseWithAnswers : Type := mkResponseWithAnswers {
  row_of : Response.Row;
  answers : list Answer.Row
}.

(** [l.map(f)] where [f] may throw: the first exception ends the loop. *)
Fixpoint mapThrowing {A B : Type} (f : A -> option B) (l : list A)
  : option (list B) :=
  match l with
  | [] => Some []
  | x :: t =>
      match f x with
      | None => None
      | Some y =>
          match mapThrowing f t with
          | None => None
          | Some ys => Some (y :: ys)
          end
      end
  end.

(** A nullable string column that is truthy: neither null nor empty. *)
Definition whenTruthy (o : option string) : option string :=
  match o with
  | Some s => if Js.isEmpty s then None else Some s
  | None => None
  end.

(** ** generateAnalytics *)

Definition questionResponses (question : Question.Row)
           (responses : list ResponseWithAnswers) : list Answer.Row :=
  flat_map
    (fun r => filter (fun a => String.eqb (Answer.question_id a)
                                          (Question.id question))
                     (answers r))
    responses.

(** [answer.answer_choice ? JSON.parse(answer.answer_choice)
                          : answer.answer_text];
    [None] when [JSON.parse] throws. *)
Definition choiceOf (answer : Answer.Row) : option Js.value :=
  match whenTruthy (Answer.answer_choice answer) with
  | Some text => Js.JSON_parse text
  | None => Some (Js.ofNullable (Answer.answer_text answer))
  end.

(** [Array.isArray(choice) ? choice[0] : choice]. *)
Definition keyOf (choice : Js.value) : Js.value :=
  match choice with
  | Js.Arr l => Js.first l
  | _ => choice
  end.

(** What [answerCounts] holds under a key: a number, or a string that is not
    one. *)
Inductive Tallied : Type :=
| Count (n : nat)
| NotANumber.

(** [answerCounts[key] = (answerCounts[key] || 0) + 1].  Under a key the
    object does not have yet, the lookup finds [undefined], unless the key is
    one of the names every object inherits: it then finds a function or the
    prototype, and adding 1 to that gives a string.  The assignment creates
    the property, but for [__proto__], where a string is ignored. *)
Definition bump (answerCounts : Js.object Tallied) (key : string)
  : Js.object Tallied :=
  match Js.get answerCounts key with
  | Some (Count n) => Js.set answerCounts key (Count (n + 1))
  | Some NotANumber => Js.set answerCounts key NotANumber
  | None =>
      if Js.inherited key
      then if String.eqb key "__proto__" then answerCounts
           else Js.set answerCounts key NotANumber
      else Js.set answerCounts key (Count 1)
  end.

(** The [forEach] that fills [answerCounts]. *)
Fixpoint countAnswers (answerCounts : Js.object Tallied)
         (l : list Answer.Row) : option (Js.object Tallied) :=
  match l with
  | [] => Some answerCounts
  | answer :: t =>
      match choiceOf answer with
      | None => None
      | Some choice =>
          countAnswers (bump answerCounts (Js.toString (keyOf choice))) t
      end
  end.

Record ChartDatum : Type := mkChartDatum {
  answer : string;
  count : Tallied;
  fullAnswer : string
}.

Definition chartDatum (entry : string * Tallied) : ChartDatum :=
  let (a, n) := entry in
  {| answer := substring 0 20 a
               ++ (if (20 <? String.length a)%nat then "..." else "");
     count := n;
     fullAnswer := a |}.

Definition isChoiceLike (t : Validations.QuestionType) : bool :=
  match t with
  | Validations.multiple_choice | Validations.likert_scale => true
  | _ => false
  end.

Definition chartDataOf (question : Question.Row)
           (responses : list ResponseWithAnswers) : option (list ChartDatum) :=
  if isChoiceLike (Question.question_type question)
  then match countAnswers [] (questionResponses question responses) with
       | None => None
       | Some answerCounts => Some (map chartDatum (Js.entries answerCounts))
       end
  else Some [].

Record QuestionAnalytics : Type := mkQuestionAnalytics {
  questionId : string;
  questionText : string;
  questionType : Validations.QuestionType;
  responses : list Answer.Row;
  chartData : list ChartDatum
}.

(** The [questionAnalytics] of [generateAnalytics]. *)
Definition questionAnalytics (questions : list Question.Row)
           (responses : list ResponseWithAnswers)
  : option (list QuestionAnalytics) :=
  mapThrowing
    (fun question =>
       match chartDataOf question responses with
       | None => None
       | Some data =>
           Some {| questionId := Question.id question;
                   questionText := Question.question_text question;
                   questionType := Question.question_type question;
                   responses := questionResponses question responses;
                   chartData := data |}
       end)
    questions.

(** ** exportToCSV *)

Definition headers (survey : SurveyWithQuestions) : list Js.value :=
  Js.Str "Response ID" :: Js.Str "Submitted At"
  :: map (fun q => Js.Str (Question.question_text q)) (questions survey).

(** The [answerValue] pushed for one question of one response. *)
Definition answerValue (response : ResponseWithAnswers)
           (question : Question.Row) : option Js.value :=
  match find (fun a => String.eqb (Answer.question_id a)
                                  (Question.id question))
             (answers response) with
  | None => Some (Js.Str "")
  | Some a =>
      match whenTruthy (Answer.answer_text a) with
      | Some text => Some (Js.Str text)
      | None =>
          match whenTruthy (Answer.answer_choice a) with
          | None => Some (Js.Str "")
          | Some text =>
              match Js.JSON_parse text with
              | None => None
              | Some (Js.Arr l) => Some (Js.Str (Js.join ", " l))
              | Some choice => Some choice
              end
          end
      end
  end.

(** The text between the quotes of a cell: [cell?.toString()] with every
    double quote doubled, or the empty string. *)
Definition cellText (cell : Js.value) : string :=
  match cell with
  | Js.Undefined | Js.Null => ""
  | _ =>
      Js.replaceChar Js.isDquote
        (String Js.dquote (String Js.dquote EmptyString))
        (Js.toString cell)
  end.

Definition quoted (cell : Js.value) : string :=
  String Js.dquote (cellText cell ++ String Js.dquote EmptyString).

Definition line (cells : list Js.value) : string :=
  Js.join "," (map quoted cells).

Definition newline : string := String (ascii_of_N 10) EmptyString.

Inductive Export : Type :=
| NotExported
| Raised
| Download (filename content : string).

Section WithDateFormat.

(** [format(new Date(text), pattern)] of date-fns. *)
Variable format : string -> string -> string.

Definition rowOf (survey : SurveyWithQuestions)
           (response : ResponseWithAnswers) : option (list Js.value) :=
  match mapThrowing (answerValue response) (questions survey) with
  | None => None
  | Some values =>
      Some (Js.Str (Response.id (row_of response))
            :: Js.Str (format (Response.submitted_at (row_of response))
                              "yyyy-MM-dd HH:mm:ss")
            :: values)
  end.

(** The rows of the file, the header first. *)
Definition csvRows (survey : SurveyWithQuestions)
           (responses : list ResponseWithAnswers)
  : option (list (list Js.value)) :=
  match mapThrowing (rowOf survey) responses with
  | None => None
  | Some rows => Some (headers survey :: rows)
  end.

Definition csvContent (survey : SurveyWithQuestions)
           (responses : list ResponseWithAnswers) : option string :=
  match csvRows survey responses with
  | None => None
  | Some rows => Some (Js.join newline (map line rows))
  end.

Definition exportToCSV (survey : option SurveyWithQuestions)
           (responses : list ResponseWithAnswers) : Export :=
  match survey, responses with
  | None, _ => NotExported
  | _, [] => NotExported
  | Some sv, _ =>
      match csvContent sv responses with
      | None => Raised
      | Some content =>
          Download (Survey.slug (row sv) ++ "-responses.csv") content
      end
  end.

End WithDateFormat.

End ResultsPage.

(* ================================================================== *)
(** * Notions the properties are stated with *)
(* ================================================================== *)

Module Spec.
Import Validations Database.


Definition withOptions (o : option (list string)) (d : QuestionFormData)
  : QuestionFormData :=
  {| question_text := question_text d;
     question_type := question_type d;
     options := o;
     required := required d;
     order_index := order_index d |}.

(** No two hyphens in a row; [prev] says the previous character was one. *)
Fixpoint noHyphenPair (prev : bool) (s : string) : bool :=
  match s with
  | EmptyString => true
  | String c t =>
      if Js.isHyphen c then negb prev && noHyphenPair true t
      else noHyphenPair false t
  end.


(** A buffer entry that is no answer: missing, empty or null. *)
Definition noAnswer (p : Js.property) : bool :=
  Js.isUndefined p || Js.isEmptyStr p || Js.isNull p.

(** The index is within [0, N) for the [N] questions of the survey. *)
Definition inRange (sv : SurveyPage.SurveyWithQuestions)
           (st : SurveyPage.State) : Prop :=
  (0 <= SurveyPage.currentQuestionIndex st
   < Z.of_nat (List.length (SurveyPage.questions sv)))%Z.

(** The state keeps the survey [sv], is past loading, and shows one of its
    questions. *)
Definition showing (sv : SurveyPage.SurveyWithQuestions)
           (st : SurveyPage.State) : Prop :=
  SurveyPage.survey st = Some sv
  /\ SurveyPage.isLoading st = false
  /\ inRange sv st.

(** The free-text question types. *)
Definition isFreeText (t : QuestionType) : bool :=
  match t with
  | short_answer | long_answer | file_upload => true
  | multiple_choice | likert_scale => false
  end.

(** What follows an element in the text of an array whose remaining elements
    are [l]. *)
Definition afterElement (l : list string) : string :=
  match l with
  | [] => "]"
  | _ :: _ => "," ++ Js.join "," (map Js.quote l) ++ "]"
  end.

(** The two modes in which [parseFrom] reads the inside of a string. *)
Definition inString (m : Js.mode) : bool :=
  match m with
  | Js.TopStr | Js.ElemStr => true
  | _ => false
  end.

(** What a tally that held [before] under a key holds after [n] more answers
    with that key. *)
Definition counted (before : option ResultsPage.Tallied) (n : nat)
  : option ResultsPage.Tallied :=
  match before with
  | Some (ResultsPage.Count m) => Some (ResultsPage.Count (m + n))
  | Some ResultsPage.NotANumber => Some ResultsPage.NotANumber
  | None => if (n =? 0)%nat then None else Some (ResultsPage.Count n)
  end.

(** The key under which the analytics count a decoded answer. *)
Definition keyText (choice : Js.value) : string :=
  Js.toString (ResultsPage.keyOf choice).

(** A column is populated when it is not null. *)
Definition populated (o : option string) : bool :=
  match o with Some _ => true | None => false end.

End Spec.

(* ================================================================== *)
(** * Sample data *)
(* ================================================================== *)

Module Sample.
Import Validations Database.

Definition choiceForm (o : option (list string)) : QuestionFormData :=
  {| question_text := "Favourite colour?";
     question_type := multiple_choice;
     options := o;
     required := true;
     order_index := 0 |}.

Definition surveyForm (qs : list QuestionFormData) : SurveyWithQuestionsData :=
  {| title := "Colours";
     description := None;
     slug := "colours";
     status := draft;
     start_date := None;
     end_date := None;
     questions := qs |}.

Definition surveyRow : Survey.Row :=
  {| Survey.id := "s1";
     Survey.title := "Colours";
     Survey.description := None;
     Survey.slug := "colours";
     Survey.status := active;
     Survey.start_date := None;
     Survey.end_date := None;
     Survey.created_at := "2024-01-01T00:00:00Z";
     Survey.updated_at := "2024-01-01T00:00:00Z";
     Survey.created_by := None |}.

Definition question (id text : string) (t : QuestionType) (req : bool)
           (i : Z) : Question.Row :=
  {| Question.id := id;
     Question.survey_id := "s1";
     Question.question_text := text;
     Question.question_type := t;
     Question.options := None;
     Question.order_index := i;
     Question.required := req;
     Question.created_at := "2024-01-01T00:00:00Z" |}.

Definition colour : Question.Row :=
  question "q1" "Favourite colour?" multiple_choice true 0.
Definition agree : Question.Row :=
  question "q2" "Surveys are fun" likert_scale false 1.
Definition why : Question.Row :=
  question "q3" "Why?" short_answer true 2.

(** Three questions, the first and the last required. *)
Definition taken : SurveyPage.SurveyWithQuestions :=
  {| SurveyPage.row := surveyRow;
     SurveyPage.questions := [colour; agree; why] |}.

(** One optional question. *)
Definition single : SurveyPage.SurveyWithQuestions :=
  {| SurveyPage.row := surveyRow;
     SurveyPage.questions := [agree] |}.

Definition emptyStore : Supabase.Store :=
  {| Supabase.responses := []; Supabase.answers := [] |}.


(** The first of the three questions answered, through the form. *)
Definition partly : SurveyPage.State :=
  SurveyPage.handleAnswerChange "q1" (Js.Str "Red") (SurveyPage.loaded taken).

(** Both required questions answered. *)
Definition complete : SurveyPage.State :=
  SurveyPage.handleAnswerChange "q3" (Js.Str "Because") partly.

Definition answerRow (id rid qid : string) (text choice : option string)
  : Answer.Row :=
  {| Answer.id := id;
     Answer.response_id := rid;
     Answer.question_id := qid;
     Answer.answer_text := text;
     Answer.answer_choice := choice;
     Answer.file_url := None |}.

Definition response (id submitted : string) (l : list Answer.Row)
  : ResultsPage.ResponseWithAnswers :=
  {| ResultsPage.row_of :=
       {| Response.id := id;
          Response.survey_id := "s1";
          Response.participant_id := None;
          Response.submitted_at := submitted |};
     ResultsPage.answers := l |}.

(** A text between double quotes. *)
Definition inQuotes (s : string) : string :=
  String Js.dquote (s ++ String Js.dquote EmptyString).

(** Three responses to the colour question, stored in three ways: as raw
    text, as the JSON text of a one-element array, as the JSON text of a
    string. *)
Definition votes : list ResultsPage.ResponseWithAnswers :=
  [ response "r1" "2024-05-06T07:08:09Z"
      [answerRow "a1" "r1" "q1" (Some "A") None];
    response "r2" "2024-05-07T07:08:09Z"
      [answerRow "a2" "r2" "q1" None (Some ("[" ++ inQuotes "A" ++ "]"))];
    response "r3" "2024-05-08T07:08:09Z"
      [answerRow "a3" "r3" "q1" None (Some (inQuotes "B"))] ].

(** One response to the colour question, for an option labelled with a name
    that every object inherits. *)
Definition named : list ResultsPage.ResponseWithAnswers :=
  [ response "r1" "2024-05-06T07:08:09Z"
      [answerRow "a1" "r1" "q1" (Some "constructor") None] ].

(** Two questions and two responses to export. *)
Definition polled : ResultsPage.SurveyWithQuestions :=
  {| ResultsPage.row := surveyRow;
     ResultsPage.questions := [colour; why] |}.

Definition exported : list ResultsPage.ResponseWithAnswers :=
  [ response "r1" "2024-05-06T07:08:09Z"
      [answerRow "a1" "r1" "q1" (Some "Red") None;
       answerRow "a2" "r1" "q3" (Some ("He said " ++ inQuotes "hi")) None];
    response "r2" "2024-05-07T07:08:09Z"
      [answerRow "a3" "r2" "q1" None
         (Some ("[" ++ inQuotes "Red" ++ "," ++ inQuotes "Blue" ++ "]"))] ].

(** A stand-in for the date formatter: the stored text, unchanged. *)
Definition verbatim (text pattern : string) : string := text.

End Sample.

(* ================================================================== *)
(** * app/admin/dashboard/edit/[surveyId]/page.tsx *)
(* ================================================================== *)

Module EditPage.
Import Validations Database.

(** The class [[a-z0-9]]. *)
Definition isAlnum (c : ascii) : bool := Js.isLowerAZ c || Js.isDigit c.

(** The class [[^a-z0-9]]. *)
Definition notAlnum (c : ascii) : bool := negb (isAlnum c).

(** The first alternative of [/(^-|-$)/g]: a hyphen at the start. *)
Definition dropFirstHyphen (s : string) : string :=
  match s with
  | EmptyString => EmptyString
  | String c t => if Js.isHyphen c then t else s
  end.

(** The second alternative, tried on what follows the first match: a hyphen
    at the end. *)
Fixpoint dropLastHyphen (s : string) : string :=
  match s with
  | EmptyString => EmptyString
  | String c t =>
      match t with
      | EmptyString => if Js.isHyphen c then EmptyString else s
      | String _ _ => String c (dropLastHyphen t)
      end
  end.

(** [s.replace(/(^-|-$)/g, '')]. *)
Definition stripHyphens (s : string) : string :=
  dropLastHyphen (dropFirstHyphen s).

Definition generateSlug (title : string) : string :=
  stripHyphens
    (Js.replaceRuns notAlnum "-" false (Js.toLowerCase title)).

End EditPage.

(* ================================================================== *)
(** * Saving and loading the questions of a survey
      (create/page.tsx [onSubmit], edit/[surveyId]/page.tsx [onSubmit] and
      [loadSurvey]) *)
(* ================================================================== *)

Module QuestionRows.
Import Validations Database.

(** The payload of an insert into [questions]. *)
Module NewQuestion.
Record Row : Type := mkRow {
  survey_id : string;
  question_text : string;
  question_type : QuestionType;
  options : option string;
  order_index : Z;
  required : bool
}.
End NewQuestion.

(** [question.options ? JSON.stringify(question.options) : null]; an array,
    even an empty one, is truthy. *)
Definition optionsColumn (o : option (list string)) : option string :=
  match o with
  | Some l => Js.JSON_stringify (Js.Arr l)
  | None => None
  end.

(** [data.questions.map((question, index) => ...)], from position [index]
    on. *)
Fixpoint questionsFrom (survey_id : string) (index : Z)
         (l : list QuestionFormData) : list NewQuestion.Row :=
  match l with
  | [] => []
  | question :: rest =>
      {| NewQuestion.survey_id := survey_id;
         NewQuestion.question_text := Validations.question_text question;
         NewQuestion.question_type := Validations.question_type question;
         NewQuestion.options := optionsColumn (Validations.options question);
         NewQuestion.order_index := index;
         NewQuestion.required := Validations.required question |}
      :: questionsFrom survey_id (index + 1) rest
  end.

(** The [questionsToInsert] of both [onSubmit]s. *)
Definition questionsToInsert (survey_id : string)
           (l : list QuestionFormData) : list NewQuestion.Row :=
  questionsFrom survey_id 0 l.

(** The row the table holds for an inserted question: the store adds the id
    and the creation time. *)
Definition storedQuestion (id created_at : string) (q : NewQuestion.Row)
  : Question.Row :=
  {| Question.id := id;
     Question.survey_id := NewQuestion.survey_id q;
     Question.question_text := NewQuestion.question_text q;
     Question.question_type := NewQuestion.question_type q;
     Question.options := NewQuestion.options q;
     Question.order_index := NewQuestion.order_index q;
     Question.required := NewQuestion.required q;
     Question.created_at := created_at |}.

(** One step of a stable sort by [a.order_index - b.order_index]: [q] goes
    before the first row that is not below it. *)
Fixpoint insertByOrder (q : Question.Row) (l : list Question.Row)
  : list Question.Row :=
  match l with
  | [] => [q]
  | y :: t =>
      if (Question.order_index q <=? Question.order_index y)%Z
      then q :: l
      else y :: insertByOrder q t
  end.

(** [questions.sort((a, b) => a.order_index - b.order_index)]; the sort of an
    array is stable. *)
Fixpoint sortByOrder (l : list Question.Row) : list Question.Row :=
  match l with
  | [] => []
  | q :: t => insertByOrder q (sortByOrder t)
  end.

(** [q.options ? JSON.parse(q.options) : undefined], for the form: [None]
    when [JSON.parse] throws, and, outside of this model, when the text is
    not that of an array of strings. *)
Definition optionsField (o : option string)
  : option (option (list string)) :=
  match ResultsPage.whenTruthy o with
  | None => Some None
  | Some text =>
      match Js.JSON_parse text with
      | Some (Js.Arr l) => Some (Some l)
      | _ => None
      end
  end.

(** One question of the [formData] of [loadSurvey]. *)
Definition formQuestion (q : Question.Row) : option QuestionFormData :=
  match optionsField (Question.options q) with
  | None => None
  | Some o =>
      Some {| Validations.question_text := Question.question_text q;
              Validations.question_type := Question.question_type q;
              Validations.options := o;
              Validations.required := Question.required q;
              Validations.order_index := Question.order_index q |}
  end.

(** The [formData] that [loadSurvey] hands to the form. *)
Definition formData (surveyData : Survey.Row) (questions : list Question.Row)
  : option SurveyWithQuestionsData :=
  match ResultsPage.mapThrowing formQuestion (sortByOrder questions) with
  | None => None
  | Some qs =>
      Some {| Validations.title := Survey.title surveyData;
              Validations.description :=
                Some (match ResultsPage.whenTruthy
                              (Survey.description surveyData) with
                      | Some d => d
                      | None => ""
                      end);
              Validations.slug := Survey.slug surveyData;
              Validations.status := Survey.status surveyData;
              Validations.start_date := None;
              Validations.end_date := None;
              Validations.questions := qs |}
  end.

End QuestionRows.

(* ================================================================== *)
(** * The option inputs of a multiple choice question
      (create/page.tsx and edit/[surveyId]/page.tsx, [onChange]) *)
(* ================================================================== *)

Module OptionInputs.

(** [opt && opt.trim() !== '']. *)
Definition nonBlank (opt : string) : bool :=
  negb (Js.isEmpty opt) && negb (Js.isEmpty (Js.trim opt)).

(** [newOptions[optionIndex] = value] on an array: an index past the end
    leaves holes, [None], before the new element. *)
Fixpoint assign (l : list (option string)) (optionIndex : nat)
         (value : string) : list (option string) :=
  match l, optionIndex with
  | [], O => [Some value]
  | [], S i => None :: assign [] i value
  | _ :: t, O => Some value :: t
  | x :: t, S i => x :: assign t i value
  end.

(** [newOptions.filter(opt => opt && opt.trim() !== '')]; [filter] skips the
    holes. *)
Fixpoint kept (l : list (option string)) : list string :=
  match l with
  | [] => []
  | Some opt :: t => if nonBlank opt then opt :: kept t else kept t
  | None :: t => kept t
  end.

(** The options that [onChange] of the input [optionIndex] stores. *)
Definition onChange (current : option (list string)) (optionIndex : nat)
           (value : string) : list string :=
  let currentOptions := match current with Some l => l | None => [] end in
  let newOptions := assign (map Some currentOptions) optionIndex value in
  kept newOptions.

(** The options after a series of changes; every question has four inputs,
    0 to 3. *)
Fixpoint changes (l : list (nat * string)) (current : option (list string))
  : option (list string) :=
  match l with
  | [] => current
  | (optionIndex, value) :: rest =>
      changes rest (Some (onChange current optionIndex value))
  end.

End OptionInputs.

(* ================================================================== *)
(** * app/survey/[slug]/page.tsx: loading and rendering *)
(* ================================================================== *)

Module SurveyView.
Import Database SurveyPage.

Definition setSurvey (sv : option SurveyWithQuestions) (st : State) : State :=
  {| survey := sv;
     currentQuestionIndex := currentQuestionIndex st;
     answers := answers st;
     isLoading := isLoading st;
     isSubmitting := isSubmitting st;
     error := error st |}.

Definition setIsLoading (b : bool) (st : State) : State :=
  {| survey := survey st;
     currentQuestionIndex := currentQuestionIndex st;
     answers := answers st;
     isLoading := b;
     isSubmitting := isSubmitting st;
     error := error st |}.

(** The state the component starts in. *)
Definition initial : State :=
  {| survey := None;
     currentQuestionIndex := 0;
     answers := [];
     isLoading := true;
     isSubmitting := false;
     error := None |}.

(** What the store answers to the two queries of [fetchSurvey]; the rows of
    the second query may be null. *)
Record Replies : Type := mkReplies {
  surveyReply : Supabase.Result Survey.Row;
  questionsReply : Supabase.Result (option (list Question.Row))
}.

Definition fetchSurvey (r : Replies) (st : State) : State :=
  match surveyReply r with
  | Supabase.Error _ =>
      setIsLoading false
        (setError (Some (orDefault "Survey not found or not active"
                                   "Failed to load survey")) st)
  | Supabase.Data surveyData =>
      match questionsReply r with
      | Supabase.Error message =>
          setIsLoading false
            (setError (Some (orDefault message "Failed to load survey")) st)
      | Supabase.Data questionsData =>
          setIsLoading false
            (setSurvey
               (Some {| row := surveyData;
                        questions := match questionsData with
                                     | Some l => l
                                     | None => []
                                     end |})
               st)
      end
  end.



(** What the component renders. *)
Inductive View : Type :=
| Loading
| NotFound
| Nothing
| Crashed
| Form (question : Question.Row) (number total : Z)
       (previousDisabled isLast : bool).

(** The render of the component; [Crashed] is the TypeError of reading
    [question_text] of [undefined], when the index is outside of the list. *)
Definition render (st : State) : View :=
  if isLoading st then Loading
  else
    match survey st with
    | None =>
        match ResultsPage.whenTruthy (error st) with
        | Some _ => NotFound
        | None => Nothing
        end
    | Some sv =>
        match Js.index (questions sv) (currentQuestionIndex st) with
        | None => Crashed
        | Some currentQuestion =>
            Form currentQuestion
                 (currentQuestionIndex st + 1)
                 (Z.of_nat (List.length (questions sv)))
                 (currentQuestionIndex st =? 0)%Z
                 (isLastQuestion sv st)
        end
    end.

Definition scales : list string :=
  ["Strongly Disagree"; "Disagree"; "Neutral"; "Agree"; "Strongly Agree"].

(** The input that [renderQuestion] shows for a question. *)
Inductive Widget : Type :=
| TextInput
| TextArea
| RadioGroup (items : list string)
| FileInput.

(** [renderQuestion]; [None] when it throws: [JSON.parse] rejects the
    options, or they are not an array (and, outside of this model, when they
    are an array of other things than strings). *)
Definition renderQuestion (question : Question.Row) : option Widget :=
  match Question.question_type question with
  | Validations.short_answer => Some TextInput
  | Validations.long_answer => Some TextArea
  | Validations.multiple_choice =>
      match ResultsPage.whenTruthy (Question.options question) with
      | None => Some (RadioGroup [])
      | Some text =>
          match Js.JSON_parse text with
          | Some (Js.Arr options) => Some (RadioGroup options)
          | _ => None
          end
      end
  | Validations.likert_scale => Some (RadioGroup scales)
  | Validations.file_upload => Some FileInput
  end.

End SurveyView.

(* ================================================================== *)
(** * The survey results page: the responses table and the responses by day *)
(* ================================================================== *)

Module ResultsTable.
Import Database ResultsPage.

(** The [displayValue] of one cell of the responses table. *)
Definition displayValue (response : ResponseWithAnswers)
           (question : Question.Row) : option Js.value :=
  match find (fun a => String.eqb (Answer.question_id a)
                                  (Question.id question))
             (answers response) with
  | None => Some (Js.Str "No answer")
  | Some a =>
      match whenTruthy (Answer.answer_text a) with
      | Some text =>
          Some (Js.Str (substring 0 50 text
                        ++ (if (50 <? String.length text)%nat then "..."
                            else "")))
      | None =>
          match whenTruthy (Answer.answer_choice a) with
          | None => Some (Js.Str "No answer")
          | Some text =>
              match Js.JSON_parse text with
              | None => None
              | Some (Js.Arr l) => Some (Js.Str (Js.join ", " l))
              | Some choice => Some choice
              end
          end
      end
  end.

(** The cells of the table: the first ten responses, and for each the first
    three questions; [None] when a cell throws. *)
Definition tableCells (survey : SurveyWithQuestions)
           (responses : list ResponseWithAnswers)
  : option (list (list Js.value)) :=
  mapThrowing
    (fun response =>
       mapThrowing (displayValue response) (firstn 3 (questions survey)))
    (firstn 10 responses).

Record DayCount : Type := mkDayCount {
  date : string;
  dayResponses : nat
}.

Section WithCalendar.

(** [format(date, 'MMM dd')] for the date [i] days before today. *)
Variable dayLabel : nat -> string.

(** [format(new Date(submitted_at), 'MMM dd')]. *)
Variable labelOf : string -> string.

(** The [responsesByDay] of [generateAnalytics]. *)
Definition responsesByDay (responses : list ResponseWithAnswers)
  : list DayCount :=
  rev (map (fun i =>
              let dateStr := dayLabel i in
              {| date := dateStr;
                 dayResponses :=
                   List.length
                     (filter (fun r =>
                                String.eqb
                                  (labelOf (Response.submitted_at (row_of r)))
                                  dateStr)
                             responses) |})
           (seq 0 7)).

End WithCalendar.

End ResultsTable.

(* ================================================================== *)
(** * Saving a survey (create/page.tsx and edit/[surveyId]/page.tsx,
      [onSubmit]) *)
(* ================================================================== *)

Module Saving.
Import Validations Database QuestionRows.

(** Modelled from the spec: the data-access collaborator of section 6, for
    the two tables the editors write.  An insert appends the rows with the
    ids and times the store generates, an update patches the rows that match
    the filter, a delete removes them; a request the store rejects changes
    nothing. *)
Record Tables : Type := mkTables {
  surveys : list Survey.Row;
  questions : list Question.Row
}.

(** What the store does with the requests of one save, the values it
    generates, and what the page reads from its environment: the time, the
    signed-in user, and whether the errors the client throws are instances of
    [Error]. *)
Record World : Type := mkWorld {
  onSurvey : Supabase.Reply;
  onDelete : Supabase.Reply;
  onQuestions : Supabase.Reply;
  newSurveyId : string;
  newQuestionId : nat -> string;
  now : string;
  userEmail : option string;
  errorsAreErrors : bool
}.

(** The outcome of a save: the tables, the error the page shows, and the route
    pushed to the router. *)
Record Outcome : Type := mkOutcome {
  tables : Tables;
  error : option string;
  pushed : option string
}.

Fixpoint storeQuestions (w : World) (n : nat) (rows : list NewQuestion.Row)
  : list Question.Row :=
  match rows with
  | [] => []
  | r :: t => storedQuestion (newQuestionId w n) (now w) r
              :: storeQuestions w (S n) t
  end.

(** Modelled from the spec: [from('questions').insert(rows)]. *)
Definition insertQuestions (w : World) (db : Tables)
           (rows : list NewQuestion.Row) : Tables :=
  {| surveys := surveys db;
     questions := questions db
                  ++ storeQuestions w (List.length (questions db)) rows |}.

(** Modelled from the spec:
    [from('questions').delete().eq('survey_id', surveyId)]. *)
Definition deleteQuestions (db : Tables) (surveyId : string) : Tables :=
  {| surveys := surveys db;
     questions :=
       filter (fun q => negb (String.eqb (Question.survey_id q) surveyId))
              (questions db) |}.

(** The patch of the edit page on one survey row; an undefined description
    is not sent. *)
Definition patched (data : SurveyWithQuestionsData) (updated : string)
           (s : Survey.Row) : Survey.Row :=
  {| Survey.id := Survey.id s;
     Survey.title := Validations.title data;
     Survey.description :=
       match Validations.description data with
       | Some d => Some d
       | None => Survey.description s
       end;
     Survey.slug := Validations.slug data;
     Survey.status := Validations.status data;
     Survey.start_date := Survey.start_date s;
     Survey.end_date := Survey.end_date s;
     Survey.created_at := Survey.created_at s;
     Survey.updated_at := updated;
     Survey.created_by := Survey.created_by s |}.

(** Modelled from the spec: [from('surveys').update(patch).eq('id', surveyId)]. *)
Definition updateSurvey (w : World) (db : Tables) (surveyId : string)
           (data : SurveyWithQuestionsData) : Tables :=
  {| surveys :=
       map (fun s => if String.eqb (Survey.id s) surveyId
                     then patched data (now w) s else s)
           (surveys db);
     questions := questions db |}.

(** The message the edit page shows for a thrown error. *)
Definition updateError (w : World) (message : string) : string :=
  if errorsAreErrors w then "Failed to update survey: " ++ message
  else "Failed to update survey. Please try again.".

(** [onSubmit] of the edit page. *)
Definition editSubmit (w : World) (surveyId : string)
           (data : SurveyWithQuestionsData) (db : Tables) : Outcome :=
  match onSurvey w with
  | Supabase.Rejected message =>
      {| tables := db; error := Some (updateError w message);
         pushed := None |}
  | Supabase.Accepted =>
      let db1 := updateSurvey w db surveyId data in
      match onDelete w with
      | Supabase.Rejected message =>
          {| tables := db1; error := Some (updateError w message);
             pushed := None |}
      | Supabase.Accepted =>
          let db2 := deleteQuestions db1 surveyId in
          match onQuestions w with
          | Supabase.Rejected message =>
              {| tables := db2; error := Some (updateError w message);
                 pushed := None |}
          | Supabase.Accepted =>
              {| tables :=
                   insertQuestions w db2
                     (questionsToInsert surveyId
                        (Validations.questions data));
                 error := None;
                 pushed := Some "/admin/dashboard" |}
          end
      end
  end.

(** The row the store creates for the insert of the create page. *)
Definition createdSurvey (w : World) (data : SurveyWithQuestionsData)
  : Survey.Row :=
  {| Survey.id := newSurveyId w;
     Survey.title := Validations.title data;
     Survey.description := Validations.description data;
     Survey.slug := Validations.slug data;
     Survey.status := Validations.status data;
     Survey.start_date := None;
     Survey.end_date := None;
     Survey.created_at := now w;
     Survey.updated_at := now w;
     Survey.created_by :=
       Some (match ResultsPage.whenTruthy (userEmail w) with
             | Some email => email
             | None => "Unknown User"
             end) |}.

(** [onSubmit] of the create page. *)
Definition createSubmit (w : World) (data : SurveyWithQuestionsData)
           (db : Tables) : Outcome :=
  match onSurvey w with
  | Supabase.Rejected message =>
      {| tables := db;
         error := Some (SurveyPage.orDefault message
                          "An error occurred while creating the survey");
         pushed := None |}
  | Supabase.Accepted =>
      let survey := createdSurvey w data in
      let db1 := {| surveys := surveys db ++ [survey];
                    questions := questions db |} in
      match onQuestions w with
      | Supabase.Rejected message =>
          {| tables := db1;
             error := Some (SurveyPage.orDefault message
                              "An error occurred while creating the survey");
             pushed := None |}
      | Supabase.Accepted =>
          {| tables :=
               insertQuestions w db1
                 (questionsToInsert (Survey.id survey)
                    (Validations.questions data));
             error := None;
             pushed := Some "/admin/dashboard" |}
      end
  end.

End Saving.

(* ================================================================== *)
(** * Notions of the further properties *)
(* ================================================================== *)

Module Props.

Definition startsWithHyphen (s : string) : bool :=
  match s with
  | EmptyString => false
  | String c _ => Js.isHyphen c
  end.

Fixpoint endsWithHyphen (s : string) : bool :=
  match s with
  | EmptyString => false
  | String c EmptyString => Js.isHyphen c
  | String _ t => endsWithHyphen t
  end.

(** The form questions numbered by their position, from [index] on. *)
Fixpoint numberedFrom (index : Z) (l : list Validations.QuestionFormData)
  : list Validations.QuestionFormData :=
  match l with
  | [] => []
  | q :: rest =>
      {| Validations.question_text := Validations.question_text q;
         Validations.question_type := Validations.question_type q;
         Validations.options := Validations.options q;
         Validations.required := Validations.required q;
         Validations.order_index := index |}
      :: numberedFrom (index + 1) rest
  end.

(** The rows the table holds for a list of inserted questions, with the ids
    and the creation time the store gives them. *)
Fixpoint storedFrom (ids : nat -> string) (created_at : string) (n : nat)
         (rows : list QuestionRows.NewQuestion.Row)
  : list Database.Question.Row :=
  match rows with
  | [] => []
  | r :: t =>
      QuestionRows.storedQuestion (ids n) created_at r
      :: storedFrom ids created_at (S n) t
  end.

(** The order indexes from [index] on. *)
Fixpoint indexesFrom (index : Z) (n : nat) : list Z :=
  match n with
  | O => []
  | S n' => index :: indexesFrom (index + 1) n'
  end.

(** The order of two rows by their order index. *)
Definition byOrderLt (a b : Database.Question.Row) : Prop :=
  (Database.Question.order_index a < Database.Question.order_index b)%Z.

Definition byOrderLe (a b : Database.Question.Row) : Prop :=
  (Database.Question.order_index a <= Database.Question.order_index b)%Z.

(** The number a tally entry stands for; what is not a number counts for
    nothing. *)
Definition countOf (t : ResultsPage.Tallied) : nat :=
  match t with
  | ResultsPage.Count n => n
  | ResultsPage.NotANumber => 0
  end.

Definition sumCounts (o : Js.object ResultsPage.Tallied) : nat :=
  list_sum (map (fun e => countOf (snd e)) o).

Definition isComma (c : ascii) : bool := (Js.code c =? 44)%N.
Definition isLineFeed (c : ascii) : bool := (Js.code c =? 10)%N.

(** A reader of comma-separated values whose fields are all quoted: inside a
    field two double quotes stand for one, and one double quote ends the
    field; a comma then starts the next field and a line feed the next
    record.  [acc] holds the field being read, [fields] the fields of the
    record and [records] the records read, all latest first. *)
Fixpoint readFrom (inField : bool) (acc : list ascii) (fields : list string)
         (records : list (list string)) (s : string)
  : option (list (list string)) :=
  match s with
  | EmptyString => None
  | String c t =>
      if inField then
        if Js.isDquote c then
          match t with
          | EmptyString =>
              Some (rev (rev (Js.ofRev acc :: fields) :: records))
          | String c2 t2 =>
              if Js.isDquote c2 then readFrom true (c2 :: acc) fields records t2
              else if isComma c2
                   then readFrom false [] (Js.ofRev acc :: fields) records t2
              else if isLineFeed c2
                   then readFrom false [] []
                                 (rev (Js.ofRev acc :: fields) :: records) t2
              else None
          end
        else readFrom true (c :: acc) fields records t
      else if Js.isDquote c then readFrom true [] fields records t
      else None
  end.

Definition readCsv (s : string) : option (list (list string)) :=
  readFrom false [] [] [] s.

(** The text of a cell, before it is quoted. *)
Definition cellString (cell : Js.value) : string :=
  match cell with
  | Js.Undefined | Js.Null => ""
  | _ => Js.toString cell
  end.

(** The questions of one survey in a table. *)
Definition questionsOf (surveyId : string) (l : list Database.Question.Row)
  : list Database.Question.Row :=
  filter (fun q => String.eqb (Database.Question.survey_id q) surveyId) l.

(** A store that answers the three requests of a save with [s], [d] and
    [q], and numbers the questions it creates. *)
Definition world (s d q : Supabase.Reply) : Saving.World :=
  {| Saving.onSurvey := s;
     Saving.onDelete := d;
     Saving.onQuestions := q;
     Saving.newSurveyId := "s2";
     Saving.newQuestionId := fun n => "n" ++ Js.ofRev (repeat "i"%char n);
     Saving.now := "2024-06-01T00:00:00Z";
     Saving.userEmail := Some "admin@example.org";
     Saving.errorsAreErrors := true |}.

(** A question of another survey. *)
Definition elsewhere : Database.Question.Row :=
  {| Database.Question.id := "q0";
     Database.Question.survey_id := "s0";
     Database.Question.question_text := "Any remarks?";
     Database.Question.question_type := Validations.long_answer;
     Database.Question.options := None;
     Database.Question.order_index := 0;
     Database.Question.required := false;
     Database.Question.created_at := "2023-12-01T00:00:00Z" |}.

(** Two surveys, the first with one question and the second with three. *)
Definition held : Saving.Tables :=
  {| Saving.surveys := [Sample.surveyRow];
     Saving.questions :=
       [Sample.colour; elsewhere; Sample.agree; Sample.why] |}.

(** The cells of the responses table for [Sample.polled] and
    [Sample.votes]. *)
Definition votesTable : list (list Js.value) :=
  [ [Js.Str "A"; Js.Str "No answer"];
    [Js.Str "A"; Js.Str "No answer"];
    [Js.Str "B"; Js.Str "No answer"] ].

End Props.

(* ================================================================== *)
(** * Properties *)
(* ================================================================== *)

(** ** generateSlug *)














Example generateSlug_hello :
  CreatePage.generateSlug "Hello,  World -- 2024!" = "hello-world-2024".
Proof. reflexivity. Qed.

(** [trim] comes last, when the white space is already hyphens. *)
Example generateSlug_padded :
  CreatePage.generateSlug " My Survey " = "-my-survey-".
Proof. reflexivity. Qed.




(** ** The validation schemas *)

(** C9 (as stated): a multiple choice question whose two options are both
    empty has fewer than two non-empty entries, and the schema accepts it. *)
Lemma questionSchema_empty_options :
  Validations.questionSchema (Sample.choiceForm (Some [""; ""])) = true
  /\ List.length (filter (fun o => negb (Js.isEmpty o)) [""; ""]) < 2.
Proof.
  split; [reflexivity|simpl; lia].
Qed.

(** C9 (amended): the schema rejects a multiple choice question whose options
    are absent or fewer than two, and accepts one with two options (a
    non-empty text and a non-negative order index given), whatever the
    entries are; for every other type the options do not matter; a survey
    without questions is rejected. *)
Theorem questionSchema_options (d : Validations.QuestionFormData) :
  (Validations.question_type d = Validations.multiple_choice ->
   (Validations.options d = None
    \/ exists l, Validations.options d = Some l /\ List.length l < 2) ->
   Validations.questionSchema d = false)
  /\ (Validations.question_type d = Validations.multiple_choice ->
      (exists a b, Validations.options d = Some [a; b]) ->
      Validations.question_text d <> "" ->
      (0 <= Validations.order_index d)%Z ->
      Validations.questionSchema d = true)
  /\ (Validations.question_type d <> Validations.multiple_choice ->
      forall o, Validations.questionSchema (Spec.withOptions o d)
                = Validations.questionSchema d)
  /\ (forall s, Validations.questions s = [] ->
                Validations.surveyWithQuestionsSchema s = false).
Proof.
  unfold Validations.questionSchema, Validations.questionRefine,
    Validations.minLen.
  repeat split.
  - intros Ht [Hn | (l & Hl & Hlen)]; rewrite Ht.
    + rewrite Hn. apply andb_false_r.
    + rewrite Hl.
      replace (2 <=? List.length l)%nat with false
        by (symmetry; apply Nat.leb_gt; exact Hlen).
      apply andb_false_r.
  - intros Ht (a & b & Ho) Htext Hidx. rewrite Ht, Ho. simpl.
    destruct (Validations.question_text d) as [|c t]; [congruence|].
    simpl. apply Z.leb_le in Hidx. rewrite Hidx. reflexivity.
  - intros Ht o. simpl.
    destruct (Validations.question_type d); congruence.
  - intros s Hs. unfold Validations.surveyWithQuestionsSchema.
    rewrite Hs. apply andb_false_r.
Qed.

Lemma questionSchema_options_witness :
  Validations.questionSchema (Sample.choiceForm (Some ["Red"])) = false
  /\ Validations.questionSchema (Sample.choiceForm None) = false
  /\ Validations.questionSchema (Sample.choiceForm (Some ["Red"; "Blue"]))
     = true
  /\ Validations.surveyWithQuestionsSchema (Sample.surveyForm []) = false.
Proof.
  split; [|split; [|split]].
  - destruct (questionSchema_options (Sample.choiceForm (Some ["Red"])))
      as (Hfew & _).
    apply Hfew; [reflexivity|].
    right. exists ["Red"]. split; [reflexivity|simpl; lia].
  - destruct (questionSchema_options (Sample.choiceForm None)) as (Hnone & _).
    apply Hnone; [reflexivity|]. left. reflexivity.
  - destruct (questionSchema_options
                (Sample.choiceForm (Some ["Red"; "Blue"])))
      as (_ & Htwo & _).
    apply Htwo; [reflexivity| |discriminate|simpl; lia].
    exists "Red", "Blue". reflexivity.
  - destruct (questionSchema_options (Sample.choiceForm None))
      as (_ & _ & _ & Hempty).
    apply Hempty. reflexivity.
Defined.

(** ** The survey-taking flow *)

Lemma index_in_range {A : Type} (l : list A) (i : Z) :
  (0 <= i < Z.of_nat (List.length l))%Z -> exists x, Js.index l i = Some x.
Proof.
  intros H. unfold Js.index.
  replace (i <? 0)%Z with false by (symmetry; apply Z.ltb_ge; lia).
  destruct (nth_error l (Z.to_nat i)) as [x|] eqn:E; [now exists x|].
  apply nth_error_None in E. lia.
Qed.

Lemma index_some_range {A : Type} (l : list A) (i : Z) (x : A) :
  Js.index l i = Some x -> (0 <= i < Z.of_nat (List.length l))%Z.
Proof.
  unfold Js.index. destruct (i <? 0)%Z eqn:E; [discriminate|].
  apply Z.ltb_ge in E. intros H.
  assert (Hn : nth_error l (Z.to_nat i) <> None) by congruence.
  apply nth_error_Some in Hn. lia.
Qed.

Lemma handle_showing (sv : SurveyPage.SurveyWithQuestions)
      (e : SurveyPage.Event) (st : SurveyPage.State) :
  Spec.showing sv st ->
  exists st', SurveyPage.handle e st = Some st' /\ Spec.showing sv st'.
Proof.
  intros (Hsv & Hload & Hrange).
  destruct (index_in_range _ _ Hrange) as [q Hq].
  unfold SurveyPage.handle, SurveyPage.shown. rewrite Hload, Hsv, Hq.
  unfold Spec.showing, Spec.inRange in *.
  destruct e as [| |text].
  - destruct (SurveyPage.currentQuestionIndex st =? 0)%Z eqn:E.
    + exists st. auto.
    + apply Z.eqb_neq in E. eexists. split; [reflexivity|].
      simpl. repeat split; auto; lia.
  - unfold SurveyPage.isLastQuestion.
    destruct (_ =? _)%Z eqn:E.
    + exists st. auto.
    + apply Z.eqb_neq in E.
      unfold SurveyPage.nextQuestion, SurveyPage.validateCurrentQuestion.
      rewrite Hsv, Hq.
      destruct (negb (Database.Question.required q)); simpl.
      * eexists. split; [reflexivity|]. simpl. repeat split; auto; lia.
      * destruct (_ && _); eexists; (split; [reflexivity|]); simpl;
          repeat split; auto; lia.
  - eexists. split; [reflexivity|]. simpl. auto.
Qed.

Lemma run_showing (sv : SurveyPage.SurveyWithQuestions)
      (events : list SurveyPage.Event) :
  forall st, Spec.showing sv st ->
  exists st', SurveyPage.run events st = Some st' /\ Spec.showing sv st'.
Proof.
  induction events as [|e rest IH]; intros st Hst; simpl.
  - exists st. auto.
  - destruct (handle_showing sv e st Hst) as (st1 & E & H1).
    rewrite E. apply IH, H1.
Qed.

(** C3 (as stated): the handlers do not stop at the ends.  On a survey of one
    optional question, retreating from index 0 gives index -1 and advancing
    from index 0 gives index 1; neither lies in [0, 1). *)
Lemma navigation_handlers_unbounded :
  List.length (SurveyPage.questions Sample.single) = 1
  /\ option_map SurveyPage.currentQuestionIndex
       (SurveyPage.applyAll [SurveyPage.Retreat]
          (SurveyPage.loaded Sample.single)) = Some (-1)%Z
  /\ option_map SurveyPage.currentQuestionIndex
       (SurveyPage.applyAll [SurveyPage.Advance]
          (SurveyPage.loaded Sample.single)) = Some 1%Z
  /\ ~ (forall ops st',
          SurveyPage.applyAll ops (SurveyPage.loaded Sample.single) = Some st'
          -> Spec.inRange Sample.single st').
Proof.
  repeat split.
  intros H.
  specialize (H [SurveyPage.Retreat] _ eq_refl).
  unfold Spec.inRange in H. simpl in H. lia.
Qed.

(** C3 (amended): for every survey with at least one question and every
    sequence of events of the rendered form, starting at index 0, the index
    stays within [0, N): Previous is disabled at index 0 and Next is not
    offered on the last question. *)
Theorem index_stays_in_range (sv : SurveyPage.SurveyWithQuestions)
        (events : list SurveyPage.Event) :
  SurveyPage.questions sv <> [] ->
  exists st',
    SurveyPage.run events (SurveyPage.loaded sv) = Some st'
    /\ Spec.inRange sv st'.
Proof.
  intros Hne.
  destruct (run_showing sv events (SurveyPage.loaded sv)) as (st' & E & H).
  - repeat split; simpl; [lia|].
    destruct (SurveyPage.questions sv); [congruence|simpl; lia].
  - exists st'. split; [exact E|apply H].
Qed.

Lemma index_stays_in_range_witness :
  exists st',
    SurveyPage.run
      [SurveyPage.ClickPrevious; SurveyPage.ClickNext;
       SurveyPage.Change "Red"; SurveyPage.ClickNext; SurveyPage.ClickNext;
       SurveyPage.ClickNext]
      (SurveyPage.loaded Sample.taken) = Some st'
    /\ Spec.inRange Sample.taken st'.
Proof.
  apply (index_stays_in_range Sample.taken). discriminate.
Defined.

(** C4: on a loaded survey showing question [q], [nextQuestion] fails with
    the validation message and keeps the index when [q] is required and its
    buffer entry is no answer; otherwise it clears the error and adds one to
    the index.  A missing entry and an empty string are no answer. *)
Theorem nextQuestion_gate (st : SurveyPage.State)
        (sv : SurveyPage.SurveyWithQuestions) (q : Database.Question.Row) :
  SurveyPage.survey st = Some sv ->
  Js.index (SurveyPage.questions sv) (SurveyPage.currentQuestionIndex st)
  = Some q ->
  (Database.Question.required q = true ->
   Spec.noAnswer (Js.prop (SurveyPage.answers st) (Database.Question.id q))
   = true ->
   exists st',
     SurveyPage.nextQuestion st = Some st'
     /\ SurveyPage.error st' = Some SurveyPage.requiredMessage
     /\ SurveyPage.currentQuestionIndex st'
        = SurveyPage.currentQuestionIndex st
     /\ SurveyPage.answers st' = SurveyPage.answers st)
  /\ (Database.Question.required q = false
      \/ Spec.noAnswer
           (Js.prop (SurveyPage.answers st) (Database.Question.id q))
         = false ->
      exists st',
        SurveyPage.nextQuestion st = Some st'
        /\ SurveyPage.error st' = None
        /\ SurveyPage.currentQuestionIndex st'
           = (SurveyPage.currentQuestionIndex st + 1)%Z
        /\ SurveyPage.answers st' = SurveyPage.answers st)
  /\ (Js.inherited (Database.Question.id q) = false ->
      Js.get (SurveyPage.answers st) (Database.Question.id q) = None
      \/ Js.get (SurveyPage.answers st) (Database.Question.id q)
         = Some (Js.Str "") ->
      Spec.noAnswer (Js.prop (SurveyPage.answers st) (Database.Question.id q))
      = true).
Proof.
  intros Hsv Hq.
  unfold SurveyPage.nextQuestion, SurveyPage.validateCurrentQuestion,
    Spec.noAnswer.
  rewrite Hsv, Hq. split; [|split];
    [| |intros Hid [E|E]; unfold Js.prop; rewrite E, ?Hid; reflexivity].
  - intros Hreq Hno. rewrite Hreq. simpl.
    destruct (Js.prop _ _) as [[| |b|s|l]| |]; simpl in *; try discriminate;
      try (eexists; split; [reflexivity|simpl; auto]).
    rewrite orb_false_r in Hno. rewrite Hno. simpl.
    eexists; split; [reflexivity|simpl; auto].
  - intros [Hopt | Hans].
    + rewrite Hopt. simpl. eexists; split; [reflexivity|simpl; auto].
    + destruct (Database.Question.required q); simpl;
        [|eexists; split; [reflexivity|simpl; auto]].
      destruct (Js.prop _ _) as [[| |b|s|l]| |]; simpl in *; try discriminate;
        try (eexists; split; [reflexivity|simpl; auto]).
      rewrite orb_false_r in Hans. rewrite Hans. simpl.
      eexists; split; [reflexivity|simpl; auto].
Qed.

Lemma nextQuestion_gate_witness :
  (exists st',
     SurveyPage.nextQuestion (SurveyPage.loaded Sample.taken) = Some st'
     /\ SurveyPage.error st' = Some SurveyPage.requiredMessage
     /\ SurveyPage.currentQuestionIndex st' = 0%Z
     /\ SurveyPage.answers st' = [])
  /\ (exists st',
        SurveyPage.nextQuestion
          (SurveyPage.handleAnswerChange "q1" (Js.Str "Red")
             (SurveyPage.loaded Sample.taken)) = Some st'
        /\ SurveyPage.error st' = None
        /\ SurveyPage.currentQuestionIndex st' = 1%Z
        /\ SurveyPage.answers st' = [("q1", Js.Str "Red")]).
Proof.
  split.
  - destruct (nextQuestion_gate (SurveyPage.loaded Sample.taken)
                Sample.taken Sample.colour eq_refl eq_refl)
      as (Hfail & _ & Hmissing).
    apply Hfail; [reflexivity|].
    apply Hmissing; [reflexivity|]. left. reflexivity.
  - destruct (nextQuestion_gate
                (SurveyPage.handleAnswerChange "q1" (Js.Str "Red")
                   (SurveyPage.loaded Sample.taken))
                Sample.taken Sample.colour eq_refl eq_refl)
      as (_ & Hpass & _).
    apply Hpass. right. reflexivity.
Defined.

(** ** Objects *)

Lemma get_set_same {A : Type} (o : Js.object A) (k : string) (v : A) :
  Js.get (Js.set o k v) k = Some v.
Proof.
  induction o as [|[k' v'] t IH]; simpl.
  - now rewrite String.eqb_refl.
  - destruct (String.eqb k' k) eqn:E; simpl.
    + now rewrite String.eqb_refl.
    + now rewrite E.
Qed.

Lemma get_set_other {A : Type} (o : Js.object A) (k k2 : string) (v : A) :
  k <> k2 -> Js.get (Js.set o k v) k2 = Js.get o k2.
Proof.
  intros Hne. induction o as [|[k' v'] t IH]; simpl.
  - apply String.eqb_neq in Hne. now rewrite Hne.
  - destruct (String.eqb k' k) eqn:E; simpl.
    + apply String.eqb_eq in E. subst k'.
      apply String.eqb_neq in Hne. now rewrite Hne.
    + now rewrite IH.
Qed.

Lemma get_delete_same {A : Type} (o : Js.object A) (k : string) :
  Js.get (Js.delete o k) k = None.
Proof.
  induction o as [|[k' v'] t IH]; simpl; [reflexivity|].
  destruct (String.eqb k' k) eqn:E; simpl; [exact IH|].
  now rewrite E.
Qed.

Lemma get_delete_other {A : Type} (o : Js.object A) (k k2 : string) :
  k <> k2 -> Js.get (Js.delete o k) k2 = Js.get o k2.
Proof.
  intros Hne. induction o as [|[k' v'] t IH]; simpl; [reflexivity|].
  destruct (String.eqb k' k) eqn:E; simpl.
  - apply String.eqb_eq in E. subst k'.
    apply String.eqb_neq in Hne. now rewrite Hne.
  - now rewrite IH.
Qed.


Lemma insertByIndex_In {A : Type} (n : N) (e : string * A)
      (l : list (N * (string * A))) (x : N * (string * A)) :
  In x (Js.insertByIndex n e l) <-> x = (n, e) \/ In x l.
Proof.
  induction l as [|[n' e'] t IH]; simpl; [intuition|].
  destruct (n <? n')%N; simpl; [intuition|].
  rewrite IH. intuition.
Qed.


Lemma entries_In {A : Type} (o : Js.object A) (e : string * A) :
  In e (Js.entries o) <-> In e o.
Proof.
  unfold Js.entries. rewrite in_app_iff, in_map_iff.
  induction o as [|[k v] t IH]; simpl.
  - split; [intros [(x & _ & [])|[]]|intros []].
  - destruct (Js.arrayIndex k) as [n|] eqn:E; simpl.
    + split.
      * intros [(x & Hx & Hin)|Hn].
        -- apply insertByIndex_In in Hin as [->|Hin]; [now left|].
           right. apply IH. left. now exists x.
        -- right. apply IH. now right.
      * intros [<-|Hin].
        -- left. exists (n, (k, v)). split; [reflexivity|].
           apply insertByIndex_In. now left.
        -- apply IH in Hin as [(x & Hx & Hin)|Hn]; [|now right].
           left. exists x. split; [exact Hx|].
           apply insertByIndex_In. now right.
    + rewrite <- IH. tauto.
Qed.

(** ** Required answers *)

Lemma noAnswer_empty_or_deleted (a : Js.object Js.value) (q k : string) :
  Js.inherited q = false ->
  Spec.noAnswer (Js.prop (Js.set a q (Js.Str "")) k)
  = Spec.noAnswer (Js.prop (Js.delete a q) k).
Proof.
  intros Hq. unfold Js.prop. destruct (string_dec q k) as [<-|Hne].
  - now rewrite get_set_same, get_delete_same, Hq.
  - now rewrite get_set_other, get_delete_other.
Qed.

Lemma validate_noAnswer (st : SurveyPage.State) :
  SurveyPage.validateCurrentQuestion st =
  match SurveyPage.survey st with
  | None => Some false
  | Some sv =>
      match Js.index (SurveyPage.questions sv)
                     (SurveyPage.currentQuestionIndex st) with
      | None => None
      | Some q =>
          Some (negb (Database.Question.required q)
                || negb (Spec.noAnswer
                           (Js.prop (SurveyPage.answers st)
                                    (Database.Question.id q))))
      end
  end.
Proof.
  unfold SurveyPage.validateCurrentQuestion, Spec.noAnswer.
  destruct (SurveyPage.survey st) as [sv|]; [|reflexivity].
  destruct (Js.index _ _) as [q|]; [|reflexivity].
  destruct (Database.Question.required q); simpl; [|reflexivity].
  destruct (Js.prop _ _) as [[| |b|s|l]| |]; simpl; try reflexivity.
  now rewrite orb_false_r, andb_true_r.
Qed.

Lemma isMissing_noAnswer (a : Js.object Js.value) (q : Database.Question.Row) :
  SurveyPage.isMissing a q =
  Database.Question.required q
  && Spec.noAnswer (Js.prop a (Database.Question.id q)).
Proof. reflexivity. Qed.

Lemma noAnswer_emptied (a : Js.object Js.value) (q : string) :
  Spec.noAnswer (Js.prop (Js.set a q (Js.Str "")) q) = true.
Proof. unfold Js.prop. now rewrite get_set_same. Qed.

Lemma noAnswer_removed (a : Js.object Js.value) (q : string) :
  Js.inherited q = false ->
  Spec.noAnswer (Js.prop (Js.delete a q) q) = true.
Proof. intros Hq. unfold Js.prop. now rewrite get_delete_same, Hq. Qed.

(** C6: an empty string in the buffer and no entry at all are the same to the
    required-answer checks, and both are no answer.  [validateCurrentQuestion],
    hence [nextQuestion], and the filter of [submitSurvey] give the same
    result on the buffer that maps a question to the empty string and on the
    buffer without that entry.  On both buffers the filter of [submitSurvey]
    takes the question exactly when it is required; when it is required and
    is the question shown, [validateCurrentQuestion] answers false and
    [nextQuestion] stays on the question with the error set; when it is not
    required, the check passes.  The id of the question is a key of the
    store, not one of the names every object inherits. *)
Theorem empty_string_is_absent (st : SurveyPage.State)
        (sv : SurveyPage.SurveyWithQuestions) (q : Database.Question.Row) :
  Js.inherited (Database.Question.id q) = false ->
  let questionId := Database.Question.id q in
  let emptied := SurveyPage.handleAnswerChange questionId (Js.Str "") st in
  let removed :=
    SurveyPage.setAnswers (fun a => Js.delete a questionId) st in
  let stays s :=
    SurveyPage.nextQuestion s
    = Some (SurveyPage.setError (Some SurveyPage.requiredMessage) s) in
  SurveyPage.validateCurrentQuestion emptied
  = SurveyPage.validateCurrentQuestion removed
  /\ option_map (fun s => (SurveyPage.currentQuestionIndex s,
                           SurveyPage.error s))
       (SurveyPage.nextQuestion emptied)
     = option_map (fun s => (SurveyPage.currentQuestionIndex s,
                             SurveyPage.error s))
         (SurveyPage.nextQuestion removed)
  /\ SurveyPage.missingRequired sv (SurveyPage.answers emptied)
     = SurveyPage.missingRequired sv (SurveyPage.answers removed)
  /\ SurveyPage.isMissing (SurveyPage.answers emptied) q
     = Database.Question.required q
  /\ SurveyPage.isMissing (SurveyPage.answers removed) q
     = Database.Question.required q
  /\ (Database.Question.required q = true ->
      In q (SurveyPage.questions sv) ->
      In q (SurveyPage.missingRequired sv (SurveyPage.answers emptied))
      /\ In q (SurveyPage.missingRequired sv (SurveyPage.answers removed)))
  /\ (SurveyPage.survey st = Some sv ->
      Js.index (SurveyPage.questions sv) (SurveyPage.currentQuestionIndex st)
      = Some q ->
      SurveyPage.validateCurrentQuestion emptied
      = Some (negb (Database.Question.required q))
      /\ SurveyPage.validateCurrentQuestion removed
         = Some (negb (Database.Question.required q))
      /\ (Database.Question.required q = true ->
          stays emptied /\ stays removed)).
Proof.
  intros Hid questionId emptied removed stays.
  assert (Hv : SurveyPage.validateCurrentQuestion emptied
               = SurveyPage.validateCurrentQuestion removed).
  { rewrite !validate_noAnswer. subst emptied removed. simpl.
    destruct (SurveyPage.survey st) as [sv0|]; [|reflexivity].
    destruct (Js.index _ _) as [q0|]; [|reflexivity].
    now rewrite (noAnswer_empty_or_deleted _ _ _ Hid). }
  assert (He : SurveyPage.isMissing (SurveyPage.answers emptied) q
               = Database.Question.required q).
  { rewrite isMissing_noAnswer. subst emptied questionId. simpl.
    now rewrite noAnswer_emptied, andb_true_r. }
  assert (Hr : SurveyPage.isMissing (SurveyPage.answers removed) q
               = Database.Question.required q).
  { rewrite isMissing_noAnswer. subst removed questionId. simpl.
    now rewrite (noAnswer_removed _ _ Hid), andb_true_r. }
  split; [exact Hv|]. split; [|split; [|split; [exact He|split;
    [exact Hr|split]]]].
  - unfold SurveyPage.nextQuestion. rewrite Hv.
    destruct (SurveyPage.validateCurrentQuestion removed) as [[]|];
      reflexivity.
  - unfold SurveyPage.missingRequired. subst emptied removed. simpl.
    apply filter_ext. intros q0. rewrite !isMissing_noAnswer.
    now rewrite (noAnswer_empty_or_deleted _ _ _ Hid).
  - intros Hreq Hin. unfold SurveyPage.missingRequired.
    rewrite !filter_In, He, Hr. auto.
  - intros Hsv Hq.
    assert (Hve : SurveyPage.validateCurrentQuestion emptied
                  = Some (negb (Database.Question.required q))).
    { rewrite validate_noAnswer. subst emptied questionId. simpl.
      rewrite Hsv, Hq, noAnswer_emptied. simpl. now rewrite orb_false_r. }
    split; [exact Hve|]. split; [now rewrite <- Hv|].
    intros Hreq. subst stays. cbv beta. unfold SurveyPage.nextQuestion.
    rewrite <- Hv, Hve, Hreq. split; reflexivity.
Qed.

Lemma empty_string_is_absent_witness :
  SurveyPage.validateCurrentQuestion
    (SurveyPage.handleAnswerChange "q1" (Js.Str "") Sample.partly)
  = Some false
  /\ SurveyPage.validateCurrentQuestion
       (SurveyPage.setAnswers (fun a => Js.delete a "q1") Sample.partly)
     = Some false
  /\ In Sample.colour
        (SurveyPage.missingRequired Sample.taken
           (Js.set (SurveyPage.answers Sample.partly) "q1" (Js.Str "")))
  /\ In Sample.colour
        (SurveyPage.missingRequired Sample.taken
           (Js.delete (SurveyPage.answers Sample.partly) "q1")).
Proof.
  destruct (empty_string_is_absent Sample.partly Sample.taken Sample.colour
              eq_refl)
    as (_ & _ & _ & _ & _ & Hmissing & Hshown).
  destruct (Hshown eq_refl eq_refl) as (Hemptied & Hremoved & _).
  destruct (Hmissing eq_refl (or_introl eq_refl)) as (Hin1 & Hin2).
  repeat split; assumption.
Defined.

(** ** Submission *)








(** ** The answer codec: encoding *)

Lemma set_strings (a : Js.object Js.value) (k text : string) :
  Forall (fun e => exists s, snd e = Js.Str s) a ->
  Forall (fun e => exists s, snd e = Js.Str s) (Js.set a k (Js.Str text)).
Proof.
  induction 1 as [|[k' v'] t Hx Ht IH]; simpl.
  - constructor; [now exists text|constructor].
  - destruct (String.eqb k' k); constructor; auto. now exists text.
Qed.

Lemma handle_strings (e : SurveyPage.Event) (st st' : SurveyPage.State) :
  SurveyPage.handle e st = Some st' ->
  Forall (fun e => exists s, snd e = Js.Str s) (SurveyPage.answers st) ->
  Forall (fun e => exists s, snd e = Js.Str s) (SurveyPage.answers st').
Proof.
  unfold SurveyPage.handle.
  destruct (SurveyPage.shown st) as [[sv q]|]; [|now intros [= <-]].
  destruct e as [| |text].
  - destruct (_ =? _)%Z; now intros [= <-].
  - destruct (SurveyPage.isLastQuestion sv st); [now intros [= <-]|].
    unfold SurveyPage.nextQuestion.
    destruct (SurveyPage.validateCurrentQuestion st) as [[]|];
      [now intros [= <-]|now intros [= <-]|discriminate].
  - intros [= <-]. simpl. apply set_strings.
Qed.

Lemma run_strings (events : list SurveyPage.Event) :
  forall st st',
    SurveyPage.run events st = Some st' ->
    Forall (fun e => exists s, snd e = Js.Str s) (SurveyPage.answers st) ->
    Forall (fun e => exists s, snd e = Js.Str s) (SurveyPage.answers st').
Proof.
  induction events as [|e rest IH]; intros st st'; simpl.
  - now intros [= <-].
  - destruct (SurveyPage.handle e st) as [st1|] eqn:E; [|discriminate].
    intros Hrun Hst. apply (IH st1 st' Hrun).
    apply (handle_strings e st st1 E Hst).
Qed.

(** C1 (as stated): the first question of the sample survey is a multiple
    choice question; the taker picks Red; the row built for that answer holds
    the raw string in [answer_text], and [answer_choice] is null. *)
Lemma choice_answer_encoded_as_text :
  Database.Question.question_type Sample.colour = Validations.multiple_choice
  /\ option_map SurveyPage.answers
       (SurveyPage.run [SurveyPage.Change "Red"]
          (SurveyPage.loaded Sample.taken))
     = Some [("q1", Js.Str "Red")]
  /\ SurveyPage.answersToInsert "r1" [("q1", Js.Str "Red")]
     = [ {| Database.NewAnswer.response_id := "r1";
            Database.NewAnswer.question_id := "q1";
            Database.NewAnswer.answer_text := Some "Red";
            Database.NewAnswer.answer_choice := None |} ]
  /\ ~ (forall row,
          In row (SurveyPage.answersToInsert "r1" [("q1", Js.Str "Red")]) ->
          Database.NewAnswer.answer_text row = None
          /\ Spec.populated (Database.NewAnswer.answer_choice row) = true).
Proof.
  repeat split.
  intros H. destruct (H _ (or_introl eq_refl)) as [Htext _]. discriminate.
Qed.

(** C1 (amended): the encoding follows the type of the buffered value, not
    the type of the question.  A string is stored raw in [answer_text] with
    [answer_choice] null; an array or null is JSON-serialized into
    [answer_choice] with [answer_text] null; so for a string or an object
    exactly one of the two is populated.  Every value the form records is a
    string, whatever the type of the question, so every row built from a
    buffer filled through the form has [answer_text] populated and
    [answer_choice] null. *)
Theorem encode_follows_value (rid questionId : string) (v : Js.value) :
  let row := SurveyPage.encode rid (questionId, v) in
  (forall s, v = Js.Str s ->
             Database.NewAnswer.answer_text row = Some s
             /\ Database.NewAnswer.answer_choice row = None)
  /\ (forall l, v = Js.Arr l ->
                Database.NewAnswer.answer_text row = None
                /\ Database.NewAnswer.answer_choice row
                   = Some ("[" ++ Js.join "," (map Js.quote l) ++ "]"))
  /\ (v = Js.Null ->
      Database.NewAnswer.answer_text row = None
      /\ Database.NewAnswer.answer_choice row = Some "null")
  /\ (Js.typeof v = "string" \/ Js.typeof v = "object" ->
      xorb (Spec.populated (Database.NewAnswer.answer_text row))
           (Spec.populated (Database.NewAnswer.answer_choice row)) = true)
  /\ (forall sv events st' r,
         SurveyPage.run events (SurveyPage.loaded sv) = Some st' ->
         In r (SurveyPage.answersToInsert rid (SurveyPage.answers st')) ->
         exists s,
           In (Database.NewAnswer.question_id r, Js.Str s)
              (SurveyPage.answers st')
           /\ Database.NewAnswer.answer_text r = Some s
           /\ Database.NewAnswer.answer_choice r = None).
Proof.
  intros row. subst row. repeat split.
  - subst v. reflexivity.
  - subst v. reflexivity.
  - subst v. reflexivity.
  - subst v. reflexivity.
  - subst v. reflexivity.
  - subst v. reflexivity.
  - intros [H|H]; destruct v as [| |[]|s|l]; simpl in *;
      try discriminate; reflexivity.
  - intros sv events st' r Hrun Hin.
    unfold SurveyPage.answersToInsert in Hin.
    apply in_map_iff in Hin as ([k w] & <- & Hin).
    apply (proj1 (entries_In _ _)) in Hin.
    pose proof (run_strings events _ _ Hrun (Forall_nil _)) as Hall.
    rewrite Forall_forall in Hall.
    destruct (Hall _ Hin) as [s Hs]. simpl in Hs. subst w.
    exists s. simpl. repeat split. exact Hin.
Qed.

Lemma encode_follows_value_witness :
  Database.NewAnswer.answer_text
    (SurveyPage.encode "r1" ("q2", Js.Str "Agree")) = Some "Agree"
  /\ Database.NewAnswer.answer_choice
       (SurveyPage.encode "r1" ("q2", Js.Str "Agree")) = None.
Proof.
  destruct (encode_follows_value "r1" "q2" (Js.Str "Agree")) as (Hstr & _).
  apply Hstr. reflexivity.
Defined.

(** ** JSON: parsing what [JSON.stringify] wrote *)

Lemma append_assoc (a b c : string) : (a ++ b) ++ c = a ++ (b ++ c).
Proof.
  induction a as [|x a IH]; simpl; [reflexivity|]. now rewrite IH.
Qed.

Lemma parse_quoteChar (m : Js.mode) (c : ascii) (acc : list ascii)
      (done : list string) (rest : string) :
  Spec.inString m = true ->
  Js.parseFrom m acc done (Js.quoteChar c ++ rest)
  = Js.parseFrom m (c :: acc) done rest.
Proof.
  intros Hm.
  destruct m; try discriminate;
    destruct c as [[] [] [] [] [] [] [] []]; reflexivity.
Qed.

Lemma parse_quoteBody (m : Js.mode) (s : string) :
  Spec.inString m = true ->
  forall acc done rest,
    Js.parseFrom m acc done (Js.quoteBody s ++ rest)
    = Js.parseFrom m (rev (list_ascii_of_string s) ++ acc) done rest.
Proof.
  intros Hm. induction s as [|c t IH]; intros acc done rest; simpl.
  - reflexivity.
  - rewrite append_assoc, parse_quoteChar by exact Hm.
    rewrite IH, <- app_assoc. reflexivity.
Qed.

Lemma ofRev_rev (s : string) :
  Js.ofRev (rev (list_ascii_of_string s) ++ []) = s.
Proof.
  unfold Js.ofRev.
  now rewrite app_nil_r, rev_involutive, string_of_list_ascii_of_string.
Qed.

Lemma quote_append (s rest : string) :
  Js.quote s ++ rest
  = String Js.dquote (Js.quoteBody s ++ String Js.dquote rest).
Proof.
  unfold Js.quote. simpl. now rewrite append_assoc.
Qed.

Lemma parse_quote (s : string) : Js.JSON_parse (Js.quote s) = Some (Js.Str s).
Proof.
  unfold Js.JSON_parse, Js.quote.
  change (Js.parseFrom Js.TopStr [] []
            (Js.quoteBody s ++ String Js.dquote "") = Some (Js.Str s)).
  rewrite parse_quoteBody by reflexivity.
  simpl. now rewrite ofRev_rev.
Qed.

Lemma array_text (x : string) (l : list string) :
  Js.join "," (map Js.quote (x :: l)) ++ "]"
  = Js.quote x ++ Spec.afterElement l.
Proof.
  destruct l as [|y l]; [reflexivity|].
  change (Js.join "," (map Js.quote (x :: y :: l)))
    with (Js.quote x ++ "," ++ Js.join "," (map Js.quote (y :: l))).
  now rewrite !append_assoc.
Qed.

Lemma parse_element (m : Js.mode) (x : string) (done : list string)
      (rest : string) :
  m = Js.ElemOrClose \/ m = Js.Elem ->
  Js.parseFrom m [] done (Js.quote x ++ rest)
  = Js.parseFrom Js.AfterElem [] (x :: done) rest.
Proof.
  intros Hm. rewrite quote_append.
  transitivity (Js.parseFrom Js.ElemStr [] done
                  (Js.quoteBody x ++ String Js.dquote rest)).
  { destruct Hm; subst m; reflexivity. }
  rewrite parse_quoteBody by reflexivity.
  simpl. now rewrite ofRev_rev.
Qed.

Lemma parse_afterElement (l : list string) :
  forall done,
    Js.parseFrom Js.AfterElem [] done (Spec.afterElement l)
    = Some (Js.Arr (rev done ++ l)).
Proof.
  induction l as [|x l IH]; intros done.
  - simpl. now rewrite app_nil_r.
  - unfold Spec.afterElement. rewrite array_text.
    change (Js.parseFrom Js.Elem [] done
              (Js.quote x ++ Spec.afterElement l)
            = Some (Js.Arr (rev done ++ x :: l))).
    rewrite parse_element by now right.
    rewrite IH. simpl. now rewrite <- app_assoc.
Qed.

Lemma parse_array (l : list string) :
  Js.JSON_parse ("[" ++ Js.join "," (map Js.quote l) ++ "]")
  = Some (Js.Arr l).
Proof.
  destruct l as [|x l]; [reflexivity|].
  rewrite array_text. unfold Js.JSON_parse.
  change (Js.parseFrom Js.ElemOrClose [] []
            (Js.quote x ++ Spec.afterElement l) = Some (Js.Arr (x :: l))).
  rewrite parse_element by now left.
  now rewrite parse_afterElement.
Qed.

(** [JSON.parse] inverts [JSON.stringify] on every value that has a text. *)
Lemma parse_stringify (v : Js.value) (text : string) :
  Js.JSON_stringify v = Some text -> Js.JSON_parse text = Some v.
Proof.
  destruct v as [| |[]|s|l]; simpl; intros [= <-]; try reflexivity.
  - apply parse_quote.
  - apply parse_array.
Qed.

(** ** The answer codec: decoding *)

(** C2: for a question of any type, a string and an array of strings come
    back from the stored form of their encoding: the decoder of the analytics
    returns the value itself, the key it tallies is the first element of an
    array, and the CSV export displays a string as it is and an array by its
    elements, the single element of a one-element array.  The decoder of the
    export returns [answer_text] as it is when it is neither null nor empty,
    and otherwise parses [answer_choice]. *)
Theorem codec_round_trip (q : Database.Question.Row) (rid id : string)
        (r : Database.Response.Row) :
  let stored v :=
    Database.storedAnswer id (SurveyPage.encode rid (Database.Question.id q, v))
  in
  let response v :=
    {| ResultsPage.row_of := r; ResultsPage.answers := [stored v] |} in
  (forall s,
      Database.Answer.answer_text (stored (Js.Str s)) = Some s
      /\ Database.Answer.answer_choice (stored (Js.Str s)) = None
      /\ ResultsPage.choiceOf (stored (Js.Str s)) = Some (Js.Str s)
      /\ ResultsPage.keyOf (Js.Str s) = Js.Str s
      /\ ResultsPage.answerValue (response (Js.Str s)) q = Some (Js.Str s))
  /\ (forall l,
         Database.Answer.answer_text (stored (Js.Arr l)) = None
         /\ Database.Answer.answer_choice (stored (Js.Arr l))
            = Js.JSON_stringify (Js.Arr l)
         /\ ResultsPage.choiceOf (stored (Js.Arr l)) = Some (Js.Arr l)
         /\ ResultsPage.answerValue (response (Js.Arr l)) q
            = Some (Js.Str (Js.join ", " l)))
  /\ (forall x l,
         ResultsPage.keyOf (Js.Arr (x :: l)) = Js.Str x
         /\ ResultsPage.answerValue (response (Js.Arr [x])) q
            = Some (Js.Str x))
  /\ (forall a : Database.Answer.Row,
         let display :=
           ResultsPage.answerValue
             {| ResultsPage.row_of := r; ResultsPage.answers := [a] |} q in
         Database.Answer.question_id a = Database.Question.id q ->
         match Database.Answer.answer_text a with
         | Some (String c t) => display = Some (Js.Str (String c t))
         | _ =>
             match Database.Answer.answer_choice a with
             | Some (String c t) =>
                 display
                 = match Js.JSON_parse (String c t) with
                   | Some (Js.Arr l) => Some (Js.Str (Js.join ", " l))
                   | parsed => parsed
                   end
             | _ => display = Some (Js.Str "")
             end
         end).
Proof.
  intros stored response.
  assert (Hdecode : forall a : Database.Answer.Row,
             let display :=
               ResultsPage.answerValue
                 {| ResultsPage.row_of := r; ResultsPage.answers := [a] |} q in
             Database.Answer.question_id a = Database.Question.id q ->
             match Database.Answer.answer_text a with
             | Some (String c t) => display = Some (Js.Str (String c t))
             | _ =>
                 match Database.Answer.answer_choice a with
                 | Some (String c t) =>
                     display
                     = match Js.JSON_parse (String c t) with
                       | Some (Js.Arr l) => Some (Js.Str (Js.join ", " l))
                       | parsed => parsed
                       end
                 | _ => display = Some (Js.Str "")
                 end
             end).
  { intros a display Hid. subst display.
    unfold ResultsPage.answerValue. simpl.
    rewrite Hid, String.eqb_refl.
    destruct (Database.Answer.answer_text a) as [[|c t]|];
      destruct (Database.Answer.answer_choice a) as [[|c' t']|]; simpl;
      try reflexivity;
      destruct (Js.JSON_parse (String c' t')) as [[| |b|s|l]|]; reflexivity. }
  assert (Harr : forall l,
             ResultsPage.answerValue (response (Js.Arr l)) q
             = Some (Js.Str (Js.join ", " l))).
  { intros l. unfold ResultsPage.answerValue, response, stored. simpl.
    rewrite String.eqb_refl. simpl.
    change (Js.isEmpty _) with false. cbv iota.
    change (String "[" (Js.join "," (map Js.quote l) ++ "]"))
      with ("[" ++ Js.join "," (map Js.quote l) ++ "]").
    now rewrite parse_array. }
  split; [|split; [|split]]; [| | |exact Hdecode].
  - intros s. repeat split.
    unfold ResultsPage.answerValue, response, stored. simpl.
    rewrite String.eqb_refl. simpl.
    destruct s; reflexivity.
  - intros l. repeat split; [|apply Harr].
    unfold ResultsPage.choiceOf, stored. simpl.
    change (String "[" (Js.join "," (map Js.quote l) ++ "]"))
      with ("[" ++ Js.join "," (map Js.quote l) ++ "]").
    apply parse_array.
  - intros x l. split; [reflexivity|]. apply (Harr [x]).
Qed.

Lemma codec_round_trip_witness :
  ResultsPage.answerValue
    {| ResultsPage.row_of := ResultsPage.row_of (Sample.response "r1" "" []);
       ResultsPage.answers :=
         [Sample.answerRow "a1" "r1" "q3" (Some "hello") None] |}
    Sample.why
  = Some (Js.Str "hello").
Proof.
  destruct (codec_round_trip Sample.why "r1" "a1"
              (ResultsPage.row_of (Sample.response "r1" "" [])))
    as (_ & _ & _ & Hdecode).
  apply (Hdecode (Sample.answerRow "a1" "r1" "q3" (Some "hello") None)).
  reflexivity.
Defined.

(** The two examples of the specification. *)
Example round_trip_hello :
  SurveyPage.encode "r1" ("q3", Js.Str "hello")
  = {| Database.NewAnswer.response_id := "r1";
       Database.NewAnswer.question_id := "q3";
       Database.NewAnswer.answer_text := Some "hello";
       Database.NewAnswer.answer_choice := None |}
  /\ ResultsPage.choiceOf
       (Database.storedAnswer "a1"
          (SurveyPage.encode "r1" ("q3", Js.Str "hello")))
     = Some (Js.Str "hello").
Proof. split; reflexivity. Qed.

Example round_trip_agree :
  Database.NewAnswer.answer_text
    (SurveyPage.encode "r1" ("q2", Js.Arr ["Agree"])) = None
  /\ Database.NewAnswer.answer_choice
       (SurveyPage.encode "r1" ("q2", Js.Arr ["Agree"]))
     = Some ("[" ++ String Js.dquote "Agree" ++ String Js.dquote "]")
  /\ option_map ResultsPage.keyOf
       (ResultsPage.choiceOf
          (Database.storedAnswer "a1"
             (SurveyPage.encode "r1" ("q2", Js.Arr ["Agree"]))))
     = Some (Js.Str "Agree").
Proof. repeat split. Qed.

(** ** The analytics tally *)

Lemma get_bump (counts : Js.object ResultsPage.Tallied) (k key : string) :
  Js.inherited k = false ->
  Js.get (ResultsPage.bump counts k) key
  = if string_dec k key then Spec.counted (Js.get counts key) 1
    else Js.get counts key.
Proof.
  intros Hk. unfold ResultsPage.bump. rewrite Hk.
  destruct (string_dec k key) as [<-|Hne].
  - destruct (Js.get counts k) as [[n|]|] eqn:E;
      rewrite get_set_same; reflexivity.
  - destruct (Js.get counts k) as [[n|]|];
      now rewrite get_set_other.
Qed.

Lemma counted_once_more (before : option ResultsPage.Tallied) (n : nat) :
  Spec.counted (Spec.counted before 1) n = Spec.counted before (S n).
Proof.
  destruct before as [[m|]|]; simpl; try reflexivity.
  do 2 f_equal. lia.
Qed.

Lemma counted_none (before : option ResultsPage.Tallied) :
  Spec.counted before 0 = before.
Proof.
  destruct before as [[m|]|]; simpl; try reflexivity.
  now rewrite Nat.add_0_r.
Qed.

Lemma countAnswers_tally (l : list Database.Answer.Row) :
  forall counts decoded,
    ResultsPage.mapThrowing ResultsPage.choiceOf l = Some decoded ->
    Forall (fun c => Js.inherited (Spec.keyText c) = false) decoded ->
    exists counts',
      ResultsPage.countAnswers counts l = Some counts'
      /\ forall key,
           Js.get counts' key
           = Spec.counted (Js.get counts key)
               (count_occ string_dec (map Spec.keyText decoded) key).
Proof.
  induction l as [|a t IH]; intros counts decoded; simpl.
  - intros [= <-] _. exists counts. split; [reflexivity|].
    intros key. simpl. now rewrite counted_none.
  - destruct (ResultsPage.choiceOf a) as [c|]; [|discriminate].
    destruct (ResultsPage.mapThrowing ResultsPage.choiceOf t) as [ds|] eqn:E;
      [|discriminate].
    intros [= <-] Hkeys. inversion Hkeys as [|c' ds' Hc Hds]; subst.
    destruct (IH (ResultsPage.bump counts (Js.toString (ResultsPage.keyOf c)))
                 ds eq_refl Hds) as (counts' & Hcount & Hget).
    exists counts'. split; [exact Hcount|].
    intros key. rewrite Hget.
    unfold Spec.keyText in Hc. rewrite (get_bump _ _ _ Hc). simpl.
    change (Spec.keyText c) with (Js.toString (ResultsPage.keyOf c)).
    destruct (string_dec (Js.toString (ResultsPage.keyOf c)) key).
    + apply counted_once_more.
    + reflexivity.
Qed.

(** For a multiple choice or Likert question whose decoded answers have keys
    that no object inherits, the distribution counts the answers by key, the
    key of an array being its first element: a key has no entry when no answer
    decodes to it, and else the number of answers that do; the chart data are
    the entries of that tally.  A free-text question has no chart data. *)
Lemma distribution_tally (q : Database.Question.Row)
      (responses : list ResultsPage.ResponseWithAnswers) :
  (ResultsPage.isChoiceLike (Database.Question.question_type q) = true ->
   forall decoded,
     ResultsPage.mapThrowing ResultsPage.choiceOf
       (ResultsPage.questionResponses q responses) = Some decoded ->
     Forall (fun c => Js.inherited (Spec.keyText c) = false) decoded ->
     exists answerCounts,
       ResultsPage.countAnswers [] (ResultsPage.questionResponses q responses)
       = Some answerCounts
       /\ ResultsPage.chartDataOf q responses
          = Some (map ResultsPage.chartDatum (Js.entries answerCounts))
       /\ (forall key,
              Js.get answerCounts key
              = Spec.counted None
                  (count_occ string_dec (map Spec.keyText decoded) key))
       /\ (forall l, ResultsPage.keyOf (Js.Arr l) = Js.first l))
  /\ (Spec.isFreeText (Database.Question.question_type q) = true ->
      ResultsPage.chartDataOf q responses = Some []).
Proof.
  split.
  - intros Hlike decoded Hdec Hkeys.
    destruct (countAnswers_tally _ [] decoded Hdec Hkeys)
      as (counts & Hc & Ht).
    exists counts. repeat split.
    + exact Hc.
    + unfold ResultsPage.chartDataOf. now rewrite Hlike, Hc.
    + intros key. now rewrite Ht.
  - unfold ResultsPage.chartDataOf.
    destruct (Database.Question.question_type q); simpl; congruence.
Qed.

(** The example of the specification: answers that decode to A, A and B. *)
Example distribution_A2_B1 :
  ResultsPage.mapThrowing ResultsPage.choiceOf
    (ResultsPage.questionResponses Sample.colour Sample.votes)
  = Some [Js.Str "A"; Js.Arr ["A"]; Js.Str "B"]
  /\ ResultsPage.countAnswers []
       (ResultsPage.questionResponses Sample.colour Sample.votes)
     = Some [("A", ResultsPage.Count 2); ("B", ResultsPage.Count 1)]
  /\ ResultsPage.chartDataOf Sample.colour Sample.votes
     = Some [ {| ResultsPage.answer := "A";
                 ResultsPage.count := ResultsPage.Count 2;
                 ResultsPage.fullAnswer := "A" |};
              {| ResultsPage.answer := "B";
                 ResultsPage.count := ResultsPage.Count 1;
                 ResultsPage.fullAnswer := "B" |} ]
  /\ ResultsPage.chartDataOf Sample.why Sample.votes = Some [].
Proof. repeat split. Qed.

(** C8: the tally is an object literal, so a key that names a member of
    [Object.prototype] is found before it is ever counted.  One answer
    [constructor] to a multiple choice question: the distribution holds no
    count 1 under that key, but a string. *)
Theorem distribution_inherited_key :
  Database.Question.question_type Sample.colour = Validations.multiple_choice
  /\ ResultsPage.mapThrowing ResultsPage.choiceOf
       (ResultsPage.questionResponses Sample.colour Sample.named)
     = Some [Js.Str "constructor"]
  /\ ResultsPage.countAnswers []
       (ResultsPage.questionResponses Sample.colour Sample.named)
     = Some [("constructor", ResultsPage.NotANumber)]
  /\ ResultsPage.chartDataOf Sample.colour Sample.named
     = Some [ {| ResultsPage.answer := "constructor";
                 ResultsPage.count := ResultsPage.NotANumber;
                 ResultsPage.fullAnswer := "constructor" |} ]
  /\ ResultsPage.chartDataOf Sample.colour Sample.named
     <> Some [ {| ResultsPage.answer := "constructor";
                  ResultsPage.count := ResultsPage.Count 1;
                  ResultsPage.fullAnswer := "constructor" |} ].
Proof. repeat split. discriminate. Qed.

(** ** The CSV export *)

Lemma mapThrowing_Forall2 {A B : Type} (f : A -> option B) (l : list A) :
  forall ys,
    ResultsPage.mapThrowing f l = Some ys ->
    Forall2 (fun x y => f x = Some y) l ys.
Proof.
  induction l as [|x t IH]; simpl; intros ys.
  - intros [= <-]. constructor.
  - destruct (f x) as [y|] eqn:E; [|discriminate].
    destruct (ResultsPage.mapThrowing f t) as [ys'|]; [|discriminate].
    intros [= <-]. constructor; auto.
Qed.

Lemma mapThrowing_length {A B : Type} (f : A -> option B) (l : list A)
      (ys : list B) :
  ResultsPage.mapThrowing f l = Some ys -> List.length ys = List.length l.
Proof.
  intros H. apply mapThrowing_Forall2 in H.
  symmetry. eapply Forall2_length, H.
Qed.

Lemma rowOf_cells (format : string -> string -> string)
      (sv : ResultsPage.SurveyWithQuestions)
      (response : ResultsPage.ResponseWithAnswers) (cells : list Js.value) :
  ResultsPage.rowOf format sv response = Some cells ->
  exists values,
    cells = Js.Str (Database.Response.id (ResultsPage.row_of response))
            :: Js.Str (format (Database.Response.submitted_at
                                 (ResultsPage.row_of response))
                              "yyyy-MM-dd HH:mm:ss")
            :: values
    /\ Forall2 (fun question v =>
                  ResultsPage.answerValue response question = Some v)
               (ResultsPage.questions sv) values.
Proof.
  unfold ResultsPage.rowOf.
  destruct (ResultsPage.mapThrowing _ _) as [values|] eqn:E; [|discriminate].
  intros [= <-]. exists values. split; [reflexivity|].
  now apply mapThrowing_Forall2.
Qed.

(** C7 (as stated): the header of the export for the two sample questions
    does not consist of the question texts: it starts with two more cells,
    and so does every row, which has four cells for two questions. *)
Lemma csv_has_two_leading_columns :
  ResultsPage.headers Sample.polled
  = [Js.Str "Response ID"; Js.Str "Submitted At";
     Js.Str "Favourite colour?"; Js.Str "Why?"]
  /\ ResultsPage.headers Sample.polled
     <> map (fun q => Js.Str (Database.Question.question_text q))
            (ResultsPage.questions Sample.polled)
  /\ List.length (ResultsPage.questions Sample.polled) = 2
  /\ option_map (map (@List.length Js.value))
       (ResultsPage.csvRows Sample.verbatim Sample.polled Sample.exported)
     = Some [4; 4; 4].
Proof.
  repeat split. discriminate.
Qed.

(** C7 (amended): the export has one header row, whose cells are Response
    ID, Submitted At and then the question texts, followed by one row per
    response: the id of the response, its formatted submission time, and then
    one cell per question in survey order, holding the decoded answer.  The
    rows are joined by line feeds and the cells by commas; every cell is
    wrapped in double quotes, the double quotes inside it doubled; the
    elements of a decoded array are joined with a comma and a space.  With R
    responses there are R + 1 rows. *)
Theorem csv_export_shape (format : string -> string -> string)
        (sv : ResultsPage.SurveyWithQuestions)
        (responses : list ResultsPage.ResponseWithAnswers)
        (rows : list (list Js.value)) :
  ResultsPage.csvRows format sv responses = Some rows ->
  ResultsPage.headers sv
  = Js.Str "Response ID" :: Js.Str "Submitted At"
    :: map (fun q => Js.Str (Database.Question.question_text q))
           (ResultsPage.questions sv)
  /\ (exists body,
         rows = ResultsPage.headers sv :: body
         /\ Forall2
              (fun response cells =>
                 exists values,
                   cells
                   = Js.Str (Database.Response.id
                               (ResultsPage.row_of response))
                     :: Js.Str (format
                                  (Database.Response.submitted_at
                                     (ResultsPage.row_of response))
                                  "yyyy-MM-dd HH:mm:ss")
                     :: values
                   /\ Forall2
                        (fun question v =>
                           ResultsPage.answerValue response question = Some v)
                        (ResultsPage.questions sv) values)
              responses body)
  /\ List.length rows = S (List.length responses)
  /\ ResultsPage.csvContent format sv responses
     = Some (Js.join ResultsPage.newline (map ResultsPage.line rows))
  /\ (forall cells,
         ResultsPage.line cells = Js.join "," (map ResultsPage.quoted cells))
  /\ (forall s,
         ResultsPage.quoted (Js.Str s)
         = String Js.dquote
             (Js.replaceChar Js.isDquote
                (String Js.dquote (String Js.dquote "")) s
              ++ String Js.dquote ""))
  /\ (forall response question a text l,
         find (fun a => String.eqb (Database.Answer.question_id a)
                                   (Database.Question.id question))
              (ResultsPage.answers response) = Some a ->
         ResultsPage.whenTruthy (Database.Answer.answer_text a) = None ->
         ResultsPage.whenTruthy (Database.Answer.answer_choice a)
         = Some text ->
         Js.JSON_parse text = Some (Js.Arr l) ->
         ResultsPage.answerValue response question
         = Some (Js.Str (Js.join ", " l)))
  /\ (responses <> [] ->
      ResultsPage.exportToCSV format (Some sv) responses
      = ResultsPage.Download
          (Database.Survey.slug (ResultsPage.row sv) ++ "-responses.csv")
          (Js.join ResultsPage.newline (map ResultsPage.line rows))).
Proof.
  intros Hrows.
  assert (Hcontent : ResultsPage.csvContent format sv responses
                     = Some (Js.join ResultsPage.newline
                               (map ResultsPage.line rows))).
  { unfold ResultsPage.csvContent. now rewrite Hrows. }
  unfold ResultsPage.csvRows in Hrows.
  destruct (ResultsPage.mapThrowing _ responses) as [body|] eqn:E;
    [|discriminate].
  injection Hrows as <-.
  split; [reflexivity|]. split; [|split; [|split; [|split; [|split; [|split]]]]].
  - exists body. split; [reflexivity|].
    apply mapThrowing_Forall2 in E.
    revert E. apply Forall2_impl. intros r cells. apply rowOf_cells.
  - simpl. f_equal. eapply mapThrowing_length, E.
  - exact Hcontent.
  - reflexivity.
  - reflexivity.
  - intros response question a text l Hfind Htext Hchoice Hparse.
    unfold ResultsPage.answerValue.
    now rewrite Hfind, Htext, Hchoice, Hparse.
  - intros Hne. unfold ResultsPage.exportToCSV.
    destruct responses; [congruence|]. now rewrite Hcontent.
Qed.

(** The example of the specification: two responses over two questions give
    three lines. *)
Lemma csv_export_shape_witness :
  exists rows,
    ResultsPage.csvRows Sample.verbatim Sample.polled Sample.exported
    = Some rows
    /\ List.length rows = 3
    /\ ResultsPage.csvContent Sample.verbatim Sample.polled Sample.exported
       = Some (Js.join ResultsPage.newline (map ResultsPage.line rows)).
Proof.
  eexists. split; [reflexivity|].
  destruct (csv_export_shape Sample.verbatim Sample.polled Sample.exported
              _ eq_refl) as (_ & _ & Hlen & Hcontent & _).
  split; [exact Hlen|exact Hcontent].
Defined.

Example csv_two_by_two :
  ResultsPage.csvContent Sample.verbatim Sample.polled Sample.exported
  = Some
      (Js.join ResultsPage.newline
         [ Js.join ","
             [Sample.inQuotes "Response ID"; Sample.inQuotes "Submitted At";
              Sample.inQuotes "Favourite colour?"; Sample.inQuotes "Why?"];
           Js.join ","
             [Sample.inQuotes "r1"; Sample.inQuotes "2024-05-06T07:08:09Z";
              Sample.inQuotes "Red";
              Sample.inQuotes
                ("He said " ++ Sample.inQuotes (Sample.inQuotes "hi"))];
           Js.join ","
             [Sample.inQuotes "r2"; Sample.inQuotes "2024-05-07T07:08:09Z";
              Sample.inQuotes "Red, Blue"; Sample.inQuotes ""] ]).
Proof. reflexivity. Qed.

(** A cell that holds a quoted word: every double quote is doubled. *)
Example csv_cell_he_said_hi :
  ResultsPage.quoted (Js.Str ("He said " ++ Sample.inQuotes "hi"))
  = Sample.inQuotes ("He said " ++ Sample.inQuotes (Sample.inQuotes "hi")).
Proof. reflexivity. Qed.

(* ================================================================== *)
(** * Further properties *)
(* ================================================================== *)

(** ** The slug of the edit page *)

Lemma isHyphen_eq (c : ascii) : Js.isHyphen c = true -> c = "-"%char.
Proof.
  destruct c as [[] [] [] [] [] [] [] []]; vm_compute; congruence.
Qed.

Lemma slugChar_lowered (c : ascii) :
  Validations.slugChar c = true -> Js.lowerChar c = c.
Proof.
  destruct c as [[] [] [] [] [] [] [] []]; vm_compute; congruence.
Qed.

Lemma slugChar_alnum_or_hyphen (c : ascii) :
  Validations.slugChar c = true ->
  EditPage.notAlnum c = Js.isHyphen c.
Proof.
  destruct c as [[] [] [] [] [] [] [] []]; vm_compute; congruence.
Qed.

Lemma alnum_slugChar (c : ascii) :
  EditPage.notAlnum c = false ->
  Validations.slugChar c = true /\ Js.isHyphen c = false.
Proof.
  destruct c as [[] [] [] [] [] [] [] []]; vm_compute; split; congruence.
Qed.

Lemma noHyphenPair_weaken (s : string) :
  Spec.noHyphenPair true s = true -> Spec.noHyphenPair false s = true.
Proof.
  destruct s as [|c t]; simpl; [reflexivity|].
  destruct (Js.isHyphen c); simpl; [discriminate|auto].
Qed.

Lemma runs_to_hyphens_chars (s : string) (inrun : bool) :
  Js.allChars Validations.slugChar
    (Js.replaceRuns EditPage.notAlnum "-" inrun s) = true.
Proof.
  revert inrun. induction s as [|c t IH]; intros inrun; simpl;
    [reflexivity|].
  destruct (EditPage.notAlnum c) eqn:E.
  - destruct inrun; simpl; auto.
  - simpl. destruct (alnum_slugChar c E) as [-> _]. simpl. auto.
Qed.

Lemma runs_to_hyphens_pairs (s : string) (inrun : bool) :
  Spec.noHyphenPair inrun
    (Js.replaceRuns EditPage.notAlnum "-" inrun s) = true.
Proof.
  revert inrun. induction s as [|c t IH]; intros inrun; simpl;
    [reflexivity|].
  destruct (EditPage.notAlnum c) eqn:E.
  - destruct inrun; [apply IH|].
    change (Spec.noHyphenPair true
              (Js.replaceRuns EditPage.notAlnum "-" true t) = true).
    apply IH.
  - simpl. destruct (alnum_slugChar c E) as [_ ->]. apply IH.
Qed.

Lemma dropLastHyphen_chars (p : ascii -> bool) (s : string) :
  Js.allChars p s = true -> Js.allChars p (EditPage.dropLastHyphen s) = true.
Proof.
  induction s as [|c t IH]; simpl; [reflexivity|].
  intros H. apply andb_true_iff in H as [Hc Ht].
  destruct t as [|c' t'].
  - destruct (Js.isHyphen c); simpl; [reflexivity|now rewrite Hc].
  - change (Js.allChars p (String c (EditPage.dropLastHyphen (String c' t')))
            = true).
    simpl Js.allChars at 1. rewrite Hc. simpl. apply IH, Ht.
Qed.

Lemma dropLastHyphen_pairs (s : string) (prev : bool) :
  Spec.noHyphenPair prev s = true ->
  Spec.noHyphenPair prev (EditPage.dropLastHyphen s) = true
  /\ Props.endsWithHyphen (EditPage.dropLastHyphen s) = false
  /\ (Props.startsWithHyphen s = false ->
      Props.startsWithHyphen (EditPage.dropLastHyphen s) = false).
Proof.
  revert prev. induction s as [|c t IH]; intros prev; simpl;
    [auto|].
  destruct t as [|c' t'].
  - destruct (Js.isHyphen c) eqn:E; simpl; [auto|].
    rewrite E. auto.
  - intros H.
    assert (Ht : Spec.noHyphenPair (Js.isHyphen c) (String c' t') = true).
    { destruct (Js.isHyphen c); [apply andb_true_iff in H; apply H|exact H]. }
    destruct (IH _ Ht) as (Hp & He & Hs).
    change (EditPage.dropLastHyphen (String c (String c' t')))
      with (String c (EditPage.dropLastHyphen (String c' t'))).
    assert (Hlone : EditPage.dropLastHyphen (String c' t') = EmptyString ->
                    Js.isHyphen c = false).
    { destruct t' as [|c'' t'']; [|discriminate].
      simpl. destruct (Js.isHyphen c') eqn:E'; [|discriminate].
      intros _. simpl in Ht. rewrite E' in Ht.
      destruct (Js.isHyphen c); [discriminate|reflexivity]. }
    remember (EditPage.dropLastHyphen (String c' t')) as rest eqn:Er.
    clear Er IH Ht Hs. simpl in H. simpl.
    repeat split.
    + destruct (Js.isHyphen c) eqn:E.
      * apply andb_true_iff in H as [Hprev _]. now rewrite Hprev, Hp.
      * exact Hp.
    + destruct rest as [|d r]; [now apply Hlone|exact He].
    + auto.
Qed.

Lemma edit_slug_normal (title : string) :
  let slug := EditPage.generateSlug title in
  Js.allChars Validations.slugChar slug = true
  /\ Spec.noHyphenPair false slug = true
  /\ Props.startsWithHyphen slug = false
  /\ Props.endsWithHyphen slug = false
  /\ Validations.slugRule slug = negb (Js.isEmpty slug).
Proof.
  intros slug. subst slug. unfold EditPage.generateSlug, EditPage.stripHyphens.
  set (u := Js.replaceRuns EditPage.notAlnum "-" false (Js.toLowerCase title)).
  assert (Hu : Js.allChars Validations.slugChar u = true)
    by apply runs_to_hyphens_chars.
  assert (Hp : Spec.noHyphenPair false u = true)
    by apply runs_to_hyphens_pairs.
  assert (Hd : Js.allChars Validations.slugChar (EditPage.dropFirstHyphen u)
               = true
               /\ Spec.noHyphenPair false (EditPage.dropFirstHyphen u) = true
               /\ Props.startsWithHyphen (EditPage.dropFirstHyphen u) = false).
  { destruct u as [|c t]; simpl in *; [auto|].
    apply andb_true_iff in Hu as [Hc Ht].
    destruct (Js.isHyphen c) eqn:E.
    - repeat split; [exact Ht|now apply noHyphenPair_weaken|].
      destruct t as [|c' t']; simpl in *; [reflexivity|].
      destruct (Js.isHyphen c'); [discriminate|reflexivity].
    - simpl. rewrite Hc, Ht, E. auto. }
  destruct Hd as (Hc & Hpair & Hstart).
  destruct (dropLastHyphen_pairs _ _ Hpair) as (Hpair' & Hend & Hstart').
  assert (Hchars := dropLastHyphen_chars _ _ Hc).
  repeat split; auto.
  unfold Validations.slugRule, Validations.slugRegex, Validations.minLen.
  rewrite Hchars.
  destruct (EditPage.dropLastHyphen (EditPage.dropFirstHyphen u));
    reflexivity.
Qed.

(** The slug that the edit page derives from a title holds only lowercase
    letters, digits and hyphens, no two hyphens in a row, and no hyphen at
    either end; the slug rule accepts it unless it is empty. *)
Theorem edit_generateSlug_shape (title : string) :
  let slug := EditPage.generateSlug title in
  Js.allChars Validations.slugChar slug = true
  /\ Spec.noHyphenPair false slug = true
  /\ Props.startsWithHyphen slug = false
  /\ Props.endsWithHyphen slug = false
  /\ Validations.slugRule slug = negb (Js.isEmpty slug).
Proof. exact (edit_slug_normal title). Qed.

Example edit_generateSlug_padded :
  EditPage.generateSlug " My  Survey -- 2024! " = "my-survey-2024"
  /\ EditPage.generateSlug " - " = "".
Proof. split; reflexivity. Qed.

Lemma mapChars_fixed (f : ascii -> ascii) (p : ascii -> bool) (s : string) :
  (forall c, p c = true -> f c = c) ->
  Js.allChars p s = true -> Js.mapChars f s = s.
Proof.
  intros Hf. induction s as [|c t IH]; simpl; [reflexivity|].
  intros H. apply andb_true_iff in H as [Hc Ht].
  now rewrite (Hf c Hc), (IH Ht).
Qed.

Lemma single_hyphens_kept (p : ascii -> bool) (s : string) :
  (forall c, Validations.slugChar c = true -> p c = Js.isHyphen c) ->
  forall inrun,
    Js.allChars Validations.slugChar s = true ->
    Spec.noHyphenPair inrun s = true ->
    Js.replaceRuns p "-" inrun s = s.
Proof.
  intros Hp. induction s as [|c t IH]; intros inrun Hs Hpair; simpl;
    [reflexivity|].
  simpl in Hs, Hpair. apply andb_true_iff in Hs as [Hc Ht].
  rewrite (Hp c Hc). destruct (Js.isHyphen c) eqn:E.
  - apply andb_true_iff in Hpair as [Hprev Hpair].
    apply negb_true_iff in Hprev. subst inrun.
    rewrite (IH true Ht Hpair), (isHyphen_eq c E). reflexivity.
  - now rewrite (IH false Ht Hpair).
Qed.

Lemma dropLastHyphen_fixed (s : string) :
  Props.endsWithHyphen s = false -> EditPage.dropLastHyphen s = s.
Proof.
  induction s as [|c t IH]; simpl; [reflexivity|].
  destruct t as [|c' t']; [now intros ->|].
  intros H. now rewrite IH.
Qed.

(** Deriving the slug of the edit page from a slug it derived gives the same
    slug. *)
Theorem edit_generateSlug_idempotent (title : string) :
  EditPage.generateSlug (EditPage.generateSlug title)
  = EditPage.generateSlug title.
Proof.
  destruct (edit_slug_normal title) as (Hc & Hp & Hs & He & _).
  set (slug := EditPage.generateSlug title) in *.
  unfold EditPage.generateSlug at 1. unfold Js.toLowerCase.
  rewrite (mapChars_fixed _ _ slug slugChar_lowered Hc).
  rewrite (single_hyphens_kept _ slug slugChar_alnum_or_hyphen false Hc Hp).
  unfold EditPage.stripHyphens.
  replace (EditPage.dropFirstHyphen slug) with slug.
  - now apply dropLastHyphen_fixed.
  - destruct slug as [|c t]; simpl in *; [reflexivity|]. now rewrite Hs.
Qed.

(** ** The slug of the create page *)









(** ** Saving and loading the questions *)

Lemma questionsFrom_indexes (sid : string)
      (l : list Validations.QuestionFormData) :
  forall index,
    map QuestionRows.NewQuestion.order_index
        (QuestionRows.questionsFrom sid index l)
    = Props.indexesFrom index (List.length l).
Proof.
  induction l as [|q t IH]; intros index; simpl; [reflexivity|].
  now rewrite IH.
Qed.

Lemma In_indexesFrom (n : nat) :
  forall index x,
    In x (Props.indexesFrom index n) <->
    (index <= x < index + Z.of_nat n)%Z.
Proof.
  induction n as [|n IH]; intros index x; simpl.
  - lia.
  - rewrite IH. lia.
Qed.

Lemma NoDup_indexesFrom (n : nat) :
  forall index, NoDup (Props.indexesFrom index n).
Proof.
  induction n as [|n IH]; intros index; simpl; constructor.
  - rewrite In_indexesFrom. lia.
  - apply IH.
Qed.

(** Whatever order index the form holds for a question, the row saved for it
    holds its position: the order indexes of the rows of one save are 0, 1,
    ..., N - 1, each once, and the rows are the questions of the form in their
    order, all of the survey saved. *)
Theorem saved_order_is_dense (survey_id : string)
        (l : list Validations.QuestionFormData) :
  let rows := QuestionRows.questionsToInsert survey_id l in
  map QuestionRows.NewQuestion.order_index rows
  = Props.indexesFrom 0 (List.length l)
  /\ NoDup (map QuestionRows.NewQuestion.order_index rows)
  /\ (forall x, In x (map QuestionRows.NewQuestion.order_index rows) <->
                (0 <= x < Z.of_nat (List.length l))%Z)
  /\ map QuestionRows.NewQuestion.question_text rows
     = map Validations.question_text l
  /\ Forall (fun r => QuestionRows.NewQuestion.survey_id r = survey_id) rows.
Proof.
  intros rows. subst rows. unfold QuestionRows.questionsToInsert.
  rewrite questionsFrom_indexes.
  split; [reflexivity|]. split; [apply NoDup_indexesFrom|].
  split; [intros x; rewrite In_indexesFrom; lia|]. split.
  - generalize 0%Z. induction l as [|q t IH]; intros i; simpl;
      [reflexivity|]. now rewrite IH.
  - generalize 0%Z. induction l as [|q t IH]; intros i; simpl;
      constructor; auto.
Qed.

Lemma saved_order_is_dense_witness :
  In 1%Z
     (map QuestionRows.NewQuestion.order_index
          (QuestionRows.questionsToInsert "s1"
             [Sample.choiceForm None; Sample.choiceForm None])).
Proof.
  destruct (saved_order_is_dense "s1"
              [Sample.choiceForm None; Sample.choiceForm None])
    as (_ & _ & H & _).
  apply H. simpl. lia.
Defined.

Lemma optionsField_optionsColumn (o : option (list string)) :
  QuestionRows.optionsField (QuestionRows.optionsColumn o) = Some o.
Proof.
  destruct o as [l|]; [|reflexivity].
  unfold QuestionRows.optionsField, QuestionRows.optionsColumn,
    Js.JSON_stringify.
  assert (E : ResultsPage.whenTruthy
                (Some ("[" ++ Js.join "," (map Js.quote l) ++ "]"))
              = Some ("[" ++ Js.join "," (map Js.quote l) ++ "]"))
    by reflexivity.
  now rewrite E, parse_array.
Qed.

Lemma formQuestion_stored (ids : nat -> string) (created sid : string)
      (l : list Validations.QuestionFormData) :
  forall n index,
    ResultsPage.mapThrowing QuestionRows.formQuestion
      (Props.storedFrom ids created n
         (QuestionRows.questionsFrom sid index l))
    = Some (Props.numberedFrom index l).
Proof.
  induction l as [|q t IH]; intros n index; simpl; [reflexivity|].
  unfold QuestionRows.formQuestion at 1. simpl.
  rewrite optionsField_optionsColumn, IH. reflexivity.
Qed.

Lemma insertByOrder_perm (q : Database.Question.Row)
      (l : list Database.Question.Row) :
  Permutation (QuestionRows.insertByOrder q l) (q :: l).
Proof.
  induction l as [|y t IH]; simpl; [reflexivity|].
  destruct (_ <=? _)%Z; [reflexivity|].
  rewrite IH. apply perm_swap.
Qed.

Lemma sortByOrder_perm (l : list Database.Question.Row) :
  Permutation (QuestionRows.sortByOrder l) l.
Proof.
  induction l as [|q t IH]; simpl; [reflexivity|].
  rewrite insertByOrder_perm. now constructor.
Qed.

Lemma insertByOrder_sorted (q : Database.Question.Row)
      (l : list Database.Question.Row) :
  StronglySorted Props.byOrderLe l ->
  StronglySorted Props.byOrderLe (QuestionRows.insertByOrder q l).
Proof.
  induction 1 as [|y t Ht IH Hy]; simpl.
  - repeat constructor.
  - destruct (_ <=? _)%Z eqn:E.
    + apply Z.leb_le in E. constructor; [now constructor|].
      constructor; [exact E|].
      revert Hy. apply Forall_impl. unfold Props.byOrderLe. intros z Hz. lia.
    + apply Z.leb_gt in E. constructor; [exact IH|].
      apply (Permutation_Forall (Permutation_sym (insertByOrder_perm q t))).
      constructor; [unfold Props.byOrderLe; lia|exact Hy].
Qed.

Lemma sortByOrder_sorted (l : list Database.Question.Row) :
  StronglySorted Props.byOrderLe (QuestionRows.sortByOrder l).
Proof.
  induction l as [|q t IH]; simpl; [constructor|].
  now apply insertByOrder_sorted.
Qed.

Lemma sorted_perm_unique (l1 : list Database.Question.Row) :
  forall l2,
    StronglySorted Props.byOrderLt l1 ->
    StronglySorted Props.byOrderLe l2 ->
    Permutation l1 l2 ->
    l1 = l2.
Proof.
  induction l1 as [|a t1 IH]; intros l2 H1 H2 Hp.
  - now apply Permutation_nil in Hp.
  - destruct l2 as [|b t2];
      [now apply Permutation_sym, Permutation_nil in Hp|].
    inversion H1 as [|? ? Hs1 Ha]; subst.
    inversion H2 as [|? ? Hs2 Hb]; subst.
    rewrite Forall_forall in Ha, Hb.
    assert (Hab : a = b).
    { assert (Hin_b : In b (a :: t1))
        by (apply (Permutation_in _ (Permutation_sym Hp)); now left).
      assert (Hin_a : In a (b :: t2))
        by (apply (Permutation_in _ Hp); now left).
      destruct Hin_b as [E|Hin_b]; [exact E|].
      destruct Hin_a as [E|Hin_a]; [now symmetry|].
      specialize (Ha _ Hin_b). specialize (Hb _ Hin_a).
      unfold Props.byOrderLt, Props.byOrderLe in *. lia. }
    subst b. f_equal. apply IH; auto.
    now apply Permutation_cons_inv in Hp.
Qed.

Lemma stored_sorted (ids : nat -> string) (created sid : string)
      (l : list Validations.QuestionFormData) :
  forall n index,
    StronglySorted Props.byOrderLt
      (Props.storedFrom ids created n
         (QuestionRows.questionsFrom sid index l))
    /\ Forall (fun r => (index <= Database.Question.order_index r)%Z)
              (Props.storedFrom ids created n
                 (QuestionRows.questionsFrom sid index l)).
Proof.
  induction l as [|q t IH]; intros n index; simpl.
  - split; constructor.
  - destruct (IH (S n) (index + 1)%Z) as [Hs Hf]. split.
    + constructor; [exact Hs|].
      revert Hf. apply Forall_impl. unfold Props.byOrderLt. simpl. intros r. lia.
    + constructor; [simpl; lia|].
      revert Hf. apply Forall_impl. intros r. lia.
Qed.

(** The editor loads what a save stored: in whatever order the store returns
    the rows of one save, the form gets the saved questions in their order,
    with the same text, type, options and required flag, numbered by
    position. *)
Theorem saved_questions_load_back (ids : nat -> string)
        (created survey_id : string) (l : list Validations.QuestionFormData)
        (returned : list Database.Question.Row) :
  Permutation returned
    (Props.storedFrom ids created 0
       (QuestionRows.questionsToInsert survey_id l)) ->
  ResultsPage.mapThrowing QuestionRows.formQuestion
    (QuestionRows.sortByOrder returned)
  = Some (Props.numberedFrom 0 l).
Proof.
  intros Hp.
  destruct (stored_sorted ids created survey_id l 0 0) as [Hs _].
  rewrite <- (sorted_perm_unique _ (QuestionRows.sortByOrder returned) Hs).
  - apply formQuestion_stored.
  - apply sortByOrder_sorted.
  - rewrite sortByOrder_perm. now apply Permutation_sym.
Qed.

Lemma saved_questions_load_back_witness :
  ResultsPage.mapThrowing QuestionRows.formQuestion
    (QuestionRows.sortByOrder
       (rev (Props.storedFrom (fun _ => "q") "2024-06-01T00:00:00Z" 0
               (QuestionRows.questionsToInsert "s1"
                  [Sample.choiceForm (Some ["Red"; "Blue"]);
                   Sample.choiceForm None]))))
  = Some (Props.numberedFrom 0
            [Sample.choiceForm (Some ["Red"; "Blue"]);
             Sample.choiceForm None]).
Proof.
  apply (saved_questions_load_back (fun _ => "q") "2024-06-01T00:00:00Z"
           "s1").
  apply Permutation_sym, Permutation_rev.
Defined.

(** Whatever rows the store returns, the editor lists them by ascending order
    index, and lists each row once. *)
Theorem loaded_questions_sorted (returned : list Database.Question.Row) :
  StronglySorted
    (fun a b => (Database.Question.order_index a
                 <= Database.Question.order_index b)%Z)
    (QuestionRows.sortByOrder returned)
  /\ Permutation (QuestionRows.sortByOrder returned) returned.
Proof.
  split; [apply sortByOrder_sorted|apply sortByOrder_perm].
Qed.

(** ** The option inputs *)

Lemma kept_nonBlank (l : list (option string)) :
  Forall (fun opt => OptionInputs.nonBlank opt = true) (OptionInputs.kept l).
Proof.
  induction l as [|[opt|] t IH]; simpl; auto.
  destruct (OptionInputs.nonBlank opt) eqn:E; auto.
Qed.

Lemma kept_app (a b : list (option string)) :
  OptionInputs.kept (a ++ b)
  = (OptionInputs.kept a ++ OptionInputs.kept b)%list.
Proof.
  induction a as [|[opt|] t IH]; simpl; auto.
  destruct (OptionInputs.nonBlank opt); simpl; now rewrite IH.
Qed.

Lemma kept_all (l : list string) :
  Forall (fun opt => OptionInputs.nonBlank opt = true) l ->
  OptionInputs.kept (map Some l) = l.
Proof.
  induction 1 as [|opt t Hopt Ht IH]; simpl; [reflexivity|].
  now rewrite Hopt, IH.
Qed.

Lemma assign_within (l : list string) (value : string) :
  forall i,
    i < List.length l ->
    OptionInputs.assign (map Some l) i value
    = (map Some (firstn i l) ++ Some value :: map Some (skipn (S i) l))%list.
Proof.
  induction l as [|x t IH]; intros i Hi; simpl in Hi; [lia|].
  destruct i as [|i]; simpl; [reflexivity|].
  rewrite IH by lia. reflexivity.
Qed.

Lemma assign_holes (value : string) (i : nat) :
  OptionInputs.kept (OptionInputs.assign [] i value)
  = OptionInputs.kept [Some value].
Proof.
  induction i as [|i IH]; simpl; [reflexivity|]. exact IH.
Qed.

Lemma assign_beyond (l : list string) (value : string) :
  forall i,
    List.length l <= i ->
    OptionInputs.kept (OptionInputs.assign (map Some l) i value)
    = (OptionInputs.kept (map Some l)
       ++ OptionInputs.kept [Some value])%list.
Proof.
  induction l as [|x t IH]; intros i Hi.
  - apply assign_holes.
  - destruct i as [|i]; simpl in Hi; [lia|].
    simpl. rewrite IH by lia.
    destruct (OptionInputs.nonBlank x); reflexivity.
Qed.

Lemma Forall_taken {A : Type} (P : A -> Prop) (l : list A) :
  Forall P l -> forall n, Forall P (firstn n l).
Proof.
  induction 1 as [|x t Hx Ht IH]; intros [|n]; simpl; auto.
Qed.

Lemma Forall_dropped {A : Type} (P : A -> Prop) (l : list A) :
  Forall P l -> forall n, Forall P (skipn n l).
Proof.
  induction 1 as [|x t Hx Ht IH]; intros [|n]; simpl; auto.
Qed.

Lemma onChange_cases (current : list string) (optionIndex : nat)
      (value : string) :
  let typed := if OptionInputs.nonBlank value then [value] else [] in
  Forall (fun opt => OptionInputs.nonBlank opt = true)
         (OptionInputs.onChange (Some current) optionIndex value)
  /\ OptionInputs.onChange None optionIndex value = typed
  /\ (Forall (fun opt => OptionInputs.nonBlank opt = true) current ->
      (optionIndex < List.length current ->
       OptionInputs.onChange (Some current) optionIndex value
       = (firstn optionIndex current ++ typed
          ++ skipn (S optionIndex) current)%list)
      /\ (List.length current <= optionIndex ->
          OptionInputs.onChange (Some current) optionIndex value
          = (current ++ typed)%list)).
Proof.
  intros typed. unfold OptionInputs.onChange.
  split; [apply kept_nonBlank|]. split.
  - simpl. rewrite assign_holes. reflexivity.
  - intros Hcur. split; intros Hi.
    + rewrite assign_within by exact Hi.
      rewrite kept_app.
      change (Some value :: map Some (skipn (S optionIndex) current))
        with ([Some value] ++ map Some (skipn (S optionIndex) current))%list.
      rewrite kept_app.
      rewrite !kept_all.
      * reflexivity.
      * now apply Forall_dropped.
      * now apply Forall_taken.
    + rewrite assign_beyond by exact Hi.
      now rewrite kept_all.
Qed.

(** What typing into the option input [optionIndex] stores.  No stored
    option is ever empty or blank.  When the options held so far are not
    blank: a text that is not blank replaces the option at that position, or
    is added after the last option when there is none at that position,
    whichever input it was typed in; a blank text removes the option at that
    position, and the options after it move up. *)
Theorem option_change (current : list string) (optionIndex : nat)
        (value : string) :
  let typed := if OptionInputs.nonBlank value then [value] else [] in
  Forall (fun opt => OptionInputs.nonBlank opt = true)
         (OptionInputs.onChange (Some current) optionIndex value)
  /\ OptionInputs.onChange None optionIndex value = typed
  /\ (Forall (fun opt => OptionInputs.nonBlank opt = true) current ->
      (optionIndex < List.length current ->
       OptionInputs.onChange (Some current) optionIndex value
       = (firstn optionIndex current ++ typed
          ++ skipn (S optionIndex) current)%list)
      /\ (List.length current <= optionIndex ->
          OptionInputs.onChange (Some current) optionIndex value
          = (current ++ typed)%list)).
Proof. exact (onChange_cases current optionIndex value). Qed.

Lemma option_change_witness :
  OptionInputs.onChange (Some ["Red"; "Blue"]) 1 "Green" = ["Red"; "Green"]
  /\ OptionInputs.onChange (Some ["Red"; "Blue"]) 0 " " = ["Blue"]
  /\ OptionInputs.onChange (Some ["Red"]) 3 "Green" = ["Red"; "Green"].
Proof.
  split; [|split].
  - destruct (option_change ["Red"; "Blue"] 1 "Green") as (_ & _ & H).
    apply H; [repeat constructor|simpl; lia].
  - destruct (option_change ["Red"; "Blue"] 0 " ") as (_ & _ & H).
    apply H; [repeat constructor|simpl; lia].
  - destruct (option_change ["Red"] 3 "Green") as (_ & _ & H).
    apply H; [repeat constructor|simpl; lia].
Defined.

Lemma onChange_length (current : option (list string)) (i : nat)
      (value : string) :
  match current with
  | None => True
  | Some l => Forall (fun opt => OptionInputs.nonBlank opt = true) l
              /\ List.length l <= 4
  end ->
  i < 4 ->
  List.length (OptionInputs.onChange current i value) <= 4.
Proof.
  intros Hcur Hi. destruct current as [l|].
  - destruct Hcur as [Hnb Hlen].
    destruct (onChange_cases l i value) as (_ & _ & H).
    destruct (H Hnb) as [Hin Hout].
    destruct (Nat.lt_ge_cases i (List.length l)) as [Hlt|Hge].
    + rewrite (Hin Hlt). rewrite !length_app, length_firstn, length_skipn.
      destruct (OptionInputs.nonBlank value); simpl; lia.
    + rewrite (Hout Hge). rewrite length_app.
      destruct (OptionInputs.nonBlank value); simpl; lia.
  - destruct (onChange_cases [] i value) as (_ & -> & _).
    destruct (OptionInputs.nonBlank value); simpl; lia.
Qed.

Lemma changes_invariant (l : list (nat * string)) :
  forall current,
    match current with
    | None => True
    | Some o => Forall (fun opt => OptionInputs.nonBlank opt = true) o
                /\ List.length o <= 4
    end ->
    Forall (fun e => fst e < 4) l ->
    match OptionInputs.changes l current with
    | None => current = None /\ l = []
    | Some o => Forall (fun opt => OptionInputs.nonBlank opt = true) o
                /\ List.length o <= 4
    end.
Proof.
  induction l as [|[i v] rest IH]; intros current Hcur Hidx; simpl.
  - destruct current; auto.
  - inversion Hidx as [|? ? Hi Hrest]; subst. simpl in Hi.
    specialize (IH (Some (OptionInputs.onChange current i v))).
    destruct (OptionInputs.changes rest
                (Some (OptionInputs.onChange current i v))) as [o|].
    + apply IH; [|exact Hrest]. split.
      * destruct current as [c|]; apply kept_nonBlank.
      * now apply onChange_length.
    + destruct IH as [E _]; [|exact Hrest|discriminate]. split.
      * destruct current as [c|]; apply kept_nonBlank.
      * now apply onChange_length.
Qed.

(** A multiple choice question whose options were typed into the four
    inputs of a new question, and which the schema accepts, has two to four
    options, none of them empty or blank. *)
Theorem typed_options_accepted (d : Validations.QuestionFormData)
        (typed : list (nat * string)) :
  Validations.options d = OptionInputs.changes typed None ->
  Forall (fun e => fst e < 4) typed ->
  Validations.question_type d = Validations.multiple_choice ->
  Validations.questionSchema d = true ->
  exists l,
    Validations.options d = Some l
    /\ 2 <= List.length l <= 4
    /\ Forall (fun opt => OptionInputs.nonBlank opt = true) l.
Proof.
  intros Hopt Hidx Htype Hok.
  pose proof (changes_invariant typed None I Hidx) as Hinv.
  rewrite <- Hopt in Hinv.
  unfold Validations.questionSchema, Validations.questionRefine in Hok.
  rewrite Htype in Hok.
  destruct (Validations.options d) as [l|].
  - exists l. destruct Hinv as [Hnb Hlen].
    apply andb_true_iff in Hok as [_ Hok]. apply Nat.leb_le in Hok.
    repeat split; auto.
  - rewrite andb_false_r in Hok. discriminate.
Qed.

Lemma typed_options_accepted_witness :
  exists l,
    Validations.options (Sample.choiceForm (Some ["Red"; "Blue"])) = Some l
    /\ 2 <= List.length l <= 4
    /\ Forall (fun opt => OptionInputs.nonBlank opt = true) l.
Proof.
  apply (typed_options_accepted
           (Sample.choiceForm (Some ["Red"; "Blue"]))
           [(0, "Red"); (1, ""); (3, "Blue")]);
    [reflexivity|repeat constructor|reflexivity|reflexivity].
Defined.

(** A question saved by the editor always renders on the survey page: a
    multiple choice question shows its options, as radio items in their
    order, a Likert question the five fixed labels. *)
Theorem saved_question_renders (d : Validations.QuestionFormData)
        (id created survey_id : string) (index : Z)
        (saved : QuestionRows.NewQuestion.Row) :
  QuestionRows.questionsFrom survey_id index [d] = [saved] ->
  SurveyView.renderQuestion (QuestionRows.storedQuestion id created saved)
  = Some
      match Validations.question_type d with
      | Validations.short_answer => SurveyView.TextInput
      | Validations.long_answer => SurveyView.TextArea
      | Validations.multiple_choice =>
          SurveyView.RadioGroup
            match Validations.options d with
            | Some l => l
            | None => []
            end
      | Validations.likert_scale => SurveyView.RadioGroup SurveyView.scales
      | Validations.file_upload => SurveyView.FileInput
      end.
Proof.
  simpl. intros [= <-]. unfold SurveyView.renderQuestion. simpl.
  destruct (Validations.question_type d); try reflexivity.
  pose proof (optionsField_optionsColumn (Validations.options d)) as H.
  unfold QuestionRows.optionsField in H.
  destruct (ResultsPage.whenTruthy
              (QuestionRows.optionsColumn (Validations.options d)))
    as [text|].
  - destruct (Js.JSON_parse text) as [[| |b|s|l]|]; try discriminate.
    injection H as <-. reflexivity.
  - injection H as <-. reflexivity.
Qed.

Lemma saved_question_renders_witness :
  exists saved,
    QuestionRows.questionsToInsert "s1"
      [Sample.choiceForm (Some ["Red"; "Blue"])] = [saved]
    /\ SurveyView.renderQuestion
         (QuestionRows.storedQuestion "q1" "2024-01-01T00:00:00Z" saved)
       = Some (SurveyView.RadioGroup ["Red"; "Blue"]).
Proof.
  eexists. split; [reflexivity|].
  apply (saved_question_renders
           (Sample.choiceForm (Some ["Red"; "Blue"]))
           "q1" "2024-01-01T00:00:00Z" "s1" 0).
  reflexivity.
Defined.

(** ** Loading the survey *)

(** After [fetchSurvey] the page is never left loading and never blank.  When
    both queries succeed the survey is stored with no error, and the form
    shows the first question, as question 1 of N with Previous disabled;
    a survey that came without questions makes the render fail.  When a query
    fails, no survey is stored, the error is a message that is not empty, and
    the page shows the not-found card. *)
Theorem view_after_fetch (r : SurveyView.Replies) :
  let st := SurveyView.fetchSurvey r SurveyView.initial in
  SurveyPage.isLoading st = false
  /\ match SurveyView.surveyReply r, SurveyView.questionsReply r with
     | Supabase.Data s, Supabase.Data questionsData =>
         let l := match questionsData with Some l => l | None => [] end in
         SurveyPage.survey st
         = Some {| SurveyPage.row := s; SurveyPage.questions := l |}
         /\ SurveyPage.error st = None
         /\ SurveyView.render st
            = match l with
              | [] => SurveyView.Crashed
              | q :: _ =>
                  SurveyView.Form q 1 (Z.of_nat (List.length l)) true
                                  (List.length l =? 1)%nat
              end
     | _, _ =>
         SurveyPage.survey st = None
         /\ (exists message,
                SurveyPage.error st = Some message /\ message <> "")
         /\ SurveyView.render st = SurveyView.NotFound
     end.
Proof.
  intros st. subst st. unfold SurveyView.fetchSurvey.
  destruct (SurveyView.surveyReply r) as [s|m].
  - destruct (SurveyView.questionsReply r) as [[l|]|m]; simpl.
    + split; [reflexivity|]. repeat split.
      unfold SurveyView.render. simpl.
      destruct l as [|q [|q' t]]; try reflexivity.
      unfold Js.index, SurveyPage.isLastQuestion.
      cbn [Z.ltb Z.compare Z.to_nat nth_error SurveyPage.questions
           SurveyPage.currentQuestionIndex SurveyView.setIsLoading
           SurveyView.setSurvey SurveyView.initial Nat.eqb List.length].
      replace (0 =? Z.of_nat (S (S (List.length t))) - 1)%Z with false
        by (symmetry; apply Z.eqb_neq; lia).
      reflexivity.
    + repeat split.
    + split; [reflexivity|]. split; [reflexivity|]. split.
      * eexists. split; [reflexivity|].
        unfold SurveyPage.orDefault. destruct m; discriminate.
      * unfold SurveyView.render. simpl.
        unfold SurveyPage.orDefault. destruct m; reflexivity.
  - simpl. split; [reflexivity|]. split; [reflexivity|]. split.
    + eexists. split; [reflexivity|]. discriminate.
    + reflexivity.
Qed.




(** ** The answer buffer *)

Lemma set_set {A : Type} (o : Js.object A) (k : string) (v1 v2 : A) :
  Js.set (Js.set o k v1) k v2 = Js.set o k v2.
Proof.
  induction o as [|[k' v'] t IH]; simpl.
  - now rewrite String.eqb_refl.
  - destruct (String.eqb k' k) eqn:E; simpl.
    + now rewrite String.eqb_refl.
    + now rewrite E, IH.
Qed.

Lemma set_keys {A : Type} (o : Js.object A) (k : string) (v : A) :
  (In k (map fst o) -> map fst (Js.set o k v) = map fst o)
  /\ (~ In k (map fst o) -> map fst (Js.set o k v) = (map fst o ++ [k])%list).
Proof.
  induction o as [|[k' v'] t [IHin IHout]]; simpl.
  - split; [intros []|reflexivity].
  - destruct (String.eqb k' k) eqn:E; simpl.
    + apply String.eqb_eq in E. subst k'. split; [reflexivity|].
      intros H. exfalso. apply H. now left.
    + apply String.eqb_neq in E. split.
      * intros [H|H]; [congruence|]. now rewrite IHin.
      * intros H. rewrite IHout; [reflexivity|]. intros Hin. apply H.
        now right.
Qed.

(** Recording an answer: the buffer then holds that value for the question,
    whatever it held before, and what it holds for every other question is
    unchanged; the index and the error are not touched; of two answers to
    one question the later one stays. *)
Theorem answer_recorded (st : SurveyPage.State) (questionId : string)
        (v w : Js.value) :
  let st' := SurveyPage.handleAnswerChange questionId v st in
  Js.prop (SurveyPage.answers st') questionId = Js.Own v
  /\ (forall other, other <> questionId ->
        Js.prop (SurveyPage.answers st') other
        = Js.prop (SurveyPage.answers st) other)
  /\ SurveyPage.currentQuestionIndex st' = SurveyPage.currentQuestionIndex st
  /\ SurveyPage.error st' = SurveyPage.error st
  /\ SurveyPage.handleAnswerChange questionId w st'
     = SurveyPage.handleAnswerChange questionId w st.
Proof.
  intros st'. subst st'. unfold SurveyPage.handleAnswerChange, Js.prop. simpl.
  rewrite get_set_same. split; [reflexivity|]. split.
  - intros other Hne. rewrite get_set_other; [reflexivity|congruence].
  - repeat split. unfold SurveyPage.setAnswers. simpl.
    now rewrite set_set.
Qed.

Lemma answer_recorded_witness :
  Js.prop
    (SurveyPage.answers
       (SurveyPage.handleAnswerChange "q1" (Js.Str "Blue") Sample.complete))
    "q3"
  = Js.Own (Js.Str "Because").
Proof.
  destruct (answer_recorded Sample.complete "q1" (Js.Str "Blue") Js.Null)
    as (_ & Hother & _).
  rewrite Hother; [reflexivity|discriminate].
Defined.

(** ** Navigation and the buffer *)

Lemma handle_effect (e : SurveyPage.Event) (st st' : SurveyPage.State) :
  SurveyPage.handle e st = Some st' ->
  SurveyPage.survey st' = SurveyPage.survey st
  /\ SurveyPage.isLoading st' = SurveyPage.isLoading st
  /\ match e with
     | SurveyPage.Change text =>
         SurveyPage.answers st' = SurveyPage.answers st
         \/ exists sv q,
              SurveyPage.shown st = Some (sv, q)
              /\ SurveyPage.answers st'
                 = Js.set (SurveyPage.answers st) (Database.Question.id q)
                          (Js.Str text)
     | _ => SurveyPage.answers st' = SurveyPage.answers st
     end.
Proof.
  unfold SurveyPage.handle.
  destruct (SurveyPage.shown st) as [[sv q]|] eqn:Es.
  - destruct e as [| |text].
    + destruct (_ =? _)%Z; intros [= <-]; auto.
    + destruct (SurveyPage.isLastQuestion sv st); [intros [= <-]; auto|].
      unfold SurveyPage.nextQuestion.
      destruct (SurveyPage.validateCurrentQuestion st) as [[]|];
        [intros [= <-]; auto|intros [= <-]; auto|discriminate].
    + intros [= <-]. repeat split. right. exists sv, q. auto.
  - intros [= <-]. destruct e; auto.
Qed.

Lemma shown_question (st : SurveyPage.State)
      (sv : SurveyPage.SurveyWithQuestions) (q : Database.Question.Row) :
  SurveyPage.shown st = Some (sv, q) ->
  SurveyPage.survey st = Some sv /\ In q (SurveyPage.questions sv).
Proof.
  unfold SurveyPage.shown.
  destruct (SurveyPage.isLoading st); [discriminate|].
  destruct (SurveyPage.survey st) as [sv'|]; [|discriminate].
  destruct (Js.index _ _) as [q'|] eqn:E; [|discriminate].
  intros [= <- <-]. split; [reflexivity|].
  unfold Js.index in E. destruct (_ <? _)%Z; [discriminate|].
  eapply nth_error_In, E.
Qed.

(** The keys of the buffer are distinct and are ids of questions of the
    survey. *)
Lemma run_keys (sv : SurveyPage.SurveyWithQuestions)
      (events : list SurveyPage.Event) :
  forall st st',
    SurveyPage.run events st = Some st' ->
    SurveyPage.survey st = Some sv ->
    NoDup (map fst (SurveyPage.answers st)) ->
    incl (map fst (SurveyPage.answers st))
         (map Database.Question.id (SurveyPage.questions sv)) ->
    NoDup (map fst (SurveyPage.answers st'))
    /\ incl (map fst (SurveyPage.answers st'))
            (map Database.Question.id (SurveyPage.questions sv)).
Proof.
  induction events as [|e rest IH]; intros st st'; simpl.
  - intros [= <-]. auto.
  - destruct (SurveyPage.handle e st) as [st1|] eqn:E; [|discriminate].
    intros Hrun Hsv Hnd Hincl.
    destruct (handle_effect e st st1 E) as (Hsv1 & _ & Hans).
    apply (IH st1 st' Hrun); [congruence| |].
    + destruct e as [| |text]; try (rewrite Hans; exact Hnd).
      destruct Hans as [->|(sv' & q & _ & ->)]; [exact Hnd|].
      destruct (in_dec string_dec (Database.Question.id q)
                       (map fst (SurveyPage.answers st))) as [Hin|Hout].
      * now rewrite (proj1 (set_keys _ _ _) Hin).
      * rewrite (proj2 (set_keys _ _ _) Hout).
        apply (Permutation_NoDup (Permutation_cons_append _ _)).
        now constructor.
    + destruct e as [| |text]; try (rewrite Hans; exact Hincl).
      destruct Hans as [->|(sv' & q & Hshown & ->)]; [exact Hincl|].
      apply shown_question in Hshown as [Hsv' Hq].
      assert (sv' = sv) by congruence. subst sv'.
      destruct (in_dec string_dec (Database.Question.id q)
                       (map fst (SurveyPage.answers st))) as [Hin|Hout].
      * now rewrite (proj1 (set_keys _ _ _) Hin).
      * rewrite (proj2 (set_keys _ _ _) Hout).
        intros x Hx. apply in_app_or in Hx as [Hx|[<-|[]]].
        -- now apply Hincl.
        -- now apply in_map.
Qed.

Lemma insertByIndex_perm {A : Type} (n : N) (e : string * A)
      (l : list (N * (string * A))) :
  Permutation (Js.insertByIndex n e l) ((n, e) :: l).
Proof.
  induction l as [|[n' e'] t IH]; simpl; [reflexivity|].
  destruct (n <? n')%N; [reflexivity|].
  rewrite IH. apply perm_swap.
Qed.

Lemma entries_perm {A : Type} (o : Js.object A) :
  Permutation (Js.entries o) o.
Proof.
  unfold Js.entries.
  induction o as [|[k v] t IH]; simpl; [reflexivity|].
  destruct (Js.arrayIndex k) as [n|].
  - rewrite insertByIndex_perm. simpl. now constructor.
  - rewrite <- Permutation_middle. now constructor.
Qed.

(** A submission holds at most one answer per question, and only answers to
    questions of the survey taken: the rows built from a buffer that was
    filled through the form have distinct question ids, each the id of a
    question of the survey. *)
Theorem one_row_per_question (sv : SurveyPage.SurveyWithQuestions)
        (events : list SurveyPage.Event) (st' : SurveyPage.State)
        (rid : string) :
  SurveyPage.run events (SurveyPage.loaded sv) = Some st' ->
  let rows := SurveyPage.answersToInsert rid (SurveyPage.answers st') in
  NoDup (map Database.NewAnswer.question_id rows)
  /\ (forall r, In r rows ->
        exists q, In q (SurveyPage.questions sv)
                  /\ Database.Question.id q
                     = Database.NewAnswer.question_id r).
Proof.
  intros Hrun rows.
  destruct (run_keys sv events _ _ Hrun eq_refl) as [Hnd Hincl];
    [constructor|intros x []|].
  assert (Hids : map Database.NewAnswer.question_id rows
                 = map fst (Js.entries (SurveyPage.answers st'))).
  { subst rows. unfold SurveyPage.answersToInsert. rewrite map_map.
    apply map_ext. intros [k v]. reflexivity. }
  split.
  - rewrite Hids.
    apply (Permutation_NoDup
             (Permutation_sym
                (Permutation_map fst (entries_perm (SurveyPage.answers st'))))).
    exact Hnd.
  - intros r Hr.
    assert (Hin : In (Database.NewAnswer.question_id r)
                     (map fst (SurveyPage.answers st'))).
    { apply (Permutation_in _
               (Permutation_map fst (entries_perm (SurveyPage.answers st')))).
      rewrite <- Hids. now apply in_map. }
    apply Hincl, in_map_iff in Hin as (q & Hq & Hin).
    now exists q.
Qed.

Lemma one_row_per_question_witness :
  NoDup
    (map Database.NewAnswer.question_id
       (SurveyPage.answersToInsert "r1"
          [("q1", Js.Str "Blue"); ("q2", Js.Str "Agree")])).
Proof.
  apply (one_row_per_question Sample.taken
           [SurveyPage.Change "Red"; SurveyPage.ClickNext;
            SurveyPage.Change "Agree"; SurveyPage.ClickPrevious;
            SurveyPage.Change "Blue"]
           _ "r1" eq_refl).
Defined.

(** Navigation never touches the answers, and Previous undoes Next: when the
    form shows a question and Next moves on, Previous then shows the same
    question again, with the same answers and no error. *)
Theorem previous_undoes_next (sv : SurveyPage.SurveyWithQuestions)
        (st st1 : SurveyPage.State) :
  Spec.showing sv st ->
  SurveyPage.handle SurveyPage.ClickNext st = Some st1 ->
  SurveyPage.answers st1 = SurveyPage.answers st
  /\ (SurveyPage.currentQuestionIndex st1
      <> SurveyPage.currentQuestionIndex st ->
      exists st2,
        SurveyPage.handle SurveyPage.ClickPrevious st1 = Some st2
        /\ SurveyPage.currentQuestionIndex st2
           = SurveyPage.currentQuestionIndex st
        /\ SurveyPage.answers st2 = SurveyPage.answers st
        /\ SurveyPage.error st2 = None
        /\ SurveyView.render st2
           = SurveyView.render (SurveyPage.setError None st)).
Proof.
  intros Hst Hnext.
  destruct (handle_effect _ _ _ Hnext) as (Hsv1 & Hload1 & Hans1).
  split; [exact Hans1|]. intros Hmoved.
  destruct (handle_showing sv SurveyPage.ClickNext st Hst)
    as (st1' & E & Hst1).
  assert (st1' = st1) by congruence. subst st1'.
  destruct Hst as (Hsv & Hload & Hrange).
  destruct Hst1 as (_ & _ & Hrange1).
  unfold Spec.inRange in *.
  assert (Hidx : SurveyPage.currentQuestionIndex st1
                 = (SurveyPage.currentQuestionIndex st + 1)%Z).
  { clear E. unfold SurveyPage.handle in Hnext.
    destruct (SurveyPage.shown st) as [[sv' q]|]; [|congruence].
    destruct (SurveyPage.isLastQuestion sv' st); [congruence|].
    unfold SurveyPage.nextQuestion in Hnext.
    destruct (SurveyPage.validateCurrentQuestion st) as [[]|];
      [|injection Hnext as <-; now destruct Hmoved|discriminate].
    injection Hnext as <-. reflexivity. }
  destruct (index_in_range _ _ Hrange1) as [q1 Hq1].
  unfold SurveyPage.handle, SurveyPage.shown.
  rewrite Hload1, Hload, Hsv1, Hsv, Hq1.
  replace (SurveyPage.currentQuestionIndex st1 =? 0)%Z with false
    by (symmetry; apply Z.eqb_neq; lia).
  eexists. split; [reflexivity|].
  unfold SurveyPage.previousQuestion. simpl.
  rewrite Hidx, Hans1.
  replace (SurveyPage.currentQuestionIndex st + 1 - 1)%Z
    with (SurveyPage.currentQuestionIndex st) by lia.
  repeat split.
  unfold SurveyView.render, SurveyPage.isLastQuestion. simpl.
  rewrite Hload1, Hload, Hsv1, Hsv, Hidx.
  replace (SurveyPage.currentQuestionIndex st + 1 - 1)%Z
    with (SurveyPage.currentQuestionIndex st) by lia.
  reflexivity.
Qed.

Lemma previous_undoes_next_witness :
  exists st2,
    SurveyPage.handle SurveyPage.ClickPrevious
      (SurveyPage.setCurrentQuestionIndex (fun prev => prev + 1)%Z
         (SurveyPage.setError None Sample.partly)) = Some st2
    /\ SurveyPage.currentQuestionIndex st2 = 0%Z
    /\ SurveyPage.answers st2 = [("q1", Js.Str "Red")]
    /\ SurveyPage.error st2 = None
    /\ SurveyView.render st2
       = SurveyView.render (SurveyPage.setError None Sample.partly).
Proof.
  destruct (previous_undoes_next Sample.taken Sample.partly
              (SurveyPage.setCurrentQuestionIndex (fun prev => prev + 1)%Z
                 (SurveyPage.setError None Sample.partly)))
    as (_ & Hback).
  - repeat split; simpl; lia.
  - reflexivity.
  - apply Hback. discriminate.
Defined.

(** ** Submission: failures and what is stored *)

(** When the required questions are answered and the store rejects the
    insert of the response, nothing is stored; when it accepts the response
    and rejects the answers, the response row stays in the table without any
    answer row.  Either way the error is shown, the router is not called, the
    state is no longer submitting, and the buffer and the index are kept for
    another try. *)
Theorem submitSurvey_rejected (b : Supabase.Backend) (db : Supabase.Store)
        (st : SurveyPage.State) (sv : SurveyPage.SurveyWithQuestions)
        (message : string) :
  SurveyPage.survey st = Some sv ->
  SurveyPage.missingRequired sv (SurveyPage.answers st) = [] ->
  let kept st' :=
    SurveyPage.error st'
    = Some (SurveyPage.orDefault message "Failed to submit survey")
    /\ SurveyPage.isSubmitting st' = false
    /\ SurveyPage.answers st' = SurveyPage.answers st
    /\ SurveyPage.currentQuestionIndex st'
       = SurveyPage.currentQuestionIndex st
    /\ SurveyPage.survey st' = Some sv in
  (Supabase.onInsertResponse b = Supabase.Rejected message ->
   exists st',
     SurveyPage.submitSurvey b db st = (db, st', None) /\ kept st')
  /\ (Supabase.onInsertResponse b = Supabase.Accepted ->
      Supabase.onInsertAnswers b = Supabase.Rejected message ->
      exists db' st' response,
        SurveyPage.submitSurvey b db st = (db', st', None)
        /\ kept st'
        /\ Supabase.responses db'
           = (Supabase.responses db ++ [response])%list
        /\ Database.Response.survey_id response
           = Database.Survey.id (SurveyPage.row sv)
        /\ Supabase.answers db' = Supabase.answers db).
Proof.
  intros Hsv Hnone kept. split.
  - intros Hresp. unfold SurveyPage.submitSurvey.
    rewrite Hsv, Hnone. simpl.
    unfold Supabase.insertResponse. rewrite Hresp.
    eexists. split; [reflexivity|]. unfold kept. simpl. auto.
  - intros Hresp Hans. unfold SurveyPage.submitSurvey.
    rewrite Hsv, Hnone. simpl.
    unfold Supabase.insertResponse. rewrite Hresp.
    unfold Supabase.insertAnswers. rewrite Hans. simpl.
    do 3 eexists. split; [reflexivity|]. unfold kept. simpl.
    repeat split; auto.
Qed.

Lemma submitSurvey_rejected_witness :
  exists db' st' response,
    SurveyPage.submitSurvey
      {| Supabase.onInsertResponse := Supabase.Accepted;
         Supabase.onInsertAnswers := Supabase.Rejected "timeout";
         Supabase.newResponseId := "r1";
         Supabase.now := "2024-05-06T07:08:09Z";
         Supabase.newAnswerId := fun _ => "a" |}
      Sample.emptyStore Sample.complete
    = (db', st', None)
    /\ SurveyPage.error st' = Some "timeout"
    /\ Supabase.responses db' = [response]
    /\ Supabase.answers db' = [].
Proof.
  destruct (submitSurvey_rejected
              {| Supabase.onInsertResponse := Supabase.Accepted;
                 Supabase.onInsertAnswers := Supabase.Rejected "timeout";
                 Supabase.newResponseId := "r1";
                 Supabase.now := "2024-05-06T07:08:09Z";
                 Supabase.newAnswerId := fun _ => "a" |}
              Sample.emptyStore Sample.complete Sample.taken "timeout"
              eq_refl eq_refl) as (_ & H).
  destruct (H eq_refl eq_refl)
    as (db' & st' & response & E & (Herr & _) & Hresp & _ & Hans).
  exists db', st', response. auto.
Defined.

Lemma get_In {A : Type} (o : Js.object A) (k : string) (v : A) :
  Js.get o k = Some v -> In (k, v) o.
Proof.
  induction o as [|[k' v'] t IH]; simpl; [discriminate|].
  destruct (String.eqb k' k) eqn:E.
  - apply String.eqb_eq in E. subst k'. intros [= ->]. now left.
  - intros H. right. now apply IH.
Qed.

(** What a submission that passes the check stores for a required question:
    when the buffer was filled through the form and no required question is
    missing, the rows to insert hold, for every required question of the
    survey, a row with a text that is not empty.  The ids of the questions
    are keys of the store, not names every object inherits. *)
Theorem required_answers_stored (sv : SurveyPage.SurveyWithQuestions)
        (events : list SurveyPage.Event) (st' : SurveyPage.State)
        (rid : string) (q : Database.Question.Row) :
  SurveyPage.run events (SurveyPage.loaded sv) = Some st' ->
  SurveyPage.missingRequired sv (SurveyPage.answers st') = [] ->
  In q (SurveyPage.questions sv) ->
  Database.Question.required q = true ->
  Js.inherited (Database.Question.id q) = false ->
  exists text,
    text <> ""
    /\ In {| Database.NewAnswer.response_id := rid;
             Database.NewAnswer.question_id := Database.Question.id q;
             Database.NewAnswer.answer_text := Some text;
             Database.NewAnswer.answer_choice := None |}
          (SurveyPage.answersToInsert rid (SurveyPage.answers st')).
Proof.
  intros Hrun Hnone Hq Hreq Hid.
  assert (Hmiss : SurveyPage.isMissing (SurveyPage.answers st') q = false).
  { destruct (SurveyPage.isMissing (SurveyPage.answers st') q) eqn:E;
      [|reflexivity].
    assert (Hin : In q (SurveyPage.missingRequired sv
                          (SurveyPage.answers st')))
      by (apply filter_In; auto).
    rewrite Hnone in Hin. destruct Hin. }
  rewrite isMissing_noAnswer, Hreq in Hmiss. simpl in Hmiss.
  unfold Js.prop in Hmiss.
  destruct (Js.get (SurveyPage.answers st') (Database.Question.id q))
    as [v|] eqn:Eg; [|rewrite Hid in Hmiss; discriminate].
  apply get_In in Eg.
  pose proof (run_strings events _ _ Hrun (Forall_nil _)) as Hall.
  rewrite Forall_forall in Hall.
  destruct (Hall _ Eg) as [text Htext]. simpl in Htext. subst v.
  exists text. split.
  - intros ->. discriminate.
  - unfold SurveyPage.answersToInsert.
    apply in_map_iff. exists (Database.Question.id q, Js.Str text).
    split; [reflexivity|]. now apply entries_In.
Qed.

Lemma required_answers_stored_witness :
  exists text,
    text <> ""
    /\ In {| Database.NewAnswer.response_id := "r1";
             Database.NewAnswer.question_id := "q3";
             Database.NewAnswer.answer_text := Some text;
             Database.NewAnswer.answer_choice := None |}
          (SurveyPage.answersToInsert "r1"
             [("q1", Js.Str "Red"); ("q3", Js.Str "Because")]).
Proof.
  apply (required_answers_stored Sample.taken
           [SurveyPage.Change "Red"; SurveyPage.ClickNext;
            SurveyPage.ClickNext; SurveyPage.Change "Because"]
           _ "r1" Sample.why eq_refl eq_refl);
    [right; right; left; reflexivity|reflexivity|reflexivity].
Defined.

(** ** Reading the CSV export back *)

Lemma isDquote_eq (c : ascii) : Js.isDquote c = true -> c = Js.dquote.
Proof.
  destruct c as [[] [] [] [] [] [] [] []]; vm_compute; congruence.
Qed.

Lemma cellText_escaped (cell : Js.value) :
  ResultsPage.cellText cell
  = Js.replaceChar Js.isDquote
      (String Js.dquote (String Js.dquote EmptyString))
      (Props.cellString cell).
Proof.
  destruct cell; reflexivity.
Qed.

Lemma read_escaped (s : string) :
  forall acc fields records rest,
    Props.readFrom true acc fields records
      (Js.replaceChar Js.isDquote
         (String Js.dquote (String Js.dquote EmptyString)) s
       ++ String Js.dquote rest)
    = Props.readFrom true (rev (list_ascii_of_string s) ++ acc)
        fields records (String Js.dquote rest).
Proof.
  induction s as [|c t IH]; intros acc fields records rest.
  - reflexivity.
  - cbn [Js.replaceChar list_ascii_of_string rev].
    destruct (Js.isDquote c) eqn:E.
    + apply isDquote_eq in E. subst c.
      change (Props.readFrom true (Js.dquote :: acc) fields records
                (Js.replaceChar Js.isDquote
                   (String Js.dquote (String Js.dquote EmptyString)) t
                 ++ String Js.dquote rest)
              = Props.readFrom true
                  ((rev (list_ascii_of_string t) ++ [Js.dquote]) ++ acc)
                  fields records (String Js.dquote rest)).
      rewrite IH, <- app_assoc. reflexivity.
    + change (String c (Js.replaceChar Js.isDquote
                          (String Js.dquote (String Js.dquote EmptyString)) t)
              ++ String Js.dquote rest)
        with (String c (Js.replaceChar Js.isDquote
                          (String Js.dquote (String Js.dquote EmptyString)) t
                        ++ String Js.dquote rest)).
      cbn [Props.readFrom]. rewrite E.
      rewrite IH, <- app_assoc. reflexivity.
Qed.

Lemma read_quoted (cell : Js.value) (fields : list string)
      (records : list (list string)) (rest : string) :
  Props.readFrom false [] fields records (ResultsPage.quoted cell ++ rest)
  = Props.readFrom true (rev (list_ascii_of_string (Props.cellString cell)))
      fields records (String Js.dquote rest).
Proof.
  unfold ResultsPage.quoted. rewrite cellText_escaped.
  change (Props.readFrom true [] fields records
            ((Js.replaceChar Js.isDquote
                (String Js.dquote (String Js.dquote EmptyString))
                (Props.cellString cell)
              ++ String Js.dquote EmptyString) ++ rest)
          = Props.readFrom true
              (rev (list_ascii_of_string (Props.cellString cell)))
              fields records (String Js.dquote rest)).
  rewrite append_assoc. simpl (String Js.dquote "" ++ rest).
  rewrite read_escaped, app_nil_r. reflexivity.
Qed.

Lemma ofRev_string (s : string) :
  Js.ofRev (rev (list_ascii_of_string s)) = s.
Proof.
  unfold Js.ofRev.
  now rewrite rev_involutive, string_of_list_ascii_of_string.
Qed.

Lemma line_cons (c d : Js.value) (cells : list Js.value) :
  ResultsPage.line (c :: d :: cells)
  = ResultsPage.quoted c ++ String "," (ResultsPage.line (d :: cells)).
Proof. reflexivity. Qed.

Lemma append_empty (s : string) : s ++ "" = s.
Proof.
  induction s as [|c t IH]; simpl; [reflexivity|]. now rewrite IH.
Qed.

Lemma close_at_end (acc : list ascii) (fields : list string)
      (records : list (list string)) :
  Props.readFrom true acc fields records (String Js.dquote "")
  = Some (rev (rev (Js.ofRev acc :: fields) :: records)).
Proof. reflexivity. Qed.

Lemma close_at_comma (acc : list ascii) (fields : list string)
      (records : list (list string)) (rest : string) :
  Props.readFrom true acc fields records (String Js.dquote (String "," rest))
  = Props.readFrom false [] (Js.ofRev acc :: fields) records rest.
Proof. reflexivity. Qed.

Lemma close_at_line_feed (acc : list ascii) (fields : list string)
      (records : list (list string)) (rest : string) :
  Props.readFrom true acc fields records
    (String Js.dquote (String (ascii_of_N 10) rest))
  = Props.readFrom false [] [] (rev (Js.ofRev acc :: fields) :: records) rest.
Proof. reflexivity. Qed.

Lemma read_line (cells : list Js.value) :
  cells <> [] ->
  forall fields records,
    Props.readFrom false [] fields records (ResultsPage.line cells)
    = Some (rev (rev (rev (map Props.cellString cells) ++ fields) :: records))
    /\ forall next,
         Props.readFrom false [] fields records
           (ResultsPage.line cells ++ String (ascii_of_N 10) next)
         = Props.readFrom false [] []
             (rev (rev (map Props.cellString cells) ++ fields) :: records)
             next.
Proof.
  induction cells as [|c cells IH]; [congruence|]. intros _ fields records.
  destruct cells as [|d cells].
  - change (ResultsPage.line [c]) with (ResultsPage.quoted c). split.
    + rewrite <- (append_empty (ResultsPage.quoted c)), read_quoted.
      rewrite close_at_end, ofRev_string. reflexivity.
    + intros next. rewrite read_quoted.
      rewrite close_at_line_feed, ofRev_string. reflexivity.
  - assert (Hne : d :: cells <> []) by discriminate.
    destruct (IH Hne (Props.cellString c :: fields) records)
      as [Hend Hnext].
    rewrite line_cons. split.
    + rewrite read_quoted, close_at_comma, ofRev_string, Hend.
      cbn [map rev]. rewrite <- !app_assoc. reflexivity.
    + intros next. rewrite append_assoc, read_quoted.
      change (String "," (ResultsPage.line (d :: cells))
              ++ String (ascii_of_N 10) next)
        with (String "," (ResultsPage.line (d :: cells)
                          ++ String (ascii_of_N 10) next)).
      rewrite close_at_comma, ofRev_string, Hnext.
      cbn [map rev]. rewrite <- !app_assoc. reflexivity.
Qed.

Lemma read_records (rows : list (list Js.value)) :
  rows <> [] ->
  Forall (fun cells => cells <> []) rows ->
  forall records,
    Props.readFrom false [] [] records
      (Js.join ResultsPage.newline (map ResultsPage.line rows))
    = Some (rev records ++ map (map Props.cellString) rows)%list.
Proof.
  induction rows as [|r rows IH]; [congruence|]. intros _ Hne records.
  inversion Hne as [|? ? Hr Hrows]; subst.
  destruct (read_line r Hr [] records) as [Hend Hnext].
  destruct rows as [|r' rows].
  - simpl Js.join. rewrite Hend. simpl.
    now rewrite app_nil_r, rev_involutive.
  - change (Js.join ResultsPage.newline
              (map ResultsPage.line (r :: r' :: rows)))
      with (ResultsPage.line r
            ++ String (ascii_of_N 10)
                 (Js.join ResultsPage.newline
                    (map ResultsPage.line (r' :: rows)))).
    rewrite Hnext, IH by (auto; discriminate).
    simpl. rewrite !app_nil_r, rev_involutive, <- app_assoc. reflexivity.
Qed.

(** The export reads back: a reader of quoted comma-separated values finds
    in the content of the file the rows of the export, record by record and
    field by field, with the text every cell had before quoting, whatever
    commas, double quotes or line feeds the texts hold. *)
Theorem csv_reads_back (format : string -> string -> string)
        (sv : ResultsPage.SurveyWithQuestions)
        (responses : list ResultsPage.ResponseWithAnswers)
        (rows : list (list Js.value)) :
  ResultsPage.csvRows format sv responses = Some rows ->
  exists content,
    ResultsPage.csvContent format sv responses = Some content
    /\ Props.readCsv content = Some (map (map Props.cellString) rows).
Proof.
  intros Hrows. unfold ResultsPage.csvContent. rewrite Hrows.
  eexists. split; [reflexivity|].
  unfold ResultsPage.csvRows in Hrows.
  destruct (ResultsPage.mapThrowing _ responses) as [body|] eqn:E;
    [|discriminate].
  injection Hrows as <-.
  unfold Props.readCsv. rewrite read_records; [reflexivity|discriminate|].
  constructor; [discriminate|].
  apply mapThrowing_Forall2 in E.
  induction E as [|r cells rs body' Hr Hrest IH]; constructor; auto.
  apply rowOf_cells in Hr as (values & -> & _). discriminate.
Qed.

Lemma csv_reads_back_witness :
  exists content,
    ResultsPage.csvContent Sample.verbatim Sample.polled Sample.exported
    = Some content
    /\ Props.readCsv content
       = Some [ ["Response ID"; "Submitted At"; "Favourite colour?"; "Why?"];
                ["r1"; "2024-05-06T07:08:09Z"; "Red";
                 "He said " ++ Sample.inQuotes "hi"];
                ["r2"; "2024-05-07T07:08:09Z"; "Red, Blue"; ""] ].
Proof.
  destruct (csv_reads_back Sample.verbatim Sample.polled Sample.exported
              _ eq_refl) as (content & Hcontent & Hread).
  exists content. split; [exact Hcontent|exact Hread].
Defined.

(** ** The tally: totals and labels *)

Lemma get_None_keys {A : Type} (o : Js.object A) (k : string) :
  Js.get o k = None -> ~ In k (map fst o).
Proof.
  induction o as [|[k' v'] t IH]; simpl; [tauto|].
  destruct (String.eqb k' k) eqn:E; [discriminate|].
  apply String.eqb_neq in E. intros H [Hk|Hin]; [congruence|].
  now apply IH.
Qed.

Lemma get_Some_keys {A : Type} (o : Js.object A) (k : string) (v : A) :
  Js.get o k = Some v -> In k (map fst o).
Proof.
  intros H. apply get_In in H. now apply (in_map fst) in H.
Qed.

Lemma sumCounts_set_present (o : Js.object ResultsPage.Tallied)
      (k : string) (x y : ResultsPage.Tallied) :
  Js.get o k = Some x ->
  Props.sumCounts (Js.set o k y) + Props.countOf x
  = Props.sumCounts o + Props.countOf y.
Proof.
  unfold Props.sumCounts.
  induction o as [|[k' v'] t IH]; simpl; [discriminate|].
  destruct (String.eqb k' k) eqn:E; simpl.
  - intros [= ->]. lia.
  - intros H. specialize (IH H). lia.
Qed.

Lemma sumCounts_set_absent (o : Js.object ResultsPage.Tallied)
      (k : string) (y : ResultsPage.Tallied) :
  Js.get o k = None ->
  Props.sumCounts (Js.set o k y) = Props.sumCounts o + Props.countOf y.
Proof.
  unfold Props.sumCounts.
  induction o as [|[k' v'] t IH]; simpl; [intros _; lia|].
  destruct (String.eqb k' k) eqn:E; simpl; [discriminate|].
  intros H. specialize (IH H). lia.
Qed.

Lemma set_numbers (o : Js.object ResultsPage.Tallied) (k : string)
      (n : nat) :
  Forall (fun e => exists m, snd e = ResultsPage.Count m) o ->
  Forall (fun e => exists m, snd e = ResultsPage.Count m)
         (Js.set o k (ResultsPage.Count n)).
Proof.
  induction 1 as [|[k' v'] t Hx Ht IH]; simpl.
  - constructor; [now exists n|constructor].
  - destruct (String.eqb k' k); constructor; auto. now exists n.
Qed.

Lemma bump_counted (o : Js.object ResultsPage.Tallied) (k : string) :
  Js.inherited k = false ->
  NoDup (map fst o) ->
  Forall (fun e => exists m, snd e = ResultsPage.Count m) o ->
  NoDup (map fst (ResultsPage.bump o k))
  /\ Forall (fun e => exists m, snd e = ResultsPage.Count m)
            (ResultsPage.bump o k)
  /\ Props.sumCounts (ResultsPage.bump o k) = S (Props.sumCounts o).
Proof.
  intros Hk Hnd Hnum. unfold ResultsPage.bump. rewrite Hk.
  destruct (Js.get o k) as [x|] eqn:E.
  - assert (Hx : exists m, x = ResultsPage.Count m).
    { rewrite Forall_forall in Hnum.
      destruct (Hnum _ (get_In _ _ _ E)) as [m Hm]. now exists m. }
    destruct Hx as [m ->]. repeat split.
    + now rewrite (proj1 (set_keys _ _ _) (get_Some_keys _ _ _ E)).
    + now apply set_numbers.
    + pose proof (sumCounts_set_present o k _ (ResultsPage.Count (m + 1)) E)
        as H. simpl in H. lia.
  - repeat split.
    + rewrite (proj2 (set_keys _ _ _) (get_None_keys _ _ E)).
      apply (Permutation_NoDup (Permutation_cons_append _ _)).
      constructor; [now apply get_None_keys|exact Hnd].
    + now apply set_numbers.
    + rewrite sumCounts_set_absent by exact E. simpl. lia.
Qed.

Lemma countAnswers_total (l : list Database.Answer.Row) :
  forall counts decoded,
    ResultsPage.mapThrowing ResultsPage.choiceOf l = Some decoded ->
    Forall (fun c => Js.inherited (Spec.keyText c) = false) decoded ->
    NoDup (map fst counts) ->
    Forall (fun e => exists m, snd e = ResultsPage.Count m) counts ->
    exists counts',
      ResultsPage.countAnswers counts l = Some counts'
      /\ NoDup (map fst counts')
      /\ Forall (fun e => exists m, snd e = ResultsPage.Count m) counts'
      /\ Props.sumCounts counts' = Props.sumCounts counts + List.length l.
Proof.
  induction l as [|a t IH]; intros counts decoded; simpl.
  - intros _ _ Hnd Hnum. exists counts. repeat split; auto.
  - destruct (ResultsPage.choiceOf a) as [c|]; [|discriminate].
    destruct (ResultsPage.mapThrowing ResultsPage.choiceOf t) as [ds|] eqn:E;
      [|discriminate].
    intros [= <-] Hkeys Hnd Hnum.
    inversion Hkeys as [|c' ds' Hc Hds]; subst.
    destruct (bump_counted counts _ Hc Hnd Hnum) as (Hnd1 & Hnum1 & Hsum1).
    destruct (IH _ ds eq_refl Hds Hnd1 Hnum1)
      as (counts' & Hcount & Hnd' & Hnum' & Hsum').
    exists counts'. repeat split; auto.
    rewrite Hsum'. lia.
Qed.

Lemma list_sum_perm (l1 l2 : list nat) :
  Permutation l1 l2 -> list_sum l1 = list_sum l2.
Proof.
  induction 1; simpl; lia.
Qed.

(** The slices of a chart add up and do not repeat: for a multiple choice or
    Likert question whose decoded answers have keys that no object inherits,
    the counts of the chart data are numbers that add up to the number of
    answers to the question, and no two chart data have the same answer. *)
Theorem chart_counts_add_up (q : Database.Question.Row)
        (responses : list ResultsPage.ResponseWithAnswers)
        (decoded : list Js.value) :
  ResultsPage.isChoiceLike (Database.Question.question_type q) = true ->
  ResultsPage.mapThrowing ResultsPage.choiceOf
    (ResultsPage.questionResponses q responses) = Some decoded ->
  Forall (fun c => Js.inherited (Spec.keyText c) = false) decoded ->
  exists data,
    ResultsPage.chartDataOf q responses = Some data
    /\ Forall (fun d => exists n, ResultsPage.count d = ResultsPage.Count n)
              data
    /\ list_sum (map (fun d => Props.countOf (ResultsPage.count d)) data)
       = List.length (ResultsPage.questionResponses q responses)
    /\ NoDup (map ResultsPage.fullAnswer data).
Proof.
  intros Hlike Hdec Hkeys.
  destruct (countAnswers_total _ [] decoded Hdec Hkeys)
    as (counts & Hcount & Hnd & Hnum & Hsum); [constructor|constructor|].
  unfold ResultsPage.chartDataOf. rewrite Hlike, Hcount.
  eexists. split; [reflexivity|].
  pose proof (entries_perm counts) as Hp.
  split; [|split].
  - apply Forall_map.
    apply (Permutation_Forall (Permutation_sym Hp)).
    revert Hnum. apply Forall_impl. intros [k v] [m Hm]. simpl in *.
    now exists m.
  - rewrite map_map.
    transitivity (Props.sumCounts counts); [|exact Hsum].
    unfold Props.sumCounts.
    rewrite <- (list_sum_perm _ _
                  (Permutation_map (fun e => Props.countOf (snd e)) Hp)).
    f_equal. apply map_ext. intros [k v]. reflexivity.
  - rewrite map_map.
    replace (map (fun x => ResultsPage.fullAnswer (ResultsPage.chartDatum x))
                 (Js.entries counts))
      with (map fst (Js.entries counts))
      by (apply map_ext; intros [k v]; reflexivity).
    apply (Permutation_NoDup (Permutation_sym (Permutation_map fst Hp))).
    exact Hnd.
Qed.

Lemma chart_counts_add_up_witness :
  exists data,
    ResultsPage.chartDataOf Sample.colour Sample.votes = Some data
    /\ Forall (fun d => exists n, ResultsPage.count d = ResultsPage.Count n)
              data
    /\ list_sum (map (fun d => Props.countOf (ResultsPage.count d)) data) = 3
    /\ NoDup (map ResultsPage.fullAnswer data).
Proof.
  apply (chart_counts_add_up Sample.colour Sample.votes
           [Js.Str "A"; Js.Arr ["A"]; Js.Str "B"]);
    [reflexivity|reflexivity|repeat constructor].
Defined.

Lemma substring_length (n : nat) (s : string) :
  String.length (substring 0 n s) = Nat.min n (String.length s).
Proof.
  revert s. induction n as [|n IH]; intros [|c t]; simpl; auto.
Qed.

Lemma substring_whole (n : nat) (s : string) :
  String.length s <= n -> substring 0 n s = s.
Proof.
  revert s. induction n as [|n IH]; intros [|c t]; simpl; auto;
    [lia|]. intros H. rewrite IH; [reflexivity|lia].
Qed.

Lemma append_length (a b : string) :
  String.length (a ++ b) = String.length a + String.length b.
Proof.
  induction a as [|c t IH]; simpl; auto.
Qed.

(** The label of a chart datum: the answer itself when it has at most 20
    code units, else its first 20 followed by three dots, so never more than
    23; the full answer and the count are those of the entry. *)
Theorem chart_label_bounded (key : string) (n : ResultsPage.Tallied) :
  let d := ResultsPage.chartDatum (key, n) in
  ResultsPage.fullAnswer d = key
  /\ ResultsPage.count d = n
  /\ String.length (ResultsPage.answer d) <= 23
  /\ (String.length key <= 20 -> ResultsPage.answer d = key)
  /\ (20 < String.length key ->
      ResultsPage.answer d = substring 0 20 key ++ "..."
      /\ String.length (ResultsPage.answer d) = 23).
Proof.
  intros d. subst d. simpl.
  split; [reflexivity|]. split; [reflexivity|].
  destruct (20 <? String.length key)%nat eqn:E.
  - apply Nat.ltb_lt in E. split; [|split].
    + rewrite append_length, substring_length.
      cbn [String.length]. lia.
    + lia.
    + intros _. split; [reflexivity|].
      rewrite append_length, substring_length.
      cbn [String.length]. lia.
  - apply Nat.ltb_ge in E. split; [|split].
    + rewrite append_length, substring_length.
      cbn [String.length]. lia.
    + intros _. now rewrite append_empty, substring_whole.
    + lia.
Qed.

Lemma chart_label_bounded_witness :
  ResultsPage.answer
    (ResultsPage.chartDatum
       ("Strongly Disagree with everything", ResultsPage.Count 1))
  = "Strongly Disagree wi...".
Proof.
  destruct (chart_label_bounded "Strongly Disagree with everything"
              (ResultsPage.Count 1)) as (_ & _ & _ & _ & Hlong).
  apply Hlong. simpl. lia.
Defined.

(** ** The responses by day *)

Lemma day_counts_split (p q : ResultsPage.ResponseWithAnswers -> bool)
      (l : list ResultsPage.ResponseWithAnswers) :
  (forall r, p r = true -> q r = false) ->
  List.length (filter (fun r => p r || q r) l)
  = List.length (filter p l) + List.length (filter q l).
Proof.
  intros Hpq. induction l as [|r t IH]; simpl; [reflexivity|].
  destruct (p r) eqn:Ep; simpl.
  - rewrite (Hpq r Ep). simpl. now rewrite IH.
  - destruct (q r); simpl; rewrite IH; lia.
Qed.

Lemma day_counts_sum (dayLabel : nat -> string) (labelOf : string -> string)
      (responses : list ResultsPage.ResponseWithAnswers) (days : list nat) :
  NoDup (map dayLabel days) ->
  list_sum
    (map (fun i =>
            List.length
              (filter (fun r =>
                         String.eqb
                           (labelOf (Database.Response.submitted_at
                                       (ResultsPage.row_of r)))
                           (dayLabel i))
                      responses))
         days)
  = List.length
      (filter (fun r =>
                 existsb
                   (String.eqb
                      (labelOf (Database.Response.submitted_at
                                  (ResultsPage.row_of r))))
                   (map dayLabel days))
              responses).
Proof.
  induction days as [|i days IH]; intros Hnd; simpl.
  - induction responses as [|r t IHr]; simpl; auto.
  - inversion Hnd as [|? ? Hout Hnd']; subst.
    rewrite (IH Hnd'). symmetry. apply day_counts_split.
    intros r Hr. apply String.eqb_eq in Hr.
    destruct (existsb _ (map dayLabel days)) eqn:E; [|reflexivity].
    apply existsb_exists in E as (x & Hx & Heq).
    apply String.eqb_eq in Heq. exfalso. apply Hout. congruence.
Qed.

(** The chart of the last seven days always has seven bars, the oldest day
    first; the bar of a day counts the responses whose day label is that of
    the day, so a day without responses has a bar of 0; and when the seven
    labels are distinct, the bars add up to the number of responses whose
    label is one of the seven, each counted once. *)
Theorem seven_days_counted (dayLabel : nat -> string)
        (labelOf : string -> string)
        (responses : list ResultsPage.ResponseWithAnswers) :
  let days := ResultsTable.responsesByDay dayLabel labelOf responses in
  let labelled r :=
    labelOf (Database.Response.submitted_at (ResultsPage.row_of r)) in
  map ResultsTable.date days = map dayLabel [6; 5; 4; 3; 2; 1; 0]
  /\ Forall (fun d =>
               ResultsTable.dayResponses d
               = List.length
                   (filter (fun r => String.eqb (labelled r)
                                                (ResultsTable.date d))
                           responses))
            days
  /\ (NoDup (map dayLabel (seq 0 7)) ->
      list_sum (map ResultsTable.dayResponses days)
      = List.length
          (filter (fun r => existsb (String.eqb (labelled r))
                                    (map dayLabel (seq 0 7)))
                  responses)
      /\ list_sum (map ResultsTable.dayResponses days)
         <= List.length responses).
Proof.
  intros days labelled. subst days.
  split; [reflexivity|]. split.
  - unfold ResultsTable.responsesByDay. apply Forall_rev, Forall_map.
    apply Forall_forall. intros i _. reflexivity.
  - intros Hnd.
    assert (E : list_sum
                  (map ResultsTable.dayResponses
                     (ResultsTable.responsesByDay dayLabel labelOf responses))
                = List.length
                    (filter (fun r => existsb (String.eqb (labelled r))
                                              (map dayLabel (seq 0 7)))
                            responses)).
    { unfold ResultsTable.responsesByDay.
      rewrite (list_sum_perm _ _
                 (Permutation_map ResultsTable.dayResponses
                    (Permutation_sym (Permutation_rev _)))).
      rewrite map_map. cbn [ResultsTable.dayResponses].
      apply (day_counts_sum dayLabel labelOf responses (seq 0 7) Hnd). }
    split; [exact E|]. rewrite E. apply filter_length_le.
Qed.

Lemma seven_days_counted_witness :
  list_sum
    (map ResultsTable.dayResponses
       (ResultsTable.responsesByDay
          (fun i => String (ascii_of_nat (48 + i)) "")
          (fun submitted => substring 9 1 submitted)
          Sample.exported))
  = 1.
Proof.
  destruct (seven_days_counted
              (fun i => String (ascii_of_nat (48 + i)) "")
              (fun submitted => substring 9 1 submitted)
              Sample.exported) as (_ & _ & H).
  destruct H as [H _].
  - repeat constructor; simpl; intuition discriminate.
  - rewrite H. reflexivity.
Defined.

(** ** The responses table *)

(** A cell of the responses table against the cell of the export for the
    same response and question.  Both throw on the same answers.  For a text
    answer the export has the text and the table its first 50 code units,
    followed by three dots when there are more; for an answer stored as a
    choice the two are equal; without an answer the table says No answer and
    the export has the empty string. *)
Theorem table_cell_against_export (response : ResultsPage.ResponseWithAnswers)
        (question : Database.Question.Row) :
  let shown := ResultsTable.displayValue response question in
  let exported := ResultsPage.answerValue response question in
  (shown = None <-> exported = None)
  /\ match find (fun a => String.eqb (Database.Answer.question_id a)
                                     (Database.Question.id question))
                (ResultsPage.answers response) with
     | None =>
         shown = Some (Js.Str "No answer") /\ exported = Some (Js.Str "")
     | Some a =>
         match ResultsPage.whenTruthy (Database.Answer.answer_text a) with
         | Some text =>
             exported = Some (Js.Str text)
             /\ (exists cell,
                    shown = Some (Js.Str cell)
                    /\ String.length cell <= 53
                    /\ (String.length text <= 50 -> cell = text)
                    /\ (50 < String.length text ->
                        cell = substring 0 50 text ++ "..."))
         | None =>
             match ResultsPage.whenTruthy
                     (Database.Answer.answer_choice a) with
             | Some _ => shown = exported
             | None =>
                 shown = Some (Js.Str "No answer")
                 /\ exported = Some (Js.Str "")
             end
         end
     end.
Proof.
  intros shown exported. subst shown exported.
  unfold ResultsTable.displayValue, ResultsPage.answerValue.
  destruct (find _ (ResultsPage.answers response)) as [a|];
    [|split; [split; discriminate|split; reflexivity]].
  destruct (ResultsPage.whenTruthy (Database.Answer.answer_text a))
    as [text|].
  - split; [split; discriminate|]. split; [reflexivity|].
    eexists. split; [reflexivity|].
    destruct (50 <? String.length text)%nat eqn:E.
    + apply Nat.ltb_lt in E. repeat split.
      * rewrite append_length, substring_length. cbn [String.length]. lia.
      * lia.
    + apply Nat.ltb_ge in E. repeat split.
      * rewrite append_length, substring_length. cbn [String.length]. lia.
      * intros _. now rewrite append_empty, substring_whole.
      * lia.
  - destruct (ResultsPage.whenTruthy (Database.Answer.answer_choice a))
      as [text|]; [|split; [split; discriminate|split; reflexivity]].
    destruct (Js.JSON_parse text) as [[| |b|s|l]|];
      (split; [split; auto; discriminate|reflexivity]).
Qed.

Lemma table_cell_against_export_witness :
  ResultsTable.displayValue
    (Sample.response "r1" "" [Sample.answerRow "a1" "r1" "q1" None None])
    Sample.colour
  = Some (Js.Str "No answer").
Proof.
  destruct (table_cell_against_export
              (Sample.response "r1" ""
                 [Sample.answerRow "a1" "r1" "q1" None None])
              Sample.colour) as (_ & H).
  apply H.
Defined.

(** ** Saving a survey *)

Lemma storeQuestions_survey (w : Saving.World) (sid : string)
      (rows : list QuestionRows.NewQuestion.Row) :
  Forall (fun r => QuestionRows.NewQuestion.survey_id r = sid) rows ->
  forall n,
    Forall (fun q => Database.Question.survey_id q = sid)
           (Saving.storeQuestions w n rows).
Proof.
  induction 1 as [|r t Hr Ht IH]; intros n; simpl; constructor; auto.
Qed.

Lemma storeQuestions_order (w : Saving.World)
      (rows : list QuestionRows.NewQuestion.Row) :
  forall n,
    map Database.Question.order_index (Saving.storeQuestions w n rows)
    = map QuestionRows.NewQuestion.order_index rows.
Proof.
  induction rows as [|r t IH]; intros n; simpl; [reflexivity|].
  now rewrite IH.
Qed.

Lemma storeQuestions_text (w : Saving.World)
      (rows : list QuestionRows.NewQuestion.Row) :
  forall n,
    map Database.Question.question_text (Saving.storeQuestions w n rows)
    = map QuestionRows.NewQuestion.question_text rows.
Proof.
  induction rows as [|r t IH]; intros n; simpl; [reflexivity|].
  now rewrite IH.
Qed.

Lemma questionsFrom_texts (sid : string)
      (l : list Validations.QuestionFormData) :
  forall index,
    map QuestionRows.NewQuestion.question_text
        (QuestionRows.questionsFrom sid index l)
    = map Validations.question_text l.
Proof.
  induction l as [|q t IH]; intros index; simpl; [reflexivity|].
  now rewrite IH.
Qed.

Lemma questionsFrom_survey (sid : string)
      (l : list Validations.QuestionFormData) :
  forall index,
    Forall (fun r => QuestionRows.NewQuestion.survey_id r = sid)
           (QuestionRows.questionsFrom sid index l).
Proof.
  induction l as [|q t IH]; intros index; simpl; constructor; auto.
Qed.

Lemma questionsOf_all (sid : string) (l : list Database.Question.Row) :
  Forall (fun q => Database.Question.survey_id q = sid) l ->
  Props.questionsOf sid l = l
  /\ forall other, other <> sid -> Props.questionsOf other l = [].
Proof.
  unfold Props.questionsOf.
  induction 1 as [|q t Hq Ht [IH1 IH2]]; simpl; [auto|]. split.
  - rewrite Hq, String.eqb_refl, IH1. reflexivity.
  - intros other Hne. rewrite Hq.
    replace (String.eqb sid other) with false
      by (symmetry; apply String.eqb_neq; congruence).
    now apply IH2.
Qed.

Lemma questionsOf_deleted (sid : string) (l : list Database.Question.Row) :
  Props.questionsOf sid
    (filter (fun q => negb (String.eqb (Database.Question.survey_id q) sid))
            l) = []
  /\ forall other,
       other <> sid ->
       Props.questionsOf other
         (filter (fun q => negb (String.eqb (Database.Question.survey_id q)
                                            sid)) l)
       = Props.questionsOf other l.
Proof.
  unfold Props.questionsOf. split.
  - induction l as [|q t IH]; simpl; [reflexivity|].
    destruct (String.eqb (Database.Question.survey_id q) sid) eqn:E; simpl;
      [exact IH|]. now rewrite E.
  - intros other Hne. induction l as [|q t IH]; simpl; [reflexivity|].
    destruct (String.eqb (Database.Question.survey_id q) sid) eqn:E; simpl.
    + apply String.eqb_eq in E.
      replace (String.eqb (Database.Question.survey_id q) other) with false
        by (symmetry; apply String.eqb_neq; congruence).
      exact IH.
    + now rewrite IH.
Qed.

Lemma questionsOf_app (sid : string) (a b : list Database.Question.Row) :
  Props.questionsOf sid (a ++ b)
  = (Props.questionsOf sid a ++ Props.questionsOf sid b)%list.
Proof. apply filter_app. Qed.

(** What a save of the edit page leaves in the table of questions.  If the
    update of the survey is rejected, nothing changes; if the delete is
    rejected, no question changes.  If the delete is accepted and the insert
    rejected, the survey is left without any question.  If all three are
    accepted, the questions of the survey are the rows of this save, in the
    order of the form with order indexes 0, 1, ..., N - 1.  The questions of
    the other surveys are never touched, and the router is called only when
    all three are accepted. *)
Theorem edit_save_outcomes (w : Saving.World) (surveyId : string)
        (data : Validations.SurveyWithQuestionsData) (db : Saving.Tables) :
  let out := Saving.editSubmit w surveyId data db in
  let after := Saving.questions (Saving.tables out) in
  (forall other, other <> surveyId ->
     Props.questionsOf other after
     = Props.questionsOf other (Saving.questions db))
  /\ (Saving.pushed out <> None <->
      Saving.onSurvey w = Supabase.Accepted
      /\ Saving.onDelete w = Supabase.Accepted
      /\ Saving.onQuestions w = Supabase.Accepted)
  /\ (Saving.pushed out = None <-> Saving.error out <> None)
  /\ match Saving.onSurvey w, Saving.onDelete w, Saving.onQuestions w with
     | Supabase.Rejected _, _, _ => Saving.tables out = db
     | Supabase.Accepted, Supabase.Rejected _, _ =>
         after = Saving.questions db
     | Supabase.Accepted, Supabase.Accepted, Supabase.Rejected _ =>
         Props.questionsOf surveyId after = []
     | Supabase.Accepted, Supabase.Accepted, Supabase.Accepted =>
         map Database.Question.question_text
             (Props.questionsOf surveyId after)
         = map Validations.question_text (Validations.questions data)
         /\ map Database.Question.order_index
                (Props.questionsOf surveyId after)
            = Props.indexesFrom 0
                (List.length (Validations.questions data))
     end.
Proof.
  intros out after. subst after out. unfold Saving.editSubmit.
  destruct (questionsOf_deleted surveyId (Saving.questions db))
    as [Hgone Hothers].
  destruct (Saving.onSurvey w) as [|m1];
    [|simpl; repeat split; try discriminate; try tauto;
      intros (E & _); discriminate].
  destruct (Saving.onDelete w) as [|m2];
    [|simpl; repeat split; try discriminate; try tauto;
      intros (_ & E & _); discriminate].
  destruct (Saving.onQuestions w) as [|m3].
  - simpl. unfold QuestionRows.questionsToInsert.
    set (n := List.length
                (filter
                   (fun q => negb (String.eqb (Database.Question.survey_id q)
                                              surveyId))
                   (Saving.questions db))).
    pose proof (questionsFrom_survey surveyId (Validations.questions data) 0)
      as Hsid.
    destruct (questionsOf_all surveyId _
                (storeQuestions_survey w surveyId _ Hsid n))
      as [Hall Hnone].
    split; [|split; [|split]].
    + intros other Hne.
      now rewrite questionsOf_app, (Hothers other Hne), (Hnone other Hne),
        app_nil_r.
    + split; [auto|discriminate].
    + split; [discriminate|]. intros H. now destruct H.
    + rewrite questionsOf_app, Hgone, Hall. simpl. split.
      * rewrite storeQuestions_text. apply questionsFrom_texts.
      * rewrite storeQuestions_order. apply questionsFrom_indexes.
  - simpl. split; [|split; [|split]].
    + exact Hothers.
    + split; [intros H; now destruct H|intros (_ & _ & E); discriminate].
    + split; [discriminate|reflexivity].
    + exact Hgone.
Qed.

Lemma edit_save_outcomes_witness :
  Props.questionsOf "s0"
    (Saving.questions
       (Saving.tables
          (Saving.editSubmit
             (Props.world Supabase.Accepted Supabase.Accepted
                          Supabase.Accepted)
             "s1" (Sample.surveyForm [Sample.choiceForm None]) Props.held)))
  = [Props.elsewhere]
  /\ Saving.pushed
       (Saving.editSubmit
          (Props.world Supabase.Accepted Supabase.Accepted Supabase.Accepted)
          "s1" (Sample.surveyForm [Sample.choiceForm None]) Props.held)
     <> None.
Proof.
  destruct (edit_save_outcomes
              (Props.world Supabase.Accepted Supabase.Accepted
                           Supabase.Accepted)
              "s1" (Sample.surveyForm [Sample.choiceForm None]) Props.held)
    as (Hothers & Hpushed & _).
  split.
  - rewrite (Hothers "s0"); [reflexivity|discriminate].
  - apply Hpushed. repeat split.
Defined.

(** What a save of the create page leaves in the tables.  If the insert of
    the survey is rejected, nothing changes.  If it is accepted, the survey
    row is added whatever happens next: when the insert of the questions is
    then rejected, the new survey stays, without any question, and the page
    shows an error.  When both are accepted, the rows added to the questions
    are those of the form in its order, all of the new survey, with order
    indexes 0, 1, ..., N - 1.  No row held before is changed or removed, and
    the router is called only when both inserts are accepted. *)
Theorem create_save_outcomes (w : Saving.World)
        (data : Validations.SurveyWithQuestionsData) (db : Saving.Tables) :
  let out := Saving.createSubmit w data db in
  let after := Saving.tables out in
  (Saving.pushed out <> None <->
   Saving.onSurvey w = Supabase.Accepted
   /\ Saving.onQuestions w = Supabase.Accepted)
  /\ (Saving.pushed out = None <-> Saving.error out <> None)
  /\ match Saving.onSurvey w with
     | Supabase.Rejected _ => after = db
     | Supabase.Accepted =>
         Saving.surveys after
         = (Saving.surveys db ++ [Saving.createdSurvey w data])%list
         /\ Database.Survey.id (Saving.createdSurvey w data)
            = Saving.newSurveyId w
         /\ match Saving.onQuestions w with
            | Supabase.Rejected _ => Saving.questions after = Saving.questions db
            | Supabase.Accepted =>
                exists added,
                  Saving.questions after
                  = (Saving.questions db ++ added)%list
                  /\ Forall (fun q => Database.Question.survey_id q
                                      = Saving.newSurveyId w) added
                  /\ map Database.Question.question_text added
                     = map Validations.question_text
                           (Validations.questions data)
                  /\ map Database.Question.order_index added
                     = Props.indexesFrom 0
                         (List.length (Validations.questions data))
            end
     end.
Proof.
  intros out after. subst after out. unfold Saving.createSubmit.
  destruct (Saving.onSurvey w) as [|m1];
    [|simpl; repeat split; try discriminate; try tauto;
      intros (E & _); discriminate].
  destruct (Saving.onQuestions w) as [|m2].
  - simpl. split; [|split; [|split; [|split]]]; try reflexivity.
    + split; [auto|discriminate].
    + split; [discriminate|]. intros Hn. now destruct Hn.
    + eexists. split; [reflexivity|]. split; [|split].
      * apply storeQuestions_survey.
        apply (questionsFrom_survey (Saving.newSurveyId w)
                 (Validations.questions data) 0).
      * rewrite storeQuestions_text. apply questionsFrom_texts.
      * rewrite storeQuestions_order. apply questionsFrom_indexes.
  - simpl. split; [|split; [|split; [|split]]]; try reflexivity.
    + split; [intros Hn; now destruct Hn|intros (_ & E); discriminate].
    + split; [discriminate|reflexivity].
Qed.

Lemma create_save_outcomes_witness :
  Saving.pushed
    (Saving.createSubmit
       (Props.world Supabase.Accepted Supabase.Accepted
                    (Supabase.Rejected "denied"))
       (Sample.surveyForm [Sample.choiceForm None]) Props.held)
  = None
  /\ Saving.error
       (Saving.createSubmit
          (Props.world Supabase.Accepted Supabase.Accepted
                       (Supabase.Rejected "denied"))
          (Sample.surveyForm [Sample.choiceForm None]) Props.held)
     <> None
  /\ List.length
       (Saving.surveys
          (Saving.tables
             (Saving.createSubmit
                (Props.world Supabase.Accepted Supabase.Accepted
                             (Supabase.Rejected "denied"))
                (Sample.surveyForm [Sample.choiceForm None]) Props.held)))
     = 2.
Proof.
  destruct (create_save_outcomes
              (Props.world Supabase.Accepted Supabase.Accepted
                           (Supabase.Rejected "denied"))
              (Sample.surveyForm [Sample.choiceForm None]) Props.held)
    as (_ & Herror & Hrows).
  simpl in Hrows. destruct Hrows as (Hsurveys & _).
  assert (Hnone : Saving.pushed
                    (Saving.createSubmit
                       (Props.world Supabase.Accepted Supabase.Accepted
                                    (Supabase.Rejected "denied"))
                       (Sample.surveyForm [Sample.choiceForm None])
                       Props.held) = None) by reflexivity.
  split; [exact Hnone|]. split.
  - apply Herror, Hnone.
  - exact (f_equal (@List.length _) Hsurveys).
Defined.

(** ** The size of the responses table *)

Lemma Forall2_right {A B : Type} (R : A -> B -> Prop) (P : B -> Prop)
      (l : list A) (ys : list B) :
  (forall x y, R x y -> P y) -> Forall2 R l ys -> Forall P ys.
Proof. intros H F. induction F; constructor; eauto. Qed.

(** When no cell throws, the responses table has one row for each of the
    first ten responses, and each row one cell for each of the first three
    questions: never more than ten rows of three cells. *)
Theorem table_size (survey : ResultsPage.SurveyWithQuestions)
        (responses : list ResultsPage.ResponseWithAnswers)
        (rows : list (list Js.value)) :
  ResultsTable.tableCells survey responses = Some rows ->
  List.length rows = Nat.min 10 (List.length responses)
  /\ Forall (fun cells =>
               List.length cells
               = Nat.min 3 (List.length (ResultsPage.questions survey)))
            rows.
Proof.
  unfold ResultsTable.tableCells. intros H. split.
  - rewrite (mapThrowing_length _ _ _ H). apply length_firstn.
  - apply mapThrowing_Forall2 in H. revert H. apply Forall2_right.
    intros response cells Hcells.
    rewrite (mapThrowing_length _ _ _ Hcells). apply length_firstn.
Qed.

Lemma table_size_witness :
  ResultsTable.tableCells Sample.polled Sample.votes = Some Props.votesTable
  /\ List.length Props.votesTable = 3
  /\ Forall (fun cells => List.length cells = 2) Props.votesTable.
Proof.
  assert (H : ResultsTable.tableCells Sample.polled Sample.votes
              = Some Props.votesTable) by reflexivity.
  split; [exact H|]. exact (table_size _ _ _ H).
Defined.
